(** * iconfont-mcp: session store, detail cache and auto-login orchestrator

    A shallow embedding of [services/iconfont.ts] (class [IconfontService]),
    [services/login.ts] (class [IconfontLoginService]) and of the
    [iconfont_login] / [iconfont_auto_login] tool handlers of
    [tools/iconfont.ts], together with the properties the specification
    states about them.

    Conventions of the embedding:
    - a JavaScript string is a [string] of code units below 256 (header and
      cookie values are Latin-1 on the wire);
    - an optional argument [x?: T] is an [option T], [None] being [undefined];
    - a rejected promise / thrown [Error] is the error's message;
    - [Date.now()] is an integer number of milliseconds, a [Z];
    - a number that is printed or computed with is a double: the integer
      [z : Z] stands for the double nearest to it, which is [z] itself below
      [2^53] (module [JS], Numbers);
    - every awaited collaborator (axios, puppeteer, the system shell) is a
      field of an explicit runtime record, so that a run of the code is a
      function of what the collaborators answer. *)

From Stdlib Require Import ZArith String Ascii Lia List DecimalString.
From stdpp Require Import gmap strings.
From Equations Require Import Equations.
Import ListNotations.
Open Scope string_scope.
Open Scope Z_scope.

(** ** JavaScript primitives used by the sources *)

Module JS.

(** [!!s] for a string [s]: only the empty string is falsy. *)
Definition truthy (s : string) : bool :=
  match s with
  | EmptyString => false
  | String _ _ => true
  end.

(** [o || d] for an optional string [o]. *)
Definition orStr (o : option string) (d : string) : string :=
  match o with
  | Some s => if truthy s then s else d
  | None => d
  end.

(** [o || 0] for an optional number. *)
Definition orNum (o : option Z) : Z :=
  match o with
  | Some n => n
  | None => 0
  end.

(** *** Numbers

    A JavaScript number is a double. The numbers of this program are counts,
    pages and times: integers. An integer [z : Z] stands for the double
    nearest to it (ties to even), as when a JSON number is parsed; the
    integers below [2^53] in absolute value are doubles themselves, and
    arithmetic on them is exact as long as the result stays below
    [2^53]. [Finite z] is written for doubles [z] only: the results of
    [toNumber] and small literals. *)

Inductive Number :=
| Finite (z : Z)
| Infinity (negative : bool)
| NaN.

(** The double nearest to the integer [z], [Infinity] beyond the range. *)
Definition toNumber (z : Z) : Number :=
  let m := Z.abs z in
  if m <? 2 ^ 53 then Finite z
  else
    let ulp := 2 ^ (Z.log2 m - 52) in
    let q := m / ulp in
    let r := m mod ulp in
    let q' := if (ulp <? 2 * r) || ((ulp =? 2 * r) && Z.odd q) then q + 1 else q in
    if 2 ^ 1024 <=? q' * ulp then Infinity (z <? 0)
    else Finite (Z.sgn z * (q' * ulp)).

(** [a + b] *)
Definition add (a b : Number) : Number :=
  match a, b with
  | Finite x, Finite y => toNumber (x + y)
  | NaN, _ | _, NaN => NaN
  | Infinity n, Finite _ | Finite _, Infinity n => Infinity n
  | Infinity n, Infinity n' => if Bool.eqb n n' then Infinity n else NaN
  end.

(** [a * b] *)
Definition mul (a b : Number) : Number :=
  match a, b with
  | Finite x, Finite y => toNumber (x * y)
  | NaN, _ | _, NaN => NaN
  | Infinity n, Finite y | Finite y, Infinity n =>
      if y =? 0 then NaN else Infinity (xorb n (y <? 0))
  | Infinity n, Infinity n' => Infinity (xorb n n')
  end.

(** [a > b] *)
Definition gt (a b : Number) : bool :=
  match a, b with
  | Finite x, Finite y => y <? x
  | Finite _, Infinity n => n
  | Infinity n, Finite _ => negb n
  | Infinity n, Infinity n' => negb n && n'
  | NaN, _ | _, NaN => false
  end.

(** The decimal digits of an integer, with its sign. *)
Definition digits (z : Z) : string :=
  NilEmpty.string_of_int (Z.to_int z).

Fixpoint zeros (n : nat) : string :=
  match n with
  | O => EmptyString
  | S k => String "0" (zeros k)
  end.

(** The [k]-digit integer [s], if any, for which [s * 10^(d-k)] is nearest
    to the double [x] of [d] digits and rounds to it. *)
Definition roundTrip (x d k : Z) : option Z :=
  let e := 10 ^ (d - k) in
  let s0 := x / e in
  let s1 := s0 + 1 in
  let ok s :=
    (s <? 10 ^ k) &&
    match toNumber (s * e) with
    | Finite y => y =? x
    | _ => false
    end in
  match ok s0, ok s1 with
  | true, true =>
      let below := x - s0 * e in
      let above := s1 * e - x in
      if below <? above then Some s0
      else if above <? below then Some s1
      else if Z.even s0 then Some s0 else Some s1
  | true, false => Some s0
  | false, true => Some s1
  | false, false => None
  end.

(** The shortest digits [(s, k)] that round to [x], trying [k] upwards. *)
Fixpoint shortest (fuel : nat) (x d k : Z) : Z * Z :=
  match fuel with
  | O => (x, d)
  | S fuel' =>
      match roundTrip x d k with
      | Some s => (s, k)
      | None => shortest fuel' x d (k + 1)
      end
  end.

(** [Number::toString] for a double [x >= 2^53]: the shortest digits that
    round to [x], followed by zeros up to 21 digits and in exponent form
    beyond. *)
Definition bigToString (x : Z) : string :=
  let d := Z.of_nat (String.length (digits x)) in
  let '(s, k, n) :=
    match toNumber (10 ^ d) with
    | Finite y => if y =? x then (1, 1, d + 1)
                  else let '(s, k) := shortest (Z.to_nat d) x d 1 in (s, k, d)
    | _ => let '(s, k) := shortest (Z.to_nat d) x d 1 in (s, k, d)
    end in
  if n <=? 21 then digits s +:+ zeros (Z.to_nat (n - k))
  else
    match digits s with
    | EmptyString => EmptyString
    | String c EmptyString => String c EmptyString +:+ "e+" +:+ digits (n - 1)
    | String c rest => String c ("." +:+ rest) +:+ "e+" +:+ digits (n - 1)
    end.

(** [String(x)] *)
Definition numberToString (x : Number) : string :=
  match x with
  | NaN => "NaN"
  | Infinity true => "-Infinity"
  | Infinity false => "Infinity"
  | Finite z =>
      if Z.abs z <? 2 ^ 53 then digits z
      else if z <? 0 then "-" +:+ bigToString (- z) else bigToString z
  end.

(** [n.toString()] for an integer [n]. *)
Definition numToString (n : Z) : string :=
  numberToString (toNumber n).

(** WhiteSpace and LineTerminator code units below 256:
    TAB, LF, VT, FF, CR, SP and NBSP. *)
Definition isWhiteSpace (c : ascii) : bool :=
  let n := nat_of_ascii c in
  ((9 <=? n)%nat && (n <=? 13)%nat) || (n =? 32)%nat || (n =? 160)%nat.

Fixpoint trimStart (s : string) : string :=
  match s with
  | EmptyString => EmptyString
  | String c r => if isWhiteSpace c then trimStart r else s
  end.

Fixpoint trimEnd (s : string) : string :=
  match s with
  | EmptyString => EmptyString
  | String c r =>
      match trimEnd r with
      | EmptyString => if isWhiteSpace c then EmptyString else String c EmptyString
      | r' => String c r'
      end
  end.

(** [s.trim()] *)
Definition trim (s : string) : string := trimEnd (trimStart s).

(** [s.startsWith(p)] *)
Definition startsWith (s p : string) : bool := String.prefix p s.

(** [s.split(sep)] for a one-character separator: never the empty array. *)
Fixpoint split (sep : ascii) (s : string) : list string :=
  match s with
  | EmptyString => [EmptyString]
  | String c r =>
      if Ascii.eqb c sep then EmptyString :: split sep r
      else match split sep r with
           | h :: t => String c h :: t
           | [] => [String c EmptyString]
           end
  end.

(** [l.join(sep)] *)
Fixpoint join (sep : string) (l : list string) : string :=
  match l with
  | [] => EmptyString
  | [x] => x
  | x :: r => x +:+ sep +:+ join sep r
  end.

Fixpoint drop (n : nat) (s : string) : string :=
  match n, s with
  | O, _ => s
  | S _, EmptyString => EmptyString
  | S k, String _ r => drop k r
  end.

(** [s.replace(pat, rep)] for a string pattern: the first occurrence only. *)
Fixpoint replace (pat rep s : string) : string :=
  if String.prefix pat s then rep +:+ drop (String.length pat) s
  else match s with
       | EmptyString => EmptyString
       | String c r => String c (replace pat rep r)
       end.

(** [o[k] = v] on an object seen as an ordered list of properties: an
    existing key keeps its place. *)
Fixpoint setProp (k v : string) (o : list (string * string)) : list (string * string) :=
  match o with
  | [] => [(k, v)]
  | (k', v') :: r => if String.eqb k' k then (k, v) :: r else (k', v') :: setProp k v r
  end.

Fixpoint getProp (k : string) (o : list (string * string)) : option string :=
  match o with
  | [] => None
  | (k', v) :: r => if String.eqb k' k then Some v else getProp k r
  end.

End JS.

(** The outcome of an awaited promise: fulfilled with a value, or rejected
    with an [Error] whose message is given. *)
Inductive Completion (A : Type) : Type :=
| Fulfilled (a : A)
| Rejected (message : string).
Arguments Fulfilled {A} a.
Arguments Rejected {A} message.

(** ** The HTTP collaborator (axios) *)

Inductive Method := GET | POST.

Inductive Param :=
| PStr (s : string)
| PNum (n : Z).

Record Request := {
  method : Method;
  url : string;
  params : list (string * Param);
  form : list (string * string);
  headers : list (string * string);
  timeout : Z
}.

(** Identifiers arrive as numbers or as strings; [toString] is applied. *)
Inductive JsId :=
| IdNum (n : Z)
| IdStr (s : string).

Definition idToString (i : JsId) : string :=
  match i with
  | IdNum n => JS.numToString n
  | IdStr s => s
  end.

(** The fields the code reads from the remote JSON, each possibly missing. *)
Record RawIcon := {
  r_id : option JsId;
  r_icon_id : option JsId;
  r_name : option string;
  r_show_svg : option string;
  r_svg : option string;
  r_font_class : option string;
  r_unicode : option string;
  r_tags : option (list string)
}.

Record RawProject := {
  p_id : option JsId;
  p_name : option string;
  p_icon_count : option Z;
  p_font_family : option string;
  p_created_at : option string;
  p_updated_at : option string
}.

(** [response.data.data]: the properties read by the project and search
    operations, and [d_self], the same object read as an icon by
    [getIconDetail] (its [id], [name], [svg], ... properties). *)
Record Payload := {
  d_self : RawIcon;
  d_total : option Z;
  d_icons : option (list RawIcon);
  d_ownProjects : option (list RawProject);
  d_corpProjects : option (list RawProject);
  d_project : option RawProject;
  d_creator_username : option string
}.

(** What is thrown inside a [try] block around an axios call. *)
Inductive Thrown :=
| AxiosError (status : option Z) (code : option string) (message : string)
| PlainError (message : string)
| NotAnError.

(** [error instanceof Error ? error.message : "Unknown error"] *)
Definition messageOf (e : Thrown) : string :=
  match e with
  | AxiosError _ _ m => m
  | PlainError m => m
  | NotAnError => "Unknown error"
  end.

(** [error instanceof AxiosError && (error.response?.status === 401 ||
    error.response?.status === 403)] *)
Definition isAuthStatus (e : Thrown) : bool :=
  match e with
  | AxiosError (Some s) _ _ => (s =? 401) || (s =? 403)
  | _ => false
  end.

(** [error instanceof AxiosError && error.code === "ECONNABORTED"] *)
Definition isAborted (e : Thrown) : bool :=
  match e with
  | AxiosError _ (Some c) _ => String.eqb c "ECONNABORTED"
  | _ => false
  end.

(** An axios call resolves with [response.data] ([None] when it is falsy,
    [Some None] when [response.data.data] is falsy) or throws. *)
Inductive AxiosOutcome :=
| Resolves (data : option (option Payload))
| Throws (e : Thrown).

Record Runtime := {
  axios : Request -> AxiosOutcome;
  encodeURIComponent : string -> string
}.

(** ** The result interfaces of [types.ts] *)

Record IconfontIcon := {
  icon_id : string;
  icon_name : string;
  show_svg : string;
  svg : string;
  font_class : option string;
  unicode : option string;
  tags : list string
}.

Record IconfontSearchResult := {
  total : Z;
  page : Z;
  page_size : Z;
  icons : list IconfontIcon
}.

Record IconfontProject := {
  proj_id : string;
  proj_name : string;
  proj_icon_count : Z;
  proj_updated_at : string
}.

Record IconfontProjectDetail := {
  id : string;
  name : string;
  icon_count : Z;
  font_family : string;
  created_at : string;
  updated_at : string;
  username : string
}.

(** ** [services/iconfont.ts] *)

Module IconfontService.

Definition ICONFONT_API_BASE : string := "https://www.iconfont.cn/api".
Definition USER_AGENT : string :=
  "Mozilla/5.0 (Macintosh; Intel Mac OS X 10_15_7) AppleWebKit/537.36 (KHTML, like Gecko) Chrome/120.0.0.0 Safari/537.36".

Record CacheEntry := {
  data : IconfontProjectDetail;
  timestamp : Z;
  updatedAt : string
}.

(** The object's private fields. *)
Record t := {
  cookie : string;
  loggedIn : bool;
  projectDetailCache : gmap string CacheEntry;
  cacheMaxAge : Z
}.

(** [constructor(cookie?)], [env] being [process.env.ICONFONT_COOKIE]. *)
Definition constructor (cookie : option string) (env : option string) : t :=
  let c := JS.orStr cookie (JS.orStr env "") in
  {| cookie := c;
     loggedIn := if JS.truthy c then true else false;
     projectDetailCache := ∅;
     cacheMaxAge := 5 * 60 * 1000 |}.

Definition setCookie (self : t) (c : string) : t :=
  {| cookie := c;
     loggedIn := true;
     projectDetailCache := projectDetailCache self;
     cacheMaxAge := cacheMaxAge self |}.

Definition getCookie (self : t) : string := cookie self.

Definition getEffectiveCookie (self : t) (overrideCookie : option string) : string :=
  JS.orStr overrideCookie (cookie self).

(** The [cookieValue] of [getHeaders]. *)
Definition cookieValue (cookie : string) : string :=
  if JS.startsWith cookie "EGG_SESS_ICONFONT=" then cookie
  else "EGG_SESS_ICONFONT=" +:+ cookie.

Definition getHeaders (self : t) (overrideCookie : option string) : list (string * string) :=
  let cookie := getEffectiveCookie self overrideCookie in
  let cookieValue := cookieValue cookie in
  ([("User-Agent", USER_AGENT);
    ("Accept", "application/json");
    ("Referer", "https://www.iconfont.cn/")]
   ++ (if JS.truthy cookie then [("Cookie", cookieValue)] else []))%list.

Definition isLoggedIn (self : t) : bool := loggedIn self.

Record LoginStatus := {
  st_loggedIn : bool;
  st_hasCookie : bool
}.

Definition getLoginStatus (self : t) : LoginStatus :=
  {| st_loggedIn := loggedIn self;
     st_hasCookie := JS.truthy (cookie self) |}.

Definition clearCache (self : t) : t :=
  {| cookie := cookie self;
     loggedIn := loggedIn self;
     projectDetailCache := ∅;
     cacheMaxAge := cacheMaxAge self |}.

(** A run of an async method: how the promise settles, the object
    afterwards, and the requests handed to axios, in order. *)
Record Run (A : Type) := {
  outcome : Completion A;
  after : t;
  wire : list Request
}.
Arguments outcome {A} r.
Arguments after {A} r.
Arguments wire {A} r.

Definition mapIcon (icon : RawIcon) : IconfontIcon :=
  {| icon_id :=
       let a := match r_id icon with Some i => idToString i | None => "" end in
       if JS.truthy a then a
       else match r_icon_id icon with Some i => idToString i | None => "" end;
     icon_name := JS.orStr (r_name icon) "";
     show_svg := JS.orStr (r_show_svg icon) "";
     svg := JS.orStr (r_svg icon) (JS.orStr (r_show_svg icon) "");
     font_class := r_font_class icon;
     unicode := r_unicode icon;
     tags := match r_tags icon with Some l => l | None => [] end |}.

Definition mapIcons (d : Payload) : list IconfontIcon :=
  map mapIcon (match d_icons d with Some l => l | None => [] end).

Definition searchIcons (rt : Runtime) (self : t) (now : Z)
    (query : string) (iconType : option string)
    (page pageSize : option Z) : Run IconfontSearchResult :=
  let iconType := default "" iconType in
  let page := default 1 page in
  let pageSize := default 54 pageSize in
  let params :=
    ([("q", query); ("sortType", "updated_at");
      ("page", JS.numToString page); ("pageSize", JS.numToString pageSize);
      ("fromCollection", "-1"); ("fills", ""); ("t", JS.numToString now)]
     ++ (if JS.truthy iconType then [(iconType, "1")] else []))%list in
  let req :=
    {| method := POST;
       url := ICONFONT_API_BASE +:+ "/icon/search.json";
       params := [];
       form := params;
       headers := JS.setProp "Content-Type" "application/x-www-form-urlencoded"
                    (getHeaders self None);
       timeout := 30000 |} in
  let settle o := {| outcome := o; after := self; wire := [req] |} in
  match axios rt req with
  | Resolves (Some (Some d)) =>
      settle (Fulfilled {| total := JS.orNum (d_total d); page := page;
                           page_size := pageSize; icons := mapIcons d |})
  | Resolves _ =>
      settle (Fulfilled {| total := 0; page := page; page_size := pageSize; icons := [] |})
  | Throws error =>
      if isAuthStatus error then
        settle (Rejected "Authentication failed. Please provide a valid Iconfont cookie.")
      else if isAborted error then
        settle (Rejected "Request timed out. Please try again.")
      else settle (Rejected ("Failed to search icons: " +:+ messageOf error))
  end.

Definition getIconDetail (rt : Runtime) (self : t) (iconId : string)
    : Run (option IconfontIcon) :=
  let req :=
    {| method := GET;
       url := ICONFONT_API_BASE +:+ "/icon/" +:+ iconId +:+ ".json";
       params := [];
       form := [];
       headers := getHeaders self None;
       timeout := 30000 |} in
  let settle o := {| outcome := o; after := self; wire := [req] |} in
  match axios rt req with
  | Resolves (Some (Some d)) =>
      settle (Fulfilled (Some (mapIcon (d_self d))))
  | Resolves _ => settle (Fulfilled None)
  | Throws error =>
      settle (Rejected ("Failed to get icon details: " +:+ messageOf error))
  end.

Definition mapProject (project : RawProject) : IconfontProject :=
  {| proj_id := JS.orStr (option_map idToString (p_id project)) "";
     proj_name := JS.orStr (p_name project) "";
     proj_icon_count := JS.orNum (p_icon_count project);
     proj_updated_at := JS.orStr (p_updated_at project) "" |}.

(** The request of [listProjects]. *)
Definition projectsRequest (self : t) (now : Z) (overrideCookie : option string)
    : Request :=
  {| method := GET;
     url := ICONFONT_API_BASE +:+ "/user/myprojects.json";
     params := [("page", PNum 1); ("t", PNum now)];
     form := [];
     headers := getHeaders self overrideCookie;
     timeout := 30000 |}.

Definition listProjects (rt : Runtime) (self : t) (now : Z)
    (overrideCookie : option string) : Run (list IconfontProject) :=
  let cookie := getEffectiveCookie self overrideCookie in
  if negb (JS.truthy cookie) then
    {| outcome := Rejected "Authentication required. Please provide Iconfont cookie.";
       after := self; wire := [] |}
  else
    let req := projectsRequest self now overrideCookie in
    let settle o := {| outcome := o; after := self; wire := [req] |} in
    match axios rt req with
    | Resolves (Some (Some d)) =>
        let ownProjects := default [] (d_ownProjects d) in
        let corpProjects := default [] (d_corpProjects d) in
        let allProjects := (ownProjects ++ corpProjects)%list in
        settle (Fulfilled (map mapProject allProjects))
    | Resolves _ => settle (Fulfilled [])
    | Throws error =>
        if isAuthStatus error then
          settle (Rejected "Authentication failed. Please check your Iconfont cookie.")
        else settle (Rejected ("Failed to list projects: " +:+ messageOf error))
    end.

Definition getProjectIcons (rt : Runtime) (self : t) (projectId : string)
    (page pageSize : option Z) : Run IconfontSearchResult :=
  let page := default 1 page in
  let pageSize := default 100 pageSize in
  if negb (JS.truthy (cookie self)) then
    {| outcome := Rejected "Authentication required. Please provide Iconfont cookie.";
       after := self; wire := [] |}
  else
    let req :=
      {| method := GET;
         url := ICONFONT_API_BASE +:+ "/project/symbols.json";
         params := [("id", PStr projectId); ("page", PNum page); ("pageSize", PNum pageSize)];
         form := [];
         headers := getHeaders self None;
         timeout := 30000 |} in
    let settle o := {| outcome := o; after := self; wire := [req] |} in
    match axios rt req with
    | Resolves (Some (Some d)) =>
        settle (Fulfilled {| total := JS.orNum (d_total d); page := page;
                             page_size := pageSize; icons := mapIcons d |})
    | Resolves _ =>
        settle (Fulfilled {| total := 0; page := page; page_size := pageSize; icons := [] |})
    | Throws error =>
        settle (Rejected ("Failed to get project icons: " +:+ messageOf error))
    end.

Definition mapProjectDetail (d : Payload) (project : RawProject) : IconfontProjectDetail :=
  {| id := JS.orStr (option_map idToString (p_id project)) "";
     name := JS.orStr (p_name project) "";
     icon_count := JS.orNum (p_icon_count project);
     font_family := JS.orStr (p_font_family project) "";
     created_at := JS.orStr (p_created_at project) "";
     updated_at := JS.orStr (p_updated_at project) "";
     username := JS.orStr (d_creator_username d) "" |}.

(** The request of [getProjectDetail]. *)
Definition detailRequest (self : t) (now : Z) (projectId : string)
    (overrideCookie : option string) : Request :=
  {| method := GET;
     url := ICONFONT_API_BASE +:+ "/project/detail.json";
     params := [("pid", PStr projectId); ("t", PNum now)];
     form := [];
     headers := getHeaders self overrideCookie;
     timeout := 30000 |}.

(** [if (!forceRefresh && cached) { ... return cached.data }]: the value
    returned from the cache, if the early return is taken. *)
Definition cachedDetail (self : t) (now : Z) (projectId : string)
    (forceRefresh : bool) : option IconfontProjectDetail :=
  match projectDetailCache self !! projectId with
  | Some cached =>
      if negb forceRefresh then
        let cacheAge := now - timestamp cached in
        if cacheAge <? cacheMaxAge self then Some (data cached) else None
      else None
  | None => None
  end.

(** [this.projectDetailCache.set(cacheKey, { data, timestamp, updatedAt })] *)
Definition cacheSet (self : t) (cacheKey : string) (entry : CacheEntry) : t :=
  {| cookie := cookie self;
     loggedIn := loggedIn self;
     projectDetailCache := <[cacheKey := entry]> (projectDetailCache self);
     cacheMaxAge := cacheMaxAge self |}.

(** [now] is the value of [Date.now()] at the call; the cache-busting
    parameter [t] is read within the same tick. *)
Definition getProjectDetail (rt : Runtime) (self : t) (now : Z)
    (projectId : string) (overrideCookie : option string)
    (forceRefresh : option bool) : Run IconfontProjectDetail :=
  let forceRefresh := default false forceRefresh in
  let cookie := getEffectiveCookie self overrideCookie in
  if negb (JS.truthy cookie) then
    {| outcome := Rejected "Authentication required. Please provide Iconfont cookie.";
       after := self; wire := [] |}
  else
    let cacheKey := projectId in
    match cachedDetail self now cacheKey forceRefresh with
    | Some hit => {| outcome := Fulfilled hit; after := self; wire := [] |}
    | None =>
        let req := detailRequest self now projectId overrideCookie in
        (* the [catch] clause *)
        let handler (error : Thrown) :=
          {| outcome :=
               if isAuthStatus error then
                 Rejected "Authentication failed. Please check your Iconfont cookie."
               else Rejected ("Failed to get project detail: " +:+ messageOf error);
             after := self; wire := [req] |} in
        match axios rt req with
        | Resolves (Some (Some d)) =>
            match d_project d with
            | Some project =>
                let result := mapProjectDetail d project in
                {| outcome := Fulfilled result;
                   after := cacheSet self cacheKey
                              {| data := result; timestamp := now;
                                 updatedAt := updated_at result |};
                   wire := [req] |}
            | None =>
                handler (PlainError "Failed to get project detail: invalid response")
            end
        | Resolves _ =>
            handler (PlainError "Failed to get project detail: invalid response")
        | Throws error => handler error
        end
    end.

(** The request of [searchProjectIcons]: the [Referer] of [getHeaders] is
    overwritten. *)
Definition projectSearchRequest (rt : Runtime) (self : t) (now : Z)
    (projectId keyword : string) (overrideCookie : option string) (page : Z)
    : Request :=
  {| method := GET;
     url := ICONFONT_API_BASE +:+ "/project/detail.json";
     params := [("pid", PStr projectId); ("keyword", PStr keyword);
                ("page", PNum page); ("t", PNum now)];
     form := [];
     headers :=
       JS.setProp "Referer"
         ("https://www.iconfont.cn/manage/index?manage_type=myprojects&projectId="
            +:+ projectId +:+ "&keyword=" +:+ encodeURIComponent rt keyword
            +:+ "&page=" +:+ JS.numToString page)
         (getHeaders self overrideCookie);
     timeout := 30000 |}.

Definition searchProjectIcons (rt : Runtime) (self : t) (now : Z)
    (projectId keyword : string) (overrideCookie : option string)
    (page : option Z) : Run IconfontSearchResult :=
  let page := default 1 page in
  let cookie := getEffectiveCookie self overrideCookie in
  if negb (JS.truthy cookie) then
    {| outcome := Rejected "Authentication required. Please provide Iconfont cookie.";
       after := self; wire := [] |}
  else
    let req := projectSearchRequest rt self now projectId keyword overrideCookie page in
    let settle o := {| outcome := o; after := self; wire := [req] |} in
    match axios rt req with
    | Resolves (Some (Some d)) =>
        settle (Fulfilled {| total := JS.orNum (d_total d); page := page;
                             page_size := 54; icons := mapIcons d |})
    | Resolves _ =>
        settle (Fulfilled {| total := 0; page := page; page_size := 54; icons := [] |})
    | Throws error =>
        if isAuthStatus error then
          settle (Rejected "Authentication failed. Please check your Iconfont cookie.")
        else settle (Rejected ("Failed to search project icons: " +:+ messageOf error))
    end.

End IconfontService.

(** ** [services/login.ts] *)

Module IconfontLoginService.

Definition ICONFONT_URL : string := "https://www.iconfont.cn/".
Definition LOGIN_CHECK_INTERVAL : Z := 3000.

(** Puppeteer handles. *)
Definition Browser := nat.
Definition Page := nat.

(** An entry of the browser's cookie jar. *)
Record Cookie := {
  name : string;
  value : string
}.

(** [cookieResponse.headers["set-cookie"]]: an array or a single string. *)
Inductive SetCookie :=
| HeaderList (l : list string)
| HeaderString (s : string).

(** The collaborators of one login attempt. What a call answers, and how
    long the answer takes, may depend on the time at which it is made. *)
Record Host := {
  launch : option Browser;            (* [puppeteer.launch], [None]: rejects *)
  newPage : option Page;              (* [browser.newPage] *)
  goto : bool;                        (* [page.goto] resolves *)
  execOpen : bool;                    (* [execAsync(open ...)] resolves *)
  pageCookies : Z -> Completion (list Cookie);   (* [page.cookies()] *)
  pageCookiesLatency : Z -> N;
  probe : Z -> Completion (option SetCookie);    (* [axios.get(myprojects.json)] *)
  probeLatency : Z -> N;
  browserClose : Z -> Completion unit;           (* [browser.close()] *)
  closeLatency : N                    (* the time [browser.close()] takes *)
}.

(** The clock, and the handles on which [browser.close()] was called. The
    clock is [Date.now()]; it advances by the latency of each awaited call
    and by exactly [d] for a timer of [d] ms. The time taken by
    [startLogin] is not counted: time matters from the entry of
    [waitForLogin] on. *)
Record World := {
  clock : Z;
  closed : list Browser
}.

Definition elapse (d : Z) (w : World) : World :=
  {| clock := clock w + d; closed := closed w |}.

(** The object's private fields. *)
Record t := {
  browser : option Browser;
  page : option Page
}.

Definition new : t := {| browser := None; page := None |}.

Record Run (A : Type) := {
  outcome : Completion A;
  after : t;
  world : World
}.
Arguments outcome {A} r.
Arguments after {A} r.
Arguments world {A} r.

Definition openBrowserWithSystem (h : Host) (self : t) (w : World) : Run unit :=
  if execOpen h then {| outcome := Fulfilled tt; after := self; world := w |}
  else {| outcome :=
            Rejected "Failed to open browser. Please open https://www.iconfont.cn/ manually and log in.";
          after := self; world := w |}.

(** Each assignment to [this.browser] / [this.page] takes effect before
    the next awaited call can reject. *)
Definition startLogin (h : Host) (self : t) (w : World) : Run unit :=
  match launch h with
  | Some b =>
      let self1 := {| browser := Some b; page := page self |} in
      match newPage h with
      | Some p =>
          let self2 := {| browser := Some b; page := Some p |} in
          if goto h then {| outcome := Fulfilled tt; after := self2; world := w |}
          else openBrowserWithSystem h self2 w
      | None => openBrowserWithSystem h self1 w
      end
  | None => openBrowserWithSystem h self w
  end.

(** When [browser.close()] rejects, the rejection propagates and the two
    assignments after it are not reached. *)
Definition close (h : Host) (self : t) (w : World) : Run unit :=
  match browser self with
  | Some b =>
      let w' := {| clock := clock w + Z.of_N (closeLatency h);
                   closed := (closed w ++ [b])%list |} in
      match browserClose h (clock w) with
      | Fulfilled _ =>
          {| outcome := Fulfilled tt;
             after := {| browser := None; page := None |};
             world := w' |}
      | Rejected m => {| outcome := Rejected m; after := self; world := w' |}
      end
  | None => {| outcome := Fulfilled tt; after := self; world := w |}
  end.

Definition isRunning (self : t) : bool :=
  match browser self with
  | Some _ => true
  | None => false
  end.

(** One round of a polling loop. *)
Inductive Polled :=
| Found (v : string)
| Nothing
| Broke (message : string).

(** How a polling loop ends. *)
Inductive Ending :=
| Got (v : string)
| TimedOut
| Failed (message : string).

(** [while (Date.now() - startTime < timeout) { round; await sleep(3000) }]
    where a round takes [latency] and either leaves the loop with a value,
    throws, or falls through to the sleep. *)
Equations? pollLoop (round : Z -> Polled) (latency : Z -> N)
    (startTime timeout : Z) (w : World) : Ending * World
    by wf (Z.to_nat (timeout - (clock w - startTime))) lt :=
  pollLoop round latency startTime timeout w with Z_lt_dec (clock w - startTime) timeout => {
    | right _ => (TimedOut, w)
    | left _ with round (clock w) => {
      | Found v => (Got v, elapse (Z.of_N (latency (clock w))) w)
      | Broke m => (Failed m, elapse (Z.of_N (latency (clock w))) w)
      | Nothing =>
          pollLoop round latency startTime timeout
            (elapse LOGIN_CHECK_INTERVAL (elapse (Z.of_N (latency (clock w))) w))
      }
    }.
Proof. unfold LOGIN_CHECK_INTERVAL; simpl; lia. Qed.

(** A round of the scriptable path: read the jar, look for the session
    cookie with a non-empty value. A rejection of [page.cookies()] is not
    caught. *)
Definition jarRound (h : Host) (now : Z) : Polled :=
  match pageCookies h now with
  | Rejected m => Broke m
  | Fulfilled cookies =>
      match find (fun c => String.eqb (name c) "EGG_SESS_ICONFONT") cookies with
      | Some sessionCookie =>
          if JS.truthy (value sessionCookie) then Found (value sessionCookie)
          else Nothing
      | None => Nothing
      end
  end.

(** Lines 90-96: the token read from the joined header string. The piece
    found is tested after [trim()] but used as it is. *)
Definition sessionCookieIn (cookieStr : string) : option string :=
  let eggSessMatch :=
    find (fun c => JS.startsWith (JS.trim c) "EGG_SESS_ICONFONT=")
         (JS.split "," cookieStr) in
  match eggSessMatch with
  | Some eggSessMatch =>
      if JS.truthy eggSessMatch then
        let cookieValue :=
          JS.replace "EGG_SESS_ICONFONT=" ""
            (hd EmptyString (JS.split ";" eggSessMatch)) in
        Some cookieValue
      else None
  | None => None
  end.

(** Lines 86-97: [if (cookies)] holds for an array and for a non-empty
    string; an array is joined with [","]. *)
Definition extractSessionCookie (cookies : option SetCookie) : option string :=
  match cookies with
  | None => None
  | Some (HeaderString EmptyString) => None
  | Some (HeaderList l) => sessionCookieIn (JS.join "," l)
  | Some (HeaderString s) => sessionCookieIn s
  end.

(** A round of the fallback path: a rejected probe is caught and logged. *)
Definition probeRound (h : Host) (now : Z) : Polled :=
  match probe h now with
  | Rejected _ => Nothing
  | Fulfilled cookies =>
      match extractSessionCookie cookies with
      | Some cookieValue => Found cookieValue
      | None => Nothing
      end
  end.

(** The declared result type is [string | null]: [None] is [null]. *)
Definition waitForCookieFromApiWithPrompt (h : Host) (timeout : option Z)
    (self : t) (w : World) : Run (option string) :=
  let timeout := default 120000 timeout in
  let w := elapse 5000 w in
  let startTime := clock w in
  match pollLoop (probeRound h) (probeLatency h) startTime timeout w with
  | (Got cookieValue, w') =>
      {| outcome := Fulfilled (Some cookieValue); after := self; world := w' |}
  | (TimedOut, w') =>
      {| outcome := Rejected "Login timeout. Please try again.";
         after := self; world := w' |}
  | (Failed m, w') => {| outcome := Rejected m; after := self; world := w' |}
  end.

Definition waitForLogin (h : Host) (timeout : option Z)
    (self : t) (w : World) : Run (option string) :=
  let timeout := default 120000 timeout in
  match page self with
  | None => waitForCookieFromApiWithPrompt h (Some timeout) self w
  | Some _ =>
      let startTime := clock w in
      match pollLoop (jarRound h) (pageCookiesLatency h) startTime timeout w with
      | (Got v, w') =>
          let closing := close h self w' in
          {| outcome :=
               match outcome closing with
               | Fulfilled _ => Fulfilled (Some v)
               | Rejected m => Rejected m
               end;
             after := after closing; world := world closing |}
      | (TimedOut, w') =>
          let closing := close h self w' in
          {| outcome :=
               match outcome closing with
               | Fulfilled _ => Rejected "Login timeout. Please try again."
               | Rejected m => Rejected m
               end;
             after := after closing; world := world closing |}
      | (Failed m, w') => {| outcome := Rejected m; after := self; world := w' |}
      end
  end.

End IconfontLoginService.

(** ** The login handlers of [tools/iconfont.ts] *)

Module Tools.

Import IconfontLoginService.

(** [iconfont_login]: [structuredContent] is [{ success: true, ...status }]. *)
Definition iconfont_login (service : IconfontService.t) (cookie : string)
    : IconfontService.LoginStatus * IconfontService.t :=
  let service := IconfontService.setCookie service cookie in
  (IconfontService.getLoginStatus service, service).

(** The three [return] statements of the [iconfont_auto_login] handler, and
    the rejection of the handler itself when [loginService.close()] rejects
    inside its [catch] clause. *)
Inductive AutoLoginReply :=
| LoggedIn (status : IconfontService.LoginStatus)  (* the [if (cookie)] branch *)
| TimeoutNotice                                    (* the [else] branch *)
| ErrorReply (message : string)                    (* the [catch] clause *)
| HandlerRejects (message : string).

Record AutoLoginRun := {
  reply : AutoLoginReply;
  service' : IconfontService.t;
  loginService' : IconfontLoginService.t;
  world' : World
}.

(** [cookie] is truthy when it is neither [null] nor the empty string. *)
Definition iconfont_auto_login (h : Host) (service : IconfontService.t)
    (w : World) : AutoLoginRun :=
  let loginService := IconfontLoginService.new in
  let catch (message : string) (loginService : IconfontLoginService.t) (w : World) :=
    let closing := close h loginService w in
    {| reply :=
         match outcome closing with
         | Fulfilled _ => ErrorReply ("Error: " +:+ message)
         | Rejected m => HandlerRejects m
         end;
       service' := service;
       loginService' := after closing; world' := world closing |} in
  let started := startLogin h loginService w in
  match outcome started with
  | Rejected m => catch m (after started) (world started)
  | Fulfilled _ =>
      let waited := waitForLogin h (Some 120000) (after started) (world started) in
      match outcome waited with
      | Rejected m => catch m (after waited) (world waited)
      | Fulfilled cookie =>
          if match cookie with Some c => JS.truthy c | None => false end then
            let service := IconfontService.setCookie service (default "" cookie) in
            {| reply := LoggedIn (IconfontService.getLoginStatus service);
               service' := service;
               loginService' := after waited; world' := world waited |}
          else
            {| reply := TimeoutNotice; service' := service;
               loginService' := after waited; world' := world waited |}
      end
  end.

End Tools.

(** ** The remaining tool handlers of [tools/iconfont.ts]

    A template literal is a concatenation; [LF] is the line feed of
    ["\n"] and [QUOTE] the double quote. The built-ins whose output depends
    on the platform ([JSON.stringify], the [Date] formatters, [path.resolve],
    [process.cwd], [fs.writeFileSync]) are fields of a record. *)

Module IconfontTools.

Definition CHARACTER_LIMIT : Z := 25000.

Definition LF : string := String "010"%char EmptyString.
Definition QUOTE : string := String "034"%char EmptyString.

Inductive ResponseFormat := MARKDOWN | JSON.

Inductive IconType := ALL | LINE | FILL | FLAT | HAND | SIMPLE | COMPLEX.

(** The string value of an [IconType] member. *)
Definition iconTypeValue (ty : IconType) : string :=
  match ty with
  | ALL => ""
  | LINE => "line"
  | FILL => "fill"
  | FLAT => "flat"
  | HAND => "hand"
  | SIMPLE => "simple"
  | COMPLEX => "complex"
  end.

(** [{ icon_id, name, svg_preview }] *)
Record IconPreview := {
  pv_icon_id : string;
  pv_name : string;
  pv_svg_preview : string
}.

(** The [structuredContent] objects the handlers build. *)
Inductive Structured :=
| SearchContent (total page page_size : Z) (icons : list IconPreview)
| ProjectSearchContent (total page : Z) (icons : list IconPreview)
| DownloadContent (icon_id name svg : string) (saved_to : option string)
| ProjectsContent (projects : list IconfontProject)
| DetailContent (detail : IconfontProjectDetail).

Record Platform := {
  stringify : Structured -> string;        (* [JSON.stringify(x, null, 2)] *)
  toLocaleDateString : string -> string;   (* [new Date(s).toLocaleDateString()] *)
  toLocaleString : string -> string;       (* [new Date(s).toLocaleString()] *)
  cwd : string;                            (* [process.cwd()] *)
  resolve : string -> string -> string;    (* [path.resolve(dir, file)] *)
  writeFileSync : string -> string -> option string
    (* [None]: the file is written; [Some m]: an [Error] with message [m] is thrown *)
}.

(** What a handler returns: [content[0].text] and [structuredContent]. *)
Record ToolReply := {
  text : string;
  structuredContent : option Structured
}.

(** A run of a handler: its reply, the service afterwards, the requests
    sent and the files written as [(path, content)], in order. *)
Record HandlerRun := {
  reply : ToolReply;
  service' : IconfontService.t;
  sent : list Request;
  written : list (string * string)
}.

(** [s.substring(0, n)] *)
Fixpoint take (n : nat) (s : string) : string :=
  match n, s with
  | O, _ => EmptyString
  | S _, EmptyString => EmptyString
  | S k, String c r => String c (take k r)
  end.

(** The [lines] array of [formatMarkdownSearchResult]. *)
Definition searchResultLines (query : string) (total page pageSize : Z)
    (icons : list IconfontIcon) : list string :=
  let lines :=
    ["# Icon Search Results: " +:+ QUOTE +:+ query +:+ QUOTE;
     "";
     "Found **" +:+ JS.numToString total +:+ "** icons (showing "
       +:+ JS.numToString (Z.of_nat (length icons)) +:+ " on page "
       +:+ JS.numToString page +:+ ")";
     ""] in
  let lines :=
    (lines ++
     flat_map (fun icon =>
       ["## " +:+ icon_name icon;
        "- **ID**: " +:+ icon_id icon;
        "- **SVG Preview**: " +:+
          (if JS.truthy (show_svg icon) then "Available" else "Not available");
        ""]) icons)%list in
  let hasMore :=
    JS.gt (JS.toNumber total) (JS.mul (JS.toNumber page) (JS.toNumber pageSize)) in
  if hasMore then
    (lines ++ ["> More results available. Use page="
                 +:+ JS.numberToString (JS.add (JS.toNumber page) (JS.Finite 1))
                 +:+ " to see more."])%list
  else lines.

Definition formatMarkdownSearchResult (query : string) (total page pageSize : Z)
    (icons : list IconfontIcon) : string :=
  JS.join LF (searchResultLines query total page pageSize icons).

(** The [lines] array of [formatMarkdownProjects]. *)
Definition projectsLines (pf : Platform) (projects : list IconfontProject)
    : list string :=
  let lines := ["# Your Iconfont Projects"; ""] in
  match projects with
  | [] => (lines ++ ["No projects found."])%list
  | _ =>
      (lines ++
       flat_map (fun project =>
         ["## " +:+ proj_name project;
          "- **ID**: " +:+ proj_id project;
          "- **Icons**: " +:+ JS.numToString (proj_icon_count project);
          "- **Updated**: " +:+ toLocaleDateString pf (proj_updated_at project);
          ""]) projects)%list
  end.

Definition formatMarkdownProjects (pf : Platform) (projects : list IconfontProject)
    : string :=
  JS.join LF (projectsLines pf projects).

(** [if (textContent.length > CHARACTER_LIMIT) textContent =
    textContent.substring(0, CHARACTER_LIMIT) + "..."] *)
Definition truncate (textContent : string) : string :=
  if CHARACTER_LIMIT <? Z.of_nat (String.length textContent) then
    take (Z.to_nat CHARACTER_LIMIT) textContent
      +:+ LF +:+ LF +:+ "... (response truncated due to size)"
  else textContent.

(** The [catch] clause shared by the handlers. *)
Definition errorReply (message : string) : ToolReply :=
  {| text := "Error: " +:+ message; structuredContent := None |}.

Definition preview (icon : IconfontIcon) : IconPreview :=
  {| pv_icon_id := icon_id icon;
     pv_name := icon_name icon;
     pv_svg_preview := show_svg icon |}.

Record SearchInput := {
  query : string;
  icon_type : IconType;
  s_page : Z;
  s_page_size : Z;
  s_response_format : ResponseFormat
}.

Definition iconfont_search_icons (pf : Platform) (rt : Runtime)
    (service : IconfontService.t) (now : Z) (params : SearchInput) : HandlerRun :=
  let run :=
    IconfontService.searchIcons rt service now (query params)
      (Some (iconTypeValue (icon_type params)))
      (Some (s_page params)) (Some (s_page_size params)) in
  let done r :=
    {| reply := r; service' := IconfontService.after run;
       sent := IconfontService.wire run; written := [] |} in
  match IconfontService.outcome run with
  | Rejected m => done (errorReply m)
  | Fulfilled result =>
      match icons result with
      | [] =>
          done {| text := "No icons found for " +:+ QUOTE +:+ query params +:+ QUOTE
                            +:+ ". Try a different search term.";
                  structuredContent := None |}
      | _ =>
          let structuredContent :=
            SearchContent (total result) (page result) (page_size result)
              (map preview (icons result)) in
          let textContent :=
            match s_response_format params with
            | JSON => stringify pf structuredContent
            | MARKDOWN =>
                truncate
                  (formatMarkdownSearchResult (query params) (total result)
                     (page result) (page_size result) (icons result))
            end in
          done {| text := textContent; structuredContent := Some structuredContent |}
      end
  end.

Record DownloadInput := {
  d_icon_id : string;
  output_path : option string;
  filename : option string;
  d_response_format : ResponseFormat
}.

Definition iconfont_download_icon (pf : Platform) (rt : Runtime)
    (service : IconfontService.t) (params : DownloadInput) : HandlerRun :=
  let run := IconfontService.getIconDetail rt service (d_icon_id params) in
  let done r files :=
    {| reply := r; service' := IconfontService.after run;
       sent := IconfontService.wire run; written := files |} in
  match IconfontService.outcome run with
  | Rejected m => done (errorReply m) []
  | Fulfilled None =>
      done {| text := "Error: Icon with ID " +:+ QUOTE +:+ d_icon_id params +:+ QUOTE
                        +:+ " not found.";
              structuredContent := None |} []
  | Fulfilled (Some icon) =>
      let content := if JS.truthy (svg icon) then svg icon else show_svg icon in
      let finish (savedPath : option string) files :=
        let output :=
          DownloadContent (icon_id icon) (icon_name icon) content savedPath in
        let label :=
          "Icon " +:+ QUOTE +:+ icon_name icon +:+ QUOTE +:+ " (ID: "
            +:+ icon_id icon +:+ ")" in
        let textContent :=
          match d_response_format params with
          | JSON => stringify pf output
          | MARKDOWN =>
              match savedPath with
              | Some p => if JS.truthy p then label +:+ " saved to: " +:+ p else label
              | None => label
              end
          end in
        done {| text := textContent; structuredContent := Some output |} files in
      if JS.truthy (JS.orStr (output_path params) (JS.orStr (filename params) "")) then
        let filename :=
          JS.orStr (filename params)
            (if JS.truthy (icon_name icon) then icon_name icon else d_icon_id params) in
        let outputDir := JS.orStr (output_path params) (cwd pf) in
        let filePath := resolve pf outputDir (filename +:+ ".svg") in
        match writeFileSync pf filePath content with
        | Some m => done (errorReply m) []
        | None => finish (Some filePath) [(filePath, content)]
        end
      else finish None []
  end.

Record ListProjectsInput := {
  l_cookie : option string;
  l_response_format : ResponseFormat
}.

Definition iconfont_list_projects (pf : Platform) (rt : Runtime)
    (service : IconfontService.t) (now : Z) (params : ListProjectsInput)
    : HandlerRun :=
  let run := IconfontService.listProjects rt service now (l_cookie params) in
  let done r :=
    {| reply := r; service' := IconfontService.after run;
       sent := IconfontService.wire run; written := [] |} in
  match IconfontService.outcome run with
  | Rejected m => done (errorReply m)
  | Fulfilled projects =>
      let structuredContent := ProjectsContent projects in
      let textContent :=
        match l_response_format params with
        | JSON => stringify pf structuredContent
        | MARKDOWN => formatMarkdownProjects pf projects
        end in
      done {| text := textContent; structuredContent := Some structuredContent |}
  end.

Record ProjectDetailInput := {
  pd_cookie : option string;
  pd_pid : string;
  pd_response_format : ResponseFormat
}.

(** The markdown table of [iconfont_get_project_detail]. *)
Definition detailLines (pf : Platform) (detail : IconfontProjectDetail) : list string :=
  ["# Project: " +:+ name detail;
   "";
   "| Field | Value |";
   "|-------|-------|";
   "| ID | " +:+ id detail +:+ " |";
   "| Font Family | " +:+ font_family detail +:+ " |";
   "| Created | " +:+ toLocaleString pf (created_at detail) +:+ " |";
   "| Updated | " +:+ toLocaleString pf (updated_at detail) +:+ " |";
   "| Username | " +:+ (if JS.truthy (username detail) then username detail else "-")
     +:+ " |"].

(** [getProjectDetail] is called without its third argument. *)
Definition iconfont_get_project_detail (pf : Platform) (rt : Runtime)
    (service : IconfontService.t) (now : Z) (params : ProjectDetailInput)
    : HandlerRun :=
  let run :=
    IconfontService.getProjectDetail rt service now (pd_pid params)
      (pd_cookie params) None in
  let done r :=
    {| reply := r; service' := IconfontService.after run;
       sent := IconfontService.wire run; written := [] |} in
  match IconfontService.outcome run with
  | Rejected m => done (errorReply m)
  | Fulfilled detail =>
      let output := DetailContent detail in
      let textContent :=
        match pd_response_format params with
        | JSON => stringify pf output
        | MARKDOWN => JS.join LF (detailLines pf detail)
        end in
      done {| text := textContent; structuredContent := Some output |}
  end.

Record ProjectSearchInput := {
  ps_cookie : option string;
  ps_pid : string;
  keyword : string;
  ps_page : Z;
  ps_response_format : ResponseFormat
}.

Definition iconfont_project_search_icons (pf : Platform) (rt : Runtime)
    (service : IconfontService.t) (now : Z) (params : ProjectSearchInput)
    : HandlerRun :=
  let run :=
    IconfontService.searchProjectIcons rt service now (ps_pid params)
      (keyword params) (ps_cookie params) (Some (ps_page params)) in
  let done r :=
    {| reply := r; service' := IconfontService.after run;
       sent := IconfontService.wire run; written := [] |} in
  match IconfontService.outcome run with
  | Rejected m => done (errorReply m)
  | Fulfilled result =>
      match icons result with
      | [] =>
          done {| text := "No icons found for keyword " +:+ QUOTE +:+ keyword params
                            +:+ QUOTE +:+ " in project " +:+ ps_pid params +:+ ".";
                  structuredContent := None |}
      | _ =>
          let structuredContent :=
            ProjectSearchContent (total result) (page result)
              (map preview (icons result)) in
          let textContent :=
            match ps_response_format params with
            | JSON => stringify pf structuredContent
            | MARKDOWN =>
                truncate
                  (formatMarkdownSearchResult (keyword params) (total result)
                     (page result) (page_size result) (icons result))
            end in
          done {| text := textContent; structuredContent := Some structuredContent |}
      end
  end.

End IconfontTools.

(** ** Notions of the specification, and sample collaborators *)

(** The specification's [effectiveToken]: the override if it is supplied
    and non-empty, else the stored token. *)
Definition effectiveToken (overrideToken : option string) (stored : string) : string :=
  match overrideToken with
  | Some o => if String.eqb o "" then stored else o
  | None => stored
  end.

(** A remote refresh fails when axios throws (remote error, 401/403,
    timeout) or when the response has not the shape
    [{ data: { project: ... } }]. *)
Definition refreshFails (o : AxiosOutcome) : bool :=
  match o with
  | Resolves (Some (Some d)) =>
      match d_project d with
      | Some _ => false
      | None => true
      end
  | Resolves _ => true
  | Throws _ => true
  end.

(** The session-store invariant: the logged-in flag agrees with the presence
    of a cookie. *)
Definition consistent (self : IconfontService.t) : Prop :=
  IconfontService.loggedIn self = JS.truthy (IconfontService.cookie self).

(** The authentication-failed error of the project operations. *)
Definition AUTHENTICATION_FAILED : string :=
  "Authentication failed. Please check your Iconfont cookie.".

(** The name prefix of the session cookie in a set-cookie entry. *)
Definition SESSION : string := "EGG_SESS_ICONFONT=".

(** Every character of [s] satisfies [P]. *)
Fixpoint every (P : ascii -> bool) (s : string) : bool :=
  match s with
  | EmptyString => true
  | String c r => P c && every P r
  end.

(** [s] does not contain the character [c]. *)
Definition lacks (c : ascii) (s : string) : bool :=
  every (fun a => negb (Ascii.eqb a c)) s.

Module Sample.

Definition noIcon : RawIcon :=
  {| r_id := None; r_icon_id := None; r_name := None; r_show_svg := None;
     r_svg := None; r_font_class := None; r_unicode := None; r_tags := None |}.

Definition project42 : RawProject :=
  {| p_id := Some (IdNum 42); p_name := Some "demo"; p_icon_count := Some 3;
     p_font_family := Some "iconfont"; p_created_at := Some "2024-01-01";
     p_updated_at := Some "2024-02-01" |}.

Definition payload42 : Payload :=
  {| d_self := noIcon; d_total := None; d_icons := None; d_ownProjects := None;
     d_corpProjects := None; d_project := Some project42;
     d_creator_username := Some "alice" |}.

(** Every call resolves with project 42. *)
Definition serving : Runtime :=
  {| axios := fun _ => Resolves (Some (Some payload42));
     encodeURIComponent := fun s => s |}.

(** Every call is answered with HTTP 401. *)
Definition unauthorized : Runtime :=
  {| axios := fun _ =>
       Throws (AxiosError (Some 401) (Some "ERR_BAD_REQUEST")
                 "Request failed with status code 401");
     encodeURIComponent := fun s => s |}.

(** Every call runs into the 30000 ms timeout. *)
Definition timingOut : Runtime :=
  {| axios := fun _ =>
       Throws (AxiosError None (Some "ECONNABORTED") "timeout of 30000ms exceeded");
     encodeURIComponent := fun s => s |}.

Definition anonymous : IconfontService.t := IconfontService.constructor None None.

Definition loggedIn : IconfontService.t :=
  IconfontService.constructor (Some "abc123") None.

(** [loggedIn] after a detail fetch of project 42 at time 0. *)
Definition warmed : IconfontService.t :=
  IconfontService.after
    (IconfontService.getProjectDetail serving loggedIn 0 "42" None None).

Definition detail42 : IconfontProjectDetail :=
  IconfontService.mapProjectDetail payload42 project42.

(** No scriptable browser, and no session cookie ever; every call is
    answered at once. *)
Definition quiet : IconfontLoginService.Host :=
  {| IconfontLoginService.launch := None;
     IconfontLoginService.newPage := None;
     IconfontLoginService.goto := false;
     IconfontLoginService.execOpen := true;
     IconfontLoginService.pageCookies := fun _ => Fulfilled [];
     IconfontLoginService.pageCookiesLatency := fun _ => 0%N;
     IconfontLoginService.probe := fun _ => Fulfilled None;
     IconfontLoginService.probeLatency := fun _ => 0%N;
     IconfontLoginService.browserClose := fun _ => Fulfilled tt;
     IconfontLoginService.closeLatency := 0%N |}.


(** The browser is launched but [newPage] rejects; the system browser
    opens, and the probe is answered with [header]. *)
Definition pageless (header : string) : IconfontLoginService.Host :=
  {| IconfontLoginService.launch := Some 7%nat;
     IconfontLoginService.newPage := None;
     IconfontLoginService.goto := false;
     IconfontLoginService.execOpen := true;
     IconfontLoginService.pageCookies := fun _ => Fulfilled [];
     IconfontLoginService.pageCookiesLatency := fun _ => 0%N;
     IconfontLoginService.probe :=
       fun _ => Fulfilled (Some (IconfontLoginService.HeaderList [header]));
     IconfontLoginService.probeLatency := fun _ => 0%N;
     IconfontLoginService.browserClose := fun _ => Fulfilled tt;
     IconfontLoginService.closeLatency := 0%N |}.

(** As [quiet], the probe being answered with [header]. *)
Definition answering (header : string) : IconfontLoginService.Host :=
  {| IconfontLoginService.launch := None;
     IconfontLoginService.newPage := None;
     IconfontLoginService.goto := false;
     IconfontLoginService.execOpen := true;
     IconfontLoginService.pageCookies := fun _ => Fulfilled [];
     IconfontLoginService.pageCookiesLatency := fun _ => 0%N;
     IconfontLoginService.probe :=
       fun _ => Fulfilled (Some (IconfontLoginService.HeaderList [header]));
     IconfontLoginService.probeLatency := fun _ => 0%N;
     IconfontLoginService.browserClose := fun _ => Fulfilled tt;
     IconfontLoginService.closeLatency := 0%N |}.

Definition dawn : IconfontLoginService.World :=
  {| IconfontLoginService.clock := 0; IconfontLoginService.closed := [] |}.

(** A login service holding browser 7 and page 1. *)
Definition driving : IconfontLoginService.t :=
  {| IconfontLoginService.browser := Some 7%nat;
     IconfontLoginService.page := Some 1%nat |}.

End Sample.

(** Further sample collaborators. *)
Module Fixture.

(** A scripted browser whose jar holds the session cookie [abc] from
    6000 ms on; reading the jar takes 40 ms and closing the browser 200 ms. *)
Definition lateJar : IconfontLoginService.Host :=
  {| IconfontLoginService.launch := Some 7%nat;
     IconfontLoginService.newPage := Some 1%nat;
     IconfontLoginService.goto := true;
     IconfontLoginService.execOpen := true;
     IconfontLoginService.pageCookies := fun now =>
       Fulfilled (if 6000 <=? now
                  then [{| IconfontLoginService.name := "EGG_SESS_ICONFONT";
                           IconfontLoginService.value := "abc" |}]
                  else []);
     IconfontLoginService.pageCookiesLatency := fun _ => 40%N;
     IconfontLoginService.probe := fun _ => Fulfilled None;
     IconfontLoginService.probeLatency := fun _ => 0%N;
     IconfontLoginService.browserClose := fun _ => Fulfilled tt;
     IconfontLoginService.closeLatency := 200%N |}.

(** A scripted browser whose window the user has closed: every
    [page.cookies()] rejects. *)
Definition closedWindow : IconfontLoginService.Host :=
  {| IconfontLoginService.launch := Some 7%nat;
     IconfontLoginService.newPage := Some 1%nat;
     IconfontLoginService.goto := true;
     IconfontLoginService.execOpen := true;
     IconfontLoginService.pageCookies := fun _ => Rejected "Target closed";
     IconfontLoginService.pageCookiesLatency := fun _ => 40%N;
     IconfontLoginService.probe := fun _ => Fulfilled None;
     IconfontLoginService.probeLatency := fun _ => 0%N;
     IconfontLoginService.browserClose := fun _ => Fulfilled tt;
     IconfontLoginService.closeLatency := 200%N |}.

(** As [lateJar], with a browser whose [close()] rejects. *)
Definition stuckBrowser : IconfontLoginService.Host :=
  {| IconfontLoginService.launch := Some 7%nat;
     IconfontLoginService.newPage := Some 1%nat;
     IconfontLoginService.goto := true;
     IconfontLoginService.execOpen := true;
     IconfontLoginService.pageCookies :=
       IconfontLoginService.pageCookies lateJar;
     IconfontLoginService.pageCookiesLatency := fun _ => 40%N;
     IconfontLoginService.probe := fun _ => Fulfilled None;
     IconfontLoginService.probeLatency := fun _ => 0%N;
     IconfontLoginService.browserClose := fun _ => Rejected "Connection closed";
     IconfontLoginService.closeLatency := 200%N |}.

(** A platform whose formatters are the identity, whose [resolve] joins
    with a slash and whose file system accepts every write. *)
Definition platform : IconfontTools.Platform :=
  {| IconfontTools.stringify := fun _ => "{}";
     IconfontTools.toLocaleDateString := fun s => s;
     IconfontTools.toLocaleString := fun s => s;
     IconfontTools.cwd := "/work";
     IconfontTools.resolve := fun dir file => dir +:+ "/" +:+ file;
     IconfontTools.writeFileSync := fun _ _ => None |}.

Definition homeIcon : RawIcon :=
  {| r_id := Some (IdNum 7); r_icon_id := None; r_name := Some "home";
     r_show_svg := Some "<svg/>"; r_svg := None; r_font_class := None;
     r_unicode := None; r_tags := None |}.

(** Every call resolves with the icon [home] and a one-icon page of a total
    of 200. *)
Definition iconServer : Runtime :=
  {| axios := fun _ =>
       Resolves (Some (Some
         {| d_self := homeIcon; d_total := Some 200; d_icons := Some [homeIcon];
            d_ownProjects := None; d_corpProjects := None; d_project := None;
            d_creator_username := None |}));
     encodeURIComponent := fun s => s |}.

End Fixture.

(** * Properties *)

(** Case analysis on what axios answers to the request at hand. *)
Ltac axios_cases :=
  match goal with
  | |- context [axios ?rt ?req] =>
      let d := fresh "d" in
      let e := fresh "e" in
      destruct (axios rt req) as [[[d|]|]|e]
  end.

(** ** Session store and credential resolution *)

Section Credentials.

Import IconfontService.

Lemma truthy_eqb_empty (s : string) : JS.truthy s = negb (String.eqb s "").
Proof. destruct s; reflexivity. Qed.

Lemma truthy_false_iff (s : string) : JS.truthy s = false <-> s = "".
Proof. destruct s; simpl; split; congruence. Qed.

Lemma getEffectiveCookie_effectiveToken (self : t) (overrideCookie : option string) :
  getEffectiveCookie self overrideCookie = effectiveToken overrideCookie (cookie self).
Proof.
  unfold getEffectiveCookie, effectiveToken, JS.orStr.
  destruct overrideCookie as [o|]; [|reflexivity].
  rewrite truthy_eqb_empty. destruct (String.eqb o ""); reflexivity.
Qed.

(** The [Cookie] header of [getHeaders] carries the effective cookie. *)
Lemma getHeaders_Cookie (self : t) (overrideCookie : option string) :
  JS.getProp "Cookie" (getHeaders self overrideCookie) =
    let c := getEffectiveCookie self overrideCookie in
    if JS.truthy c then Some (cookieValue c) else None.
Proof.
  unfold getHeaders. cbv zeta.
  destruct (JS.truthy (getEffectiveCookie self overrideCookie)); reflexivity.
Qed.

Lemma getProp_setProp_ne (k k' v : string) (o : list (string * string)) :
  k <> k' -> JS.getProp k' (JS.setProp k v o) = JS.getProp k' o.
Proof.
  intros Hne. induction o as [|[a b] o IH]; simpl.
  - destruct (String.eqb_spec k k'); [contradiction | reflexivity].
  - destruct (String.eqb_spec a k) as [->|Hak]; simpl.
    + destruct (String.eqb_spec k k'); [contradiction | reflexivity].
    + destruct (String.eqb a k'); [reflexivity | exact IH].
Qed.

(** What each authenticated operation puts on the wire. *)
Lemma listProjects_wire (rt : Runtime) (self : t) (now : Z) (o : option string) :
  wire (listProjects rt self now o) =
    if JS.truthy (getEffectiveCookie self o)
    then [projectsRequest self now o] else [].
Proof.
  unfold listProjects.
  destruct (JS.truthy (getEffectiveCookie self o)); cbn [negb]; [|reflexivity].
  axios_cases; try destruct (isAuthStatus _); reflexivity.
Qed.

Lemma getProjectDetail_wire (rt : Runtime) (self : t) (now : Z)
    (projectId : string) (o : option string) (f : option bool) :
  wire (getProjectDetail rt self now projectId o f) =
    if JS.truthy (getEffectiveCookie self o) then
      match cachedDetail self now projectId (default false f) with
      | Some _ => []
      | None => [detailRequest self now projectId o]
      end
    else [].
Proof.
  unfold getProjectDetail.
  destruct (JS.truthy (getEffectiveCookie self o)); cbn [negb]; [|reflexivity].
  destruct (cachedDetail _ _ _ _); [reflexivity|].
  axios_cases; try destruct (d_project _); reflexivity.
Qed.

Lemma searchProjectIcons_wire (rt : Runtime) (self : t) (now : Z)
    (projectId keyword : string) (o : option string) (page : option Z) :
  wire (searchProjectIcons rt self now projectId keyword o page) =
    if JS.truthy (getEffectiveCookie self o)
    then [projectSearchRequest rt self now projectId keyword o (default 1 page)]
    else [].
Proof.
  unfold searchProjectIcons.
  destruct (JS.truthy (getEffectiveCookie self o)); cbn [negb]; [|reflexivity].
  axios_cases; try destruct (isAuthStatus _); reflexivity.
Qed.

(** C2. In [listProjects], [getProjectDetail] and [searchProjectIcons] the
    cookie in effect is the override when one is supplied and non-empty and
    the stored cookie otherwise: this is what [getEffectiveCookie] returns,
    what the authentication guard tests, and what every request put on
    the wire carries in its [Cookie] header. *)
Theorem effective_cookie_precedence
    (rt : Runtime) (self : t) (now : Z) (overrideCookie : option string)
    (projectId keyword : string) (forceRefresh : option bool) (page : option Z) :
  let effective := effectiveToken overrideCookie (cookie self) in
  let carries (reqs : list Request) :=
    forall req, In req reqs ->
      effective ≠ "" /\
      JS.getProp "Cookie" (headers req) = Some (cookieValue effective) in
  getEffectiveCookie self overrideCookie = effective /\
  (forall o, overrideCookie = Some o -> o ≠ "" -> effective = o) /\
  (overrideCookie = None \/ overrideCookie = Some "" -> effective = cookie self) /\
  carries (wire (listProjects rt self now overrideCookie)) /\
  carries (wire (getProjectDetail rt self now projectId overrideCookie forceRefresh)) /\
  carries (wire (searchProjectIcons rt self now projectId keyword overrideCookie page)).
Proof.
  intros effective carries.
  pose proof (getEffectiveCookie_effectiveToken self overrideCookie) as Heff.
  fold effective in Heff.
  assert (Hhdr : JS.truthy effective = true ->
                 JS.getProp "Cookie" (getHeaders self overrideCookie)
                 = Some (cookieValue effective)).
  { intros Ht. rewrite getHeaders_Cookie. cbv zeta. rewrite Heff, Ht. reflexivity. }
  assert (Hne : JS.truthy effective = true -> effective ≠ "").
  { intros Ht E. rewrite E in Ht. discriminate. }
  split; [exact Heff|]. split.
  { intros o -> Ho. unfold effective, effectiveToken.
    destruct (String.eqb_spec o ""); [contradiction | reflexivity]. }
  split.
  { intros [->| ->]; reflexivity. }
  unfold carries.
  rewrite listProjects_wire, getProjectDetail_wire, searchProjectIcons_wire, Heff.
  destruct (JS.truthy effective) eqn:Ht.
  2: { split; [|split]; intros rq []. }
  split; [|split].
  - intros rq [<-|[]]. split; [auto|]. apply Hhdr; reflexivity.
  - destruct (cachedDetail _ _ _ _); [intros rq []|].
    intros rq [<-|[]]. split; [auto|]. apply Hhdr; reflexivity.
  - intros rq [<-|[]]. split; [auto|]. cbn [headers projectSearchRequest].
    rewrite getProp_setProp_ne by discriminate. apply Hhdr; reflexivity.
Qed.

End Credentials.

(** ** Detail cache *)

Section DetailCache.

Import IconfontService.

(** Nothing but the constructor sets the maximal age. *)
Lemma constructor_cacheMaxAge (c e : option string) :
  cacheMaxAge (constructor c e) = 300000.
Proof. reflexivity. Qed.

Lemma setCookie_cacheMaxAge (self : t) (c : string) :
  cacheMaxAge (setCookie self c) = cacheMaxAge self.
Proof. reflexivity. Qed.

Lemma getProjectDetail_cacheMaxAge (rt : Runtime) (self : t) (now : Z)
    (projectId : string) (o : option string) (f : option bool) :
  cacheMaxAge (after (getProjectDetail rt self now projectId o f)) = cacheMaxAge self.
Proof.
  unfold getProjectDetail.
  destruct (negb _); [reflexivity|].
  destruct (cachedDetail _ _ _ _); [reflexivity|].
  axios_cases; try destruct (d_project _); reflexivity.
Qed.

(** The early return is taken exactly for a fresh entry and no forced
    refresh. *)
Lemma cachedDetail_spec (self : t) (now : Z) (projectId : string) (force : bool) :
  cachedDetail self now projectId force =
    match projectDetailCache self !! projectId with
    | Some entry =>
        if negb force && (now - timestamp entry <? cacheMaxAge self)
        then Some (data entry) else None
    | None => None
    end.
Proof.
  unfold cachedDetail. destruct (projectDetailCache self !! projectId); [|reflexivity].
  destruct force; reflexivity.
Qed.

(** The three ways a remote refresh settles. *)
Lemma getProjectDetail_refresh (rt : Runtime) (self : t) (now : Z)
    (projectId : string) (o : option string) (f : option bool) :
  JS.truthy (getEffectiveCookie self o) = true ->
  cachedDetail self now projectId (default false f) = None ->
  let r := getProjectDetail rt self now projectId o f in
  match axios rt (detailRequest self now projectId o) with
  | Resolves (Some (Some d)) =>
      match d_project d with
      | Some project =>
          let result := mapProjectDetail d project in
          outcome r = Fulfilled result /\
          after r = cacheSet self projectId
                      {| data := result; timestamp := now;
                         updatedAt := updated_at result |}
      | None =>
          outcome r = Rejected
            "Failed to get project detail: Failed to get project detail: invalid response" /\
          after r = self
      end
  | Resolves _ =>
      outcome r = Rejected
        "Failed to get project detail: Failed to get project detail: invalid response" /\
      after r = self
  | Throws e =>
      outcome r =
        (if isAuthStatus e
         then Rejected "Authentication failed. Please check your Iconfont cookie."
         else Rejected ("Failed to get project detail: " +:+ messageOf e)) /\
      after r = self
  end.
Proof.
  intros Hc Hmiss. unfold getProjectDetail. rewrite Hc, Hmiss. cbn [negb].
  axios_cases; try destruct (d_project _); cbn; split; reflexivity.
Qed.

(** C1. With a non-empty effective cookie: when [forceRefresh] is false and
    the cache holds an entry for [projectId] younger than 300000 ms, the
    cached value is returned and nothing is put on the wire; in every other
    case (no entry, stale entry, or forced refresh) exactly the detail
    request is issued, it succeeds exactly when the response carries a
    project, and on success the entry for [projectId] is replaced by the
    fresh result with capture time [now]. *)
Theorem getProjectDetail_cache_policy
    (rt : Runtime) (self : t) (now : Z) (projectId : string)
    (overrideCookie : option string) (forceRefresh : option bool) :
  JS.truthy (getEffectiveCookie self overrideCookie) = true ->
  cacheMaxAge self = 300000 ->
  let r := getProjectDetail rt self now projectId overrideCookie forceRefresh in
  let req := detailRequest self now projectId overrideCookie in
  (forall entry,
      projectDetailCache self !! projectId = Some entry ->
      default false forceRefresh = false ->
      now - timestamp entry < 300000 ->
      outcome r = Fulfilled (data entry) /\ wire r = [] /\ after r = self) /\
  (projectDetailCache self !! projectId = None \/
   default false forceRefresh = true \/
   (exists entry, projectDetailCache self !! projectId = Some entry /\
                  300000 <= now - timestamp entry) ->
   wire r = [req] /\
   (forall d project,
       axios rt req = Resolves (Some (Some d)) -> d_project d = Some project ->
       outcome r = Fulfilled (mapProjectDetail d project)) /\
   (forall result,
       outcome r = Fulfilled result ->
       projectDetailCache (after r) =
         <[projectId := {| data := result; timestamp := now;
                           updatedAt := updated_at result |}]>
           (projectDetailCache self))).
Proof.
  intros Hc Hage r req. split.
  - intros entry Hentry Hforce Hfresh.
    assert (Hhit : cachedDetail self now projectId (default false forceRefresh)
                   = Some (data entry)).
    { rewrite cachedDetail_spec, Hentry, Hforce, Hage. cbn [negb andb].
      destruct (Z.ltb_spec (now - timestamp entry) 300000); [reflexivity | lia]. }
    subst r. unfold getProjectDetail. rewrite Hc, Hhit. cbn. auto.
  - intros Hother.
    assert (Hmiss : cachedDetail self now projectId (default false forceRefresh) = None).
    { rewrite cachedDetail_spec.
      destruct Hother as [Hnone|[Hforce|[entry [Hentry Hstale]]]].
      - rewrite Hnone. reflexivity.
      - rewrite Hforce. destruct (projectDetailCache self !! projectId); reflexivity.
      - rewrite Hentry, Hage.
        destruct (Z.ltb_spec (now - timestamp entry) 300000); [lia|].
        rewrite andb_false_r. reflexivity. }
    pose proof (getProjectDetail_refresh rt self now projectId overrideCookie
                  forceRefresh Hc Hmiss) as Hr.
    cbv zeta in Hr. fold r req in Hr.
    split; [|split].
    + subst r req. rewrite getProjectDetail_wire, Hc, Hmiss. reflexivity.
    + intros d project Hax Hp. rewrite Hax, Hp in Hr. apply Hr.
    + intros result Hres.
      destruct (axios rt req) as [[[d|]|]|e].
      * destruct (d_project d) as [project|].
        -- destruct Hr as [Ho Ha]. rewrite Ho in Hres. injection Hres as <-.
           rewrite Ha. reflexivity.
        -- destruct Hr as [Ho _]. rewrite Ho in Hres. discriminate.
      * destruct Hr as [Ho _]. rewrite Ho in Hres. discriminate.
      * destruct Hr as [Ho _]. rewrite Ho in Hres. discriminate.
      * destruct Hr as [Ho _]. rewrite Ho in Hres.
        destruct (isAuthStatus e); discriminate.
Qed.

End DetailCache.

Section DetailCacheErrors.

Import IconfontService.

(** C1, at a sample: project 42 fetched at time 0 is served from the cache
    at time 120000. *)
Lemma getProjectDetail_cache_policy_witness :
  let r := getProjectDetail Sample.unauthorized Sample.warmed 120000 "42" None None in
  outcome r = Fulfilled Sample.detail42 /\ wire r = [] /\ after r = Sample.warmed.
Proof.
  pose proof (getProjectDetail_cache_policy Sample.unauthorized Sample.warmed
                120000 "42" None None eq_refl eq_refl) as [Hhit _].
  apply (Hhit {| data := Sample.detail42; timestamp := 0;
                 updatedAt := "2024-02-01" |}).
  - vm_compute. reflexivity.
  - reflexivity.
  - simpl. lia.
Defined.

(** C4. When [getProjectDetail] performs a remote refresh and the refresh
    fails (axios throws, or the response has no project), the promise is
    rejected with the translated error and the object, hence the detail
    cache, is exactly as before the call. *)
Theorem failed_refresh_keeps_cache
    (rt : Runtime) (self : t) (now : Z) (projectId : string)
    (overrideCookie : option string) (forceRefresh : option bool) :
  let r := getProjectDetail rt self now projectId overrideCookie forceRefresh in
  let req := detailRequest self now projectId overrideCookie in
  wire r = [req] ->
  refreshFails (axios rt req) = true ->
  outcome r =
    Rejected
      match axios rt req with
      | Throws e =>
          if isAuthStatus e
          then "Authentication failed. Please check your Iconfont cookie."
          else "Failed to get project detail: " +:+ messageOf e
      | Resolves _ =>
          "Failed to get project detail: Failed to get project detail: invalid response"
      end /\
  after r = self /\
  projectDetailCache (after r) = projectDetailCache self.
Proof.
  intros r req Hwire Hfail.
  subst r req. rewrite getProjectDetail_wire in Hwire.
  destruct (JS.truthy (getEffectiveCookie self overrideCookie)) eqn:Hc;
    [|discriminate].
  destruct (cachedDetail self now projectId (default false forceRefresh)) eqn:Hmiss;
    [discriminate|].
  pose proof (getProjectDetail_refresh rt self now projectId overrideCookie
                forceRefresh Hc Hmiss) as Hr.
  cbv zeta in Hr.
  destruct (axios rt _) as [[[d|]|]|e]; simpl in Hfail.
  - destruct (d_project d); [discriminate|].
    destruct Hr as [-> ->]. auto.
  - destruct Hr as [-> ->]. auto.
  - destruct Hr as [-> ->]. auto.
  - destruct Hr as [-> ->]. destruct (isAuthStatus e); auto.
Qed.

(** C4, at a sample: a 401 on the refresh of a stale entry leaves the
    entry in place. *)
Lemma failed_refresh_keeps_cache_witness :
  let r := getProjectDetail Sample.unauthorized Sample.warmed 400000 "42" None None in
  outcome r = Rejected "Authentication failed. Please check your Iconfont cookie." /\
  after r = Sample.warmed /\
  projectDetailCache (after r) = projectDetailCache Sample.warmed.
Proof.
  apply (failed_refresh_keeps_cache Sample.unauthorized Sample.warmed
           400000 "42" None None); vm_compute; reflexivity.
Defined.

(** C6. With an empty stored cookie and no non-empty override,
    [listProjects] is rejected with the authentication-required error,
    nothing is put on the wire and the object is unchanged. *)
Theorem listProjects_requires_cookie
    (rt : Runtime) (self : t) (now : Z) (overrideCookie : option string) :
  cookie self = "" ->
  overrideCookie = None \/ overrideCookie = Some "" ->
  listProjects rt self now overrideCookie =
    {| outcome := Rejected "Authentication required. Please provide Iconfont cookie.";
       after := self;
       wire := [] |}.
Proof.
  intros Hstored Hoverride. unfold listProjects.
  rewrite getEffectiveCookie_effectiveToken, Hstored.
  destruct Hoverride as [->| ->]; reflexivity.
Qed.

Lemma listProjects_requires_cookie_witness :
  listProjects Sample.serving Sample.anonymous 0 None =
    {| outcome := Rejected "Authentication required. Please provide Iconfont cookie.";
       after := Sample.anonymous;
       wire := [] |}.
Proof.
  apply (listProjects_requires_cookie Sample.serving Sample.anonymous 0 None).
  - reflexivity.
  - left. reflexivity.
Defined.

End DetailCacheErrors.

(** ** Session store invariant *)

Section SessionStore.

Import IconfontService.

Lemma constructor_consistent (c e : option string) : consistent (constructor c e).
Proof.
  unfold consistent, constructor; simpl.
  destruct (JS.truthy _); reflexivity.
Qed.

(** [setCookie] keeps the flag and the cookie in agreement exactly for a
    non-empty argument. *)
Lemma setCookie_consistent_iff (self : t) (c : string) :
  consistent (setCookie self c) <-> c ≠ "".
Proof.
  unfold consistent, setCookie; simpl. destruct c; simpl; split; congruence.
Qed.

Lemma getLoginStatus_consistent (self : t) :
  consistent self <-> st_loggedIn (getLoginStatus self) = st_hasCookie (getLoginStatus self).
Proof. reflexivity. Qed.

(** The auto-login handler stores a cookie only when it is non-empty. *)
Lemma iconfont_auto_login_consistent (h : IconfontLoginService.Host) (service : t)
    (w : IconfontLoginService.World) :
  consistent service ->
  consistent (Tools.service' (Tools.iconfont_auto_login h service w)).
Proof.
  intros Hs. unfold Tools.iconfont_auto_login.
  destruct (IconfontLoginService.outcome (IconfontLoginService.startLogin _ _ _)).
  2: { destruct (IconfontLoginService.close _ _ _). exact Hs. }
  destruct (IconfontLoginService.outcome (IconfontLoginService.waitForLogin _ _ _ _))
    as [[c|]|m].
  - destruct (JS.truthy c) eqn:Hc; [|exact Hs].
    simpl. apply setCookie_consistent_iff. intros ->. discriminate.
  - exact Hs.
  - destruct (IconfontLoginService.close _ _ _). exact Hs.
Qed.

(** C3, at the failing input. The [iconfont_login] tool accepts any string
    (its schema is [z.string()]); with the empty string [setCookie] raises
    the flag although no cookie is stored, and the status reported is
    [loggedIn = true] together with [hasCookie = false]. *)
Theorem iconfont_login_empty_cookie :
  let '(status, service) := Tools.iconfont_login Sample.anonymous "" in
  status = {| st_loggedIn := true; st_hasCookie := false |} /\
  loggedIn service = true /\ cookie service = "" /\
  ~ consistent service.
Proof. simpl. repeat split. discriminate. Qed.

End SessionStore.

(** ** Translation of remote errors *)

Section RemoteErrors.

Import IconfontService.

(** [searchIcons] tells a 401/403 and a timeout apart from other
    failures. *)
Lemma searchIcons_translates (rt : Runtime) (self : t) (now : Z) (query : string)
    (iconType : option string) (page pageSize : option Z) (e : Thrown) :
  (forall req, axios rt req = Throws e) ->
  outcome (searchIcons rt self now query iconType page pageSize) =
    if isAuthStatus e then
      Rejected "Authentication failed. Please provide a valid Iconfont cookie."
    else if isAborted e then Rejected "Request timed out. Please try again."
    else Rejected ("Failed to search icons: " +:+ messageOf e).
Proof.
  intros Hax. unfold searchIcons. rewrite Hax.
  destruct (isAuthStatus e); [reflexivity|]. destruct (isAborted e); reflexivity.
Qed.

(** The project operations that take an override translate a 401/403
    only. *)
Lemma listProjects_translates (rt : Runtime) (self : t) (now : Z)
    (o : option string) (e : Thrown) :
  JS.truthy (getEffectiveCookie self o) = true ->
  (forall req, axios rt req = Throws e) ->
  outcome (listProjects rt self now o) =
    if isAuthStatus e then
      Rejected "Authentication failed. Please check your Iconfont cookie."
    else Rejected ("Failed to list projects: " +:+ messageOf e).
Proof.
  intros Hc Hax. unfold listProjects. rewrite Hc, Hax. cbn [negb].
  destruct (isAuthStatus e); reflexivity.
Qed.

Lemma searchProjectIcons_translates (rt : Runtime) (self : t) (now : Z)
    (projectId keyword : string) (o : option string) (page : option Z) (e : Thrown) :
  JS.truthy (getEffectiveCookie self o) = true ->
  (forall req, axios rt req = Throws e) ->
  outcome (searchProjectIcons rt self now projectId keyword o page) =
    if isAuthStatus e then
      Rejected "Authentication failed. Please check your Iconfont cookie."
    else Rejected ("Failed to search project icons: " +:+ messageOf e).
Proof.
  intros Hc Hax. unfold searchProjectIcons. rewrite Hc, Hax. cbn [negb].
  destruct (isAuthStatus e); reflexivity.
Qed.

(** [getIconDetail] and [getProjectIcons] translate nothing. *)
Lemma getIconDetail_translates_nothing (rt : Runtime) (self : t)
    (iconId : string) (e : Thrown) :
  (forall req, axios rt req = Throws e) ->
  outcome (getIconDetail rt self iconId) =
    Rejected ("Failed to get icon details: " +:+ messageOf e).
Proof. intros Hax. unfold getIconDetail. rewrite Hax. reflexivity. Qed.

Lemma getProjectIcons_translates_nothing (rt : Runtime) (self : t)
    (projectId : string) (page pageSize : option Z) (e : Thrown) :
  JS.truthy (cookie self) = true ->
  (forall req, axios rt req = Throws e) ->
  outcome (getProjectIcons rt self projectId page pageSize) =
    Rejected ("Failed to get project icons: " +:+ messageOf e).
Proof.
  intros Hc Hax. unfold getProjectIcons. rewrite Hc, Hax. reflexivity.
Qed.

(** C5, at the failing inputs. A 401 answered to [getIconDetail] or
    [getProjectIcons] surfaces as the generic failure of the operation, and
    so does a timeout in every operation but [searchIcons], which alone
    yields both the authentication-failed and the request-timed-out
    errors. *)
Theorem remote_errors_left_untranslated :
  outcome (getIconDetail Sample.unauthorized Sample.anonymous "123") =
    Rejected "Failed to get icon details: Request failed with status code 401" /\
  outcome (getProjectIcons Sample.unauthorized Sample.loggedIn "42" None None) =
    Rejected "Failed to get project icons: Request failed with status code 401" /\
  outcome (getIconDetail Sample.timingOut Sample.anonymous "123") =
    Rejected "Failed to get icon details: timeout of 30000ms exceeded" /\
  outcome (listProjects Sample.timingOut Sample.loggedIn 0 None) =
    Rejected "Failed to list projects: timeout of 30000ms exceeded" /\
  outcome (getProjectIcons Sample.timingOut Sample.loggedIn "42" None None) =
    Rejected "Failed to get project icons: timeout of 30000ms exceeded" /\
  outcome (getProjectDetail Sample.timingOut Sample.loggedIn 0 "42" None None) =
    Rejected "Failed to get project detail: timeout of 30000ms exceeded" /\
  outcome (searchProjectIcons Sample.timingOut Sample.loggedIn 0 "42" "home" None None) =
    Rejected "Failed to search project icons: timeout of 30000ms exceeded" /\
  outcome (searchIcons Sample.unauthorized Sample.anonymous 0 "home" None None None) =
    Rejected "Authentication failed. Please provide a valid Iconfont cookie." /\
  outcome (searchIcons Sample.timingOut Sample.anonymous 0 "home" None None None) =
    Rejected "Request timed out. Please try again.".
Proof. repeat split. Qed.

End RemoteErrors.

(** ** The polling loop *)

Section PollLoop.

Import IconfontLoginService.

Variables (round : Z -> Polled) (latency : Z -> N) (startTime timeout : Z).

(** The loop never closes a browser itself. *)
Lemma pollLoop_closed (w : World) :
  closed (snd (pollLoop round latency startTime timeout w)) = closed w.
Proof.
  funelim (pollLoop round latency startTime timeout w); simpl; auto.
Qed.

(** A value or an error leaving the loop comes from a round. *)
Lemma pollLoop_Got (w : World) (v : string) :
  fst (pollLoop round latency startTime timeout w) = Got v ->
  exists t, round t = Found v.
Proof.
  funelim (pollLoop round latency startTime timeout w); simpl; intros E;
    try discriminate; auto.
  injection E as <-. eauto.
Qed.

Lemma pollLoop_Failed (w : World) (m : string) :
  fst (pollLoop round latency startTime timeout w) = Failed m ->
  exists t, round t = Broke m.
Proof.
  funelim (pollLoop round latency startTime timeout w); simpl; intros E;
    try discriminate; auto.
  injection E as <-. eauto.
Qed.

(** When no round finds or breaks anything the loop times out. *)
Lemma pollLoop_quiet (w : World) :
  (forall t, round t = Nothing) ->
  fst (pollLoop round latency startTime timeout w) = TimedOut.
Proof.
  intros Hquiet.
  funelim (pollLoop round latency startTime timeout w); simpl; auto.
  - rewrite Hquiet in Heq. discriminate.
  - rewrite Hquiet in Heq. discriminate.
Qed.

(** The loop is left on a timeout only once the timeout has elapsed. *)
Lemma pollLoop_TimedOut (w : World) :
  fst (pollLoop round latency startTime timeout w) = TimedOut ->
  timeout <= clock (snd (pollLoop round latency startTime timeout w)) - startTime.
Proof.
  funelim (pollLoop round latency startTime timeout w); simpl; intros E;
    try discriminate; auto.
  lia.
Qed.

Variable L : Z.
Hypothesis latency_bound : forall t, Z.of_N (latency t) <= L.


End PollLoop.

(** ** Auto-login: timeout *)

Section LoginTimeout.

Import IconfontLoginService.


(** A round of the scriptable path breaks only when [page.cookies()]
    rejects, with the error of that call. *)
Lemma jarRound_Broke (h : Host) (now : Z) (m : string) :
  jarRound h now = Broke m <-> pageCookies h now = Rejected m.
Proof.
  unfold jarRound. destruct (pageCookies h now) as [cookies|m'].
  - split; [|discriminate].
    destruct (find _ cookies) as [c|]; [destruct (JS.truthy (value c))|];
      discriminate.
  - split; intros E; injection E as <-; reflexivity.
Qed.



End LoginTimeout.

(** ** Auto-login: what [waitForLogin] returns *)

Section LoginResult.

Import IconfontLoginService.

Lemma jarRound_Found (h : Host) (now : Z) (v : string) :
  jarRound h now = Found v -> JS.truthy v = true.
Proof.
  unfold jarRound. destruct (pageCookies h now) as [cookies|m]; [|discriminate].
  destruct (find _ cookies) as [c|]; [|discriminate].
  destruct (JS.truthy (value c)) eqn:Hv; [|discriminate].
  intros E. injection E as <-. exact Hv.
Qed.

Lemma probeRound_Found (h : Host) (now : Z) (v : string) :
  probeRound h now = Found v ->
  exists cookies, probe h now = Fulfilled cookies /\
                  extractSessionCookie cookies = Some v.
Proof.
  unfold probeRound. destruct (probe h now) as [cookies|m]; [|discriminate].
  destruct (extractSessionCookie cookies) as [c|] eqn:Hx; [|discriminate].
  intros E. injection E as <-. eauto.
Qed.

Lemma probeRound_never_breaks (h : Host) (now : Z) (m : string) :
  probeRound h now <> Broke m.
Proof.
  unfold probeRound. destruct (probe h now) as [cookies|m']; [|discriminate].
  destruct (extractSessionCookie cookies); discriminate.
Qed.

(** [waitForLogin] settles in one of three ways, by path. *)
Lemma waitForLogin_scriptable (h : Host) (timeout : option Z) (self : t) (w : World)
    (p : Page) :
  page self = Some p ->
  let r := waitForLogin h timeout self w in
  let loop := pollLoop (jarRound h) (pageCookiesLatency h) (clock w)
                (default 120000 timeout) w in
  let closing := close h self (snd loop) in
  match fst loop with
  | Got v =>
      outcome r = match outcome closing with
                  | Fulfilled _ => Fulfilled (Some v)
                  | Rejected m => Rejected m
                  end /\
      after r = after closing /\ world r = world closing
  | TimedOut =>
      outcome r = match outcome closing with
                  | Fulfilled _ => Rejected "Login timeout. Please try again."
                  | Rejected m => Rejected m
                  end /\
      after r = after closing /\ world r = world closing
  | Failed m =>
      outcome r = Rejected m /\ after r = self /\ world r = snd loop
  end.
Proof.
  intros Hp. cbv zeta. unfold waitForLogin. rewrite Hp.
  destruct (pollLoop _ _ _ _ _) as [[v| |m] w']; simpl; auto.
Qed.

Lemma waitForLogin_fallback (h : Host) (timeout : option Z) (self : t) (w : World) :
  page self = None ->
  let r := waitForLogin h timeout self w in
  let loop := pollLoop (probeRound h) (probeLatency h) (clock w + 5000)
                (default 120000 timeout) (elapse 5000 w) in
  after r = self /\ world r = snd loop /\
  outcome r =
    match fst loop with
    | Got v => Fulfilled (Some v)
    | TimedOut => Rejected "Login timeout. Please try again."
    | Failed m => Rejected m
    end.
Proof.
  intros Hp. cbv zeta. unfold waitForLogin, waitForCookieFromApiWithPrompt.
  rewrite Hp. simpl default. simpl clock.
  destruct (pollLoop _ _ _ _ _) as [[v| |m] w']; simpl; auto.
Qed.

(** The fallback path is rejected with the timeout error only: the failures
    of its rounds are caught. *)
Lemma waitForLogin_fallback_rejection (h : Host) (timeout : option Z) (self : t)
    (w : World) (m : string) :
  page self = None ->
  outcome (waitForLogin h timeout self w) = Rejected m ->
  m = "Login timeout. Please try again.".
Proof.
  intros Hp. pose proof (waitForLogin_fallback h timeout self w Hp) as (_ & _ & ->).
  destruct (fst (pollLoop _ _ _ _ _)) as [v| |m'] eqn:Hloop.
  - discriminate.
  - intros E. injection E as <-. reflexivity.
  - apply pollLoop_Failed in Hloop as [now Hbroke].
    destruct (probeRound_never_breaks _ _ _ Hbroke).
Qed.

(** C10, as stated, fails: the handler's [else] branch is reachable. On the
    fallback path a set-cookie entry with an empty value makes
    [waitForLogin] fulfil with the empty string, which the handler's
    [if (cookie)] takes for no cookie. *)
Lemma else_branch_reached_with_empty_cookie :
  let h := Sample.answering "EGG_SESS_ICONFONT=; Path=/; HttpOnly" in
  outcome (waitForLogin h (Some 120000) new Sample.dawn) = Fulfilled (Some "") /\
  Tools.reply (Tools.iconfont_auto_login h Sample.anonymous Sample.dawn)
  = Tools.TimeoutNotice.
Proof. split; vm_compute; reflexivity. Qed.

(** C10, amended. [waitForLogin] never fulfils with [null]: it fulfils with
    a string or is rejected. On the scriptable path the string is not
    empty; on the fallback path it is what [extractSessionCookie] reads
    from a probe's header, which may be empty. The handler's [else] branch
    is taken exactly when [waitForLogin] fulfils with the empty string,
    which happens on the fallback path only. *)
Theorem waitForLogin_never_null
    (h : Host) (timeout : option Z) (self : t) (w : World)
    (service : IconfontService.t) :
  let r := waitForLogin h timeout self w in
  outcome r <> Fulfilled None /\
  (forall v, outcome r = Fulfilled (Some v) ->
     match page self with
     | Some _ => v ≠ ""
     | None => exists now cookies, probe h now = Fulfilled cookies /\
                                   extractSessionCookie cookies = Some v
     end) /\
  let started := startLogin h new w in
  let waited := waitForLogin h (Some 120000) (after started) (world started) in
  (Tools.reply (Tools.iconfont_auto_login h service w) = Tools.TimeoutNotice <->
   outcome started = Fulfilled tt /\ outcome waited = Fulfilled (Some "")) /\
  (outcome waited = Fulfilled (Some "") -> page (after started) = None).
Proof.
  assert (Hnull : forall timeout self w,
             outcome (waitForLogin h timeout self w) <> Fulfilled None).
  { intros timeout0 self0 w0. destruct (page self0) as [p|] eqn:Hp.
    - pose proof (waitForLogin_scriptable h timeout0 self0 w0 p Hp) as Hr.
      cbv zeta in Hr. destruct (fst (pollLoop _ _ _ _ _)).
      all: destruct Hr as [-> _]; try destruct (outcome (close _ _ _)); discriminate.
    - pose proof (waitForLogin_fallback h timeout0 self0 w0 Hp) as (_ & _ & ->).
      destruct (fst (pollLoop _ _ _ _ _)); discriminate. }
  assert (Hval : forall timeout self w v,
             outcome (waitForLogin h timeout self w) = Fulfilled (Some v) ->
             match page self with
             | Some _ => v ≠ ""
             | None => exists now cookies, probe h now = Fulfilled cookies /\
                                           extractSessionCookie cookies = Some v
             end).
  { intros timeout0 self0 w0 v. destruct (page self0) as [p|] eqn:Hp.
    - pose proof (waitForLogin_scriptable h timeout0 self0 w0 p Hp) as Hr.
      cbv zeta in Hr.
      destruct (fst (pollLoop _ _ _ _ _)) as [v'| |m] eqn:Hloop.
      + destruct Hr as [-> _].
        destruct (outcome (close _ _ _)); [|discriminate].
        intros E. injection E as <-.
        apply pollLoop_Got in Hloop as [now Hfound].
        apply jarRound_Found in Hfound. intros ->. discriminate.
      + destruct Hr as [-> _]. destruct (outcome (close _ _ _)); discriminate.
      + destruct Hr as [-> _]. discriminate.
    - pose proof (waitForLogin_fallback h timeout0 self0 w0 Hp) as (_ & _ & ->).
      destruct (fst (pollLoop _ _ _ _ _)) as [v'| |m] eqn:Hloop; try discriminate.
      intros E. injection E as <-.
      apply pollLoop_Got in Hloop as [now Hfound].
      apply probeRound_Found in Hfound. eauto. }
  cbv zeta. split; [apply Hnull|]. split; [apply Hval|]. split.
  - unfold Tools.iconfont_auto_login.
    destruct (outcome (startLogin h new w)) as [[]|m].
    2: { simpl. destruct (outcome (close h _ _));
         (split; [discriminate|intros [E _]; discriminate]). }
    destruct (outcome (waitForLogin h (Some 120000) _ _)) as [[c|]|m] eqn:Hw.
    + destruct c as [|a c]; simpl.
      * split; auto.
      * split; [discriminate|]. intros [_ E]. discriminate.
    + exfalso. exact (Hnull _ _ _ Hw).
    + simpl. destruct (outcome (close h _ _));
        (split; [discriminate|intros [_ E]; discriminate]).
  - intros Hw. apply Hval in Hw.
    destruct (page (after (startLogin h new w))); [|reflexivity].
    exfalso. apply Hw. reflexivity.
Qed.

End LoginResult.

(** ** Auto-login: release of the browser *)

Section BrowserRelease.

Import IconfontLoginService.

(** What [close] adds to the record of [browser.close()] calls, whether the
    call resolves or rejects. *)
Lemma close_closed (h : Host) (self : t) (w : World) :
  closed (world (close h self w)) =
    (closed w ++ match browser self with Some b => [b] | None => [] end)%list.
Proof.
  unfold close. destruct (browser self); [destruct (browserClose h (clock w))|];
    simpl; try reflexivity.
  rewrite app_nil_r. reflexivity.
Qed.

(** A [close] that resolves leaves nothing running; a [close] that rejects
    leaves the object as it was. *)
Lemma isRunning_close (h : Host) (self : t) (w : World) :
  outcome (close h self w) = Fulfilled tt ->
  isRunning (after (close h self w)) = false.
Proof.
  unfold close, isRunning. destruct (browser self) eqn:Hb.
  - destruct (browserClose h (clock w)); simpl; [reflexivity | discriminate].
  - simpl. rewrite Hb. reflexivity.
Qed.

Lemma close_rejected (h : Host) (self : t) (w : World) (m : string) :
  outcome (close h self w) = Rejected m ->
  after (close h self w) = self /\ isRunning self = true /\
  browserClose h (clock w) = Rejected m.
Proof.
  unfold close, isRunning. destruct (browser self) eqn:Hb; [|discriminate].
  destruct (browserClose h (clock w)); simpl; [discriminate|].
  intros E. injection E as <-. auto.
Qed.

(** Where [browser.close()] never rejects, [close] resolves, with the
    handles reset when a browser was held. *)
Lemma close_resolves (h : Host) (self : t) (w : World) :
  (forall now, browserClose h now = Fulfilled tt) ->
  close h self w =
    {| outcome := Fulfilled tt;
       after := match browser self with Some _ => new | None => self end;
       world := match browser self with
                | Some b => {| clock := clock w + Z.of_N (closeLatency h);
                               closed := (closed w ++ [b])%list |}
                | None => w
                end |}.
Proof.
  intros Hclose. unfold close. rewrite Hclose.
  destruct (browser self); reflexivity.
Qed.

(** [startLogin] closes nothing and leaves the launched browser, if any,
    in [this.browser]. *)
Lemma startLogin_state (h : Host) (w : World) :
  let r := startLogin h new w in
  world r = w /\ browser (after r) = launch h /\
  (page (after r) <> None -> page (after r) = newPage h /\ launch h <> None).
Proof.
  unfold startLogin, openBrowserWithSystem.
  destruct (launch h) as [b|]; [destruct (newPage h) as [p|]|];
    try destruct (goto h); destruct (execOpen h); simpl; repeat split;
    try congruence.
Qed.

(** Where [browser.close()] never rejects: on the scriptable path the
    handler closes the browser exactly once, however the attempt ends. *)
Lemma scriptable_login_closes_once (h : Host) (service : IconfontService.t)
    (w : World) (b : Browser) (p : Page) :
  (forall now, browserClose h now = Fulfilled tt) ->
  launch h = Some b -> newPage h = Some p ->
  let r := Tools.iconfont_auto_login h service w in
  closed (Tools.world' r) = (closed w ++ [b])%list /\
  isRunning (Tools.loginService' r) = false.
Proof.
  intros Hclose Hb Hp. cbv zeta. unfold Tools.iconfont_auto_login.
  assert (Hs : exists o, startLogin h new w =
                 {| outcome := o; after := {| browser := Some b; page := Some p |};
                    world := w |}).
  { unfold startLogin, openBrowserWithSystem. rewrite Hb, Hp.
    destruct (goto h); [|destruct (execOpen h)]; eauto. }
  destruct Hs as [o ->]. cbn [outcome after world].
  destruct o as [[]|m]; [|rewrite close_resolves by exact Hclose; simpl; auto].
  set (self := {| browser := Some b; page := Some p |}).
  pose proof (waitForLogin_scriptable h (Some 120000) self w p eq_refl) as Hr.
  cbv zeta in Hr.
  pose proof (pollLoop_closed (jarRound h) (pageCookiesLatency h) (clock w)
                (default 120000 (Some 120000)) w) as Hc.
  destruct (pollLoop _ _ _ _ _) as [e w'] eqn:Hloop. simpl in Hr, Hc.
  rewrite (close_resolves h self w' Hclose) in Hr. cbn [outcome after world] in Hr.
  destruct e as [v| |m].
  - destruct Hr as (Ho & Ha & Hw). rewrite Ho.
    assert (Hv : JS.truthy v = true).
    { pose proof (pollLoop_Got (jarRound h) (pageCookiesLatency h) (clock w)
                    (default 120000 (Some 120000)) w v) as Hg.
      rewrite Hloop in Hg. destruct (Hg eq_refl) as [now Hf].
      exact (jarRound_Found _ _ _ Hf). }
    rewrite Hv. simpl. rewrite Ha, Hw. simpl. rewrite Hc. auto.
  - destruct Hr as (Ho & Ha & Hw). rewrite Ho, Ha.
    rewrite close_resolves by exact Hclose. rewrite Hw. simpl. rewrite Hc. auto.
  - destruct Hr as (Ho & Ha & Hw). rewrite Ho, Ha, Hw.
    rewrite close_resolves by exact Hclose. simpl. rewrite Hc. auto.
Qed.

(** Where [browser.close()] never rejects: whenever the handler ends in its
    [catch] clause the launched browser, if any, has been closed exactly
    once and nothing runs. *)
Lemma failed_login_releases_browser (h : Host) (service : IconfontService.t)
    (w : World) (m : string) :
  (forall now, browserClose h now = Fulfilled tt) ->
  let r := Tools.iconfont_auto_login h service w in
  Tools.reply r = Tools.ErrorReply m ->
  isRunning (Tools.loginService' r) = false /\
  closed (Tools.world' r) =
    (closed w ++ match launch h with Some b => [b] | None => [] end)%list.
Proof.
  intros Hclose. cbv zeta. unfold Tools.iconfont_auto_login.
  pose proof (startLogin_state h w) as (Hw & Hb & Hp). cbv zeta in Hw, Hb, Hp.
  destruct (startLogin h new w) as [o self w0]. simpl in Hw, Hb, Hp. subst w0.
  cbn [outcome after world].
  assert (Hcatch : forall s0 w0,
            isRunning (after (close h s0 w0)) = false /\
            closed (world (close h s0 w0)) =
              (closed w0 ++ match browser s0 with Some b => [b] | None => [] end)%list).
  { intros s0 w0. split; [|apply close_closed].
    apply isRunning_close. rewrite close_resolves by exact Hclose. reflexivity. }
  destruct o as [[]|m0].
  2: { intros _. destruct (Hcatch self w) as [Hrun Hcl]. rewrite Hb in Hcl.
       simpl. auto. }
  destruct (page self) as [p|] eqn:Hpage.
  - pose proof (waitForLogin_scriptable h (Some 120000) self w p Hpage) as Hr.
    cbv zeta in Hr.
    pose proof (pollLoop_closed (jarRound h) (pageCookiesLatency h) (clock w)
                  (default 120000 (Some 120000)) w) as Hc.
    destruct (pollLoop _ _ _ _ _) as [e w'] eqn:Hloop. simpl in Hr, Hc.
    rewrite (close_resolves h self w' Hclose) in Hr. cbn [outcome after world] in Hr.
    destruct e as [v| |m'].
    + destruct Hr as (Ho & _ & _). rewrite Ho.
      destruct (JS.truthy v); discriminate.
    + destruct Hr as (Ho & Ha & Hwd). rewrite Ho, Ha, Hwd. intros _.
      rewrite close_resolves by exact Hclose.
      destruct (browser self) as [b|] eqn:Hbs; rewrite <- Hb; simpl;
        rewrite ?Hbs, ?Hc, ?app_nil_r; auto.
      unfold isRunning. rewrite Hbs. auto.
    + destruct Hr as (Ho & Ha & Hwd). rewrite Ho, Ha, Hwd. intros _.
      destruct (Hcatch self w') as [Hrun Hcl]. rewrite Hb, Hc in Hcl.
      simpl. auto.
  - pose proof (waitForLogin_fallback h (Some 120000) self w Hpage) as (Ha & Hwd & Ho).
    pose proof (pollLoop_closed (probeRound h) (probeLatency h) (clock w + 5000)
                  (default 120000 (Some 120000)) (elapse 5000 w)) as Hc.
    rewrite Ho, Ha, Hwd.
    destruct (pollLoop _ _ _ _ _) as [e w'] eqn:Hloop. simpl in Hc |- *.
    destruct (Hcatch self w') as [Hrun Hcl]. rewrite Hb, Hc in Hcl.
    destruct e as [v| |m'].
    + destruct (JS.truthy v); discriminate.
    + simpl. auto.
    + simpl. auto.
Qed.

(** C7, at the failing input. [puppeteer.launch] succeeds, [newPage]
    rejects, the system browser opens and the probe is answered with the
    session cookie: the handler reports a successful login, yet
    [browser.close()] was never called on the launched browser and
    [isRunning()] still answers true. *)
Theorem browser_left_open_after_fallback_login :
  let h := Sample.pageless "EGG_SESS_ICONFONT=abc; Path=/; HttpOnly" in
  let r := Tools.iconfont_auto_login h Sample.anonymous Sample.dawn in
  launch h = Some 7%nat /\
  Tools.reply r =
    Tools.LoggedIn {| IconfontService.st_loggedIn := true;
                      IconfontService.st_hasCookie := true |} /\
  closed (Tools.world' r) = [] /\
  isRunning (Tools.loginService' r) = true.
Proof. repeat split; vm_compute; reflexivity. Qed.

End BrowserRelease.

(** ** Auto-login: the token read from a set-cookie header *)

Section CookieExtraction.

Import IconfontLoginService.

Lemma cons_append (c : ascii) (s t : string) :
  String c s +:+ t = String c (s +:+ t).
Proof. reflexivity. Qed.

Lemma every_append (P : ascii -> bool) (s t : string) :
  every P (s +:+ t) = every P s && every P t.
Proof.
  induction s as [|c s IH]; [reflexivity|].
  rewrite cons_append. simpl. rewrite IH, andb_assoc. reflexivity.
Qed.

Lemma prefix_append (p s : string) : String.prefix p (p +:+ s) = true.
Proof.
  induction p as [|c p IH]; [destruct s; reflexivity|].
  rewrite cons_append. simpl. destruct (ascii_dec c c); [exact IH | contradiction].
Qed.

Lemma drop_append (p s : string) : JS.drop (String.length p) (p +:+ s) = s.
Proof. induction p as [|c p IH]; [reflexivity | exact IH]. Qed.

Lemma replace_unfold (pat rep s : string) :
  JS.replace pat rep s =
    if String.prefix pat s then rep +:+ JS.drop (String.length pat) s
    else match s with
         | EmptyString => EmptyString
         | String c r => String c (JS.replace pat rep r)
         end.
Proof. destruct s; reflexivity. Qed.

(** The pieces of a split: a separator-free front stays in the first
    piece. *)
Lemma split_nonempty (sep : ascii) (s : string) : JS.split sep s <> [].
Proof.
  induction s as [|c s IH]; simpl; [discriminate|].
  destruct (Ascii.eqb c sep); [discriminate|].
  destruct (JS.split sep s); [contradiction | discriminate].
Qed.

Lemma split_append (sep : ascii) (a s : string) :
  lacks sep a = true ->
  JS.split sep (a +:+ s) =
    (a +:+ hd EmptyString (JS.split sep s)) :: tl (JS.split sep s).
Proof.
  induction a as [|c a IH]; intros Ha.
  - change (EmptyString +:+ s) with s. pose proof (split_nonempty sep s).
    destruct (JS.split sep s); [contradiction | reflexivity].
  - unfold lacks in Ha. simpl in Ha. apply andb_prop in Ha as [Hc Ha].
    rewrite cons_append. simpl.
    destruct (Ascii.eqb c sep); [discriminate|].
    rewrite (IH Ha). reflexivity.
Qed.

Lemma trimStart_white (ws s : string) :
  every JS.isWhiteSpace ws = true -> JS.trimStart (ws +:+ s) = JS.trimStart s.
Proof.
  induction ws as [|c ws IH]; intros Hws; [reflexivity|].
  simpl in Hws. apply andb_prop in Hws as [Hc Hws].
  rewrite cons_append. simpl. rewrite Hc. exact (IH Hws).
Qed.

Lemma trimEnd_black (p s : string) :
  every (fun c => negb (JS.isWhiteSpace c)) p = true ->
  JS.trimEnd (p +:+ s) = p +:+ JS.trimEnd s.
Proof.
  induction p as [|c p IH]; intros Hp; [reflexivity|].
  simpl in Hp. apply andb_prop in Hp as [Hc Hp].
  rewrite !cons_append. simpl. rewrite (IH Hp).
  destruct (p +:+ JS.trimEnd s); [|reflexivity].
  destruct (JS.isWhiteSpace c); [discriminate | reflexivity].
Qed.

(** After leading white space, the first occurrence of the name is the
    entry's own. *)
Lemma replace_after_white (ws v : string) :
  every JS.isWhiteSpace ws = true ->
  JS.replace SESSION "" (ws +:+ SESSION +:+ v) = ws +:+ v.
Proof.
  induction ws as [|c ws IH]; intros Hws.
  - change ("" +:+ SESSION +:+ v) with (SESSION +:+ v).
    rewrite replace_unfold, prefix_append, drop_append. reflexivity.
  - simpl in Hws. apply andb_prop in Hws as [Hc Hws].
    rewrite cons_append, replace_unfold.
    replace (String.prefix SESSION (String c (ws +:+ SESSION +:+ v))) with false.
    + rewrite (IH Hws). reflexivity.
    + unfold SESSION.
      change (false = if ascii_dec "E" c
                      then String.prefix "GG_SESS_ICONFONT=" (ws +:+ SESSION +:+ v)
                      else false).
      destruct (ascii_dec "E" c) as [<-|]; [discriminate | reflexivity].
Qed.

Lemma append_empty_r (s : string) : s +:+ "" = s.
Proof. induction s as [|c s IH]; [reflexivity|]. rewrite cons_append, IH. reflexivity. Qed.

Lemma append_associative (a b c : string) : (a +:+ b) +:+ c = a +:+ b +:+ c.
Proof.
  induction a as [|x a IH]; [reflexivity|]. rewrite !cons_append, IH. reflexivity.
Qed.

Lemma every_impl (P Q : ascii -> bool) (s : string) :
  (forall c, P c = true -> Q c = true) -> every P s = true -> every Q s = true.
Proof.
  intros HPQ. induction s as [|c s IH]; simpl; [reflexivity|].
  intros H. apply andb_prop in H as [Hc Hs]. rewrite (HPQ c Hc), (IH Hs). reflexivity.
Qed.

Lemma white_lacks (sep : ascii) (ws : string) :
  JS.isWhiteSpace sep = false ->
  every JS.isWhiteSpace ws = true -> lacks sep ws = true.
Proof.
  intros Hsep. apply every_impl. intros c Hc.
  destruct (Ascii.eqb_spec c sep) as [->|]; [congruence | reflexivity].
Qed.

(** The first piece of the attributes that follow the value. *)
Lemma attrs_head (sep : ascii) (attrs : string) :
  Ascii.eqb ";" sep = false ->
  attrs = "" \/ (exists r, attrs = String ";" r) ->
  let a := hd EmptyString (JS.split sep attrs) in
  a = "" \/ exists r, a = String ";" r.
Proof.
  intros Hsep [->|[r ->]]; cbn [JS.split hd]; [left; reflexivity|].
  rewrite Hsep. pose proof (split_nonempty sep r).
  destruct (JS.split sep r); [contradiction|]. right. cbn [hd]. eauto.
Qed.

(** The token read from an entry made of white space [ws], the name, a
    value [v] free of [;] and [,], and attributes: the white space stays in
    front of the value. *)
Lemma sessionCookieIn_entry (ws v attrs : string) :
  every JS.isWhiteSpace ws = true ->
  lacks ";" v = true -> lacks "," v = true ->
  attrs = "" \/ (exists r, attrs = String ";" r) ->
  sessionCookieIn (ws +:+ SESSION +:+ v +:+ attrs) = Some (ws +:+ v).
Proof.
  intros Hws Hsemi Hcomma Hattrs.
  set (A := ws +:+ SESSION +:+ v).
  assert (HA : forall sep, JS.isWhiteSpace sep = false ->
                 lacks sep SESSION = true -> lacks sep v = true ->
                 lacks sep A = true).
  { intros sep Hsep Hname Hv. unfold A, lacks. rewrite !every_append.
    fold (lacks sep ws) (lacks sep SESSION) (lacks sep v).
    rewrite (white_lacks sep ws Hsep Hws), Hname, Hv. reflexivity. }
  replace (ws +:+ SESSION +:+ v +:+ attrs) with (A +:+ attrs)
    by (unfold A; rewrite !append_associative; reflexivity).
  unfold sessionCookieIn.
  rewrite (split_append "," A attrs) by (apply HA; [reflexivity | reflexivity | exact Hcomma]).
  pose proof (attrs_head "," attrs eq_refl Hattrs) as Ha. cbv zeta in Ha.
  set (a := hd EmptyString (JS.split "," attrs)) in *.
  assert (Hfound : JS.startsWith (JS.trim (A +:+ a)) "EGG_SESS_ICONFONT=" = true).
  { unfold JS.startsWith, JS.trim, A.
    rewrite !append_associative, (trimStart_white ws _ Hws).
    change (JS.trimStart (SESSION +:+ v +:+ a)) with (SESSION +:+ v +:+ a).
    rewrite (trimEnd_black SESSION) by reflexivity.
    apply prefix_append. }
  cbn [find]. rewrite Hfound.
  assert (Htruthy : JS.truthy (A +:+ a) = true).
  { unfold A. destruct ws; reflexivity. }
  rewrite Htruthy.
  rewrite (split_append ";" A a) by (apply HA; [reflexivity | reflexivity | exact Hsemi]).
  assert (Hhd : hd EmptyString (JS.split ";" a) = "").
  { destruct Ha as [->|[r ->]]; reflexivity. }
  cbn [hd]. rewrite Hhd, append_empty_r.
  unfold A. exact (f_equal Some (replace_after_white ws v Hws)).
Qed.

(** Without leading white space the token is the value. *)
Lemma sessionCookieIn_plain_entry (v attrs : string) :
  lacks ";" v = true -> lacks "," v = true ->
  attrs = "" \/ (exists r, attrs = String ";" r) ->
  sessionCookieIn (SESSION +:+ v +:+ attrs) = Some v.
Proof. intros. apply (sessionCookieIn_entry "" v attrs); auto. Qed.

(** C9, at the failing inputs. An entry that carries leading white space
    is found, because the test trims it, but the token is cut from the
    untrimmed entry: for the value [abc] the token read is [ abc], both for
    a single header value and behind a folded header; without the white
    space the token is [abc]. *)
Theorem extractSessionCookie_keeps_leading_space :
  extractSessionCookie
    (Some (HeaderString " EGG_SESS_ICONFONT=abc; Path=/; HttpOnly")) = Some " abc" /\
  extractSessionCookie
    (Some (HeaderString "locale=zh-cn; Path=/, EGG_SESS_ICONFONT=abc; Path=/")) =
    Some " abc" /\
  outcome (waitForLogin
             (Sample.answering "locale=zh-cn; Path=/, EGG_SESS_ICONFONT=abc; Path=/")
             (Some 120000) new Sample.dawn) = Fulfilled (Some " abc") /\
  extractSessionCookie
    (Some (HeaderList ["locale=zh-cn; Path=/"; "EGG_SESS_ICONFONT=abc; Path=/"])) =
    Some "abc".
Proof. repeat split; vm_compute; reflexivity. Qed.

End CookieExtraction.

(** ** The end-to-end scenarios of the specification *)

Section Scenarios.

Import IconfontService.

(** Scenario 1: after [setCookie("abc123")] the status is logged in, with a
    cookie. *)
Example scenario_setCookie :
  getLoginStatus (setCookie Sample.anonymous "abc123") =
    {| st_loggedIn := true; st_hasCookie := true |}.
Proof. reflexivity. Qed.

(** Scenario 3: at 400000 ms the entry captured at 0 is stale; the detail is
    fetched again and the entry replaced. *)
Example scenario_stale_entry :
  let r := getProjectDetail Sample.serving Sample.warmed 400000 "42" None None in
  outcome r = Fulfilled Sample.detail42 /\
  wire r = [detailRequest Sample.warmed 400000 "42" None] /\
  projectDetailCache (after r) !! "42" =
    Some {| data := Sample.detail42; timestamp := 400000; updatedAt := "2024-02-01" |}.
Proof. repeat split; vm_compute; reflexivity. Qed.

(** Forced refresh: a fresh entry is bypassed. *)
Example scenario_forced_refresh :
  let r := getProjectDetail Sample.serving Sample.warmed 1000 "42" None (Some true) in
  wire r = [detailRequest Sample.warmed 1000 "42" None] /\
  projectDetailCache (after r) !! "42" =
    Some {| data := Sample.detail42; timestamp := 1000; updatedAt := "2024-02-01" |}.
Proof. repeat split; vm_compute; reflexivity. Qed.

(** Scenario 5: without a scriptable browser and without a session cookie
    in any probe, the handler reports the timeout as an error 125000 ms
    later; no browser was there to close. *)
Example scenario_fallback_timeout :
  let r := Tools.iconfont_auto_login Sample.quiet Sample.anonymous Sample.dawn in
  Tools.reply r = Tools.ErrorReply "Error: Login timeout. Please try again." /\
  IconfontLoginService.clock (Tools.world' r) = 125000 /\
  IconfontLoginService.closed (Tools.world' r) = [] /\
  Tools.service' r = Sample.anonymous.
Proof. repeat split; vm_compute; reflexivity. Qed.

(** A scripted browser whose jar holds the session cookie from 6000 ms on:
    the cookie is stored and the browser closed. *)
Example scenario_scripted_login :
  let h :=
    {| IconfontLoginService.launch := Some 7%nat;
       IconfontLoginService.newPage := Some 1%nat;
       IconfontLoginService.goto := true;
       IconfontLoginService.execOpen := true;
       IconfontLoginService.pageCookies := fun now =>
         Fulfilled (if 6000 <=? now
                    then [{| IconfontLoginService.name := "EGG_SESS_ICONFONT";
                             IconfontLoginService.value := "abc" |}]
                    else []);
       IconfontLoginService.pageCookiesLatency := fun _ => 0%N;
       IconfontLoginService.probe := fun _ => Fulfilled None;
       IconfontLoginService.probeLatency := fun _ => 0%N;
       IconfontLoginService.browserClose := fun _ => Fulfilled tt;
       IconfontLoginService.closeLatency := 200%N |} in
  let r := Tools.iconfont_auto_login h Sample.anonymous Sample.dawn in
  Tools.reply r = Tools.LoggedIn {| st_loggedIn := true; st_hasCookie := true |} /\
  cookie (Tools.service' r) = "abc" /\
  IconfontLoginService.clock (Tools.world' r) = 6200 /\
  IconfontLoginService.closed (Tools.world' r) = [7%nat] /\
  IconfontLoginService.isRunning (Tools.loginService' r) = false.
Proof. repeat split; vm_compute; reflexivity. Qed.

End Scenarios.

(** * Further properties of the service *)

Section ServiceHeaders.

Import IconfontService.

Lemma cookieValue_prefixed (c : string) :
  JS.startsWith (cookieValue c) "EGG_SESS_ICONFONT=" = true.
Proof.
  unfold cookieValue. destruct (JS.startsWith c "EGG_SESS_ICONFONT=") eqn:Hc.
  - exact Hc.
  - unfold JS.startsWith. apply (prefix_append SESSION c).
Qed.

(** X1. The [Cookie] header of [getHeaders] is absent exactly when the
    effective cookie is empty. When present it always starts with the name
    [EGG_SESS_ICONFONT=]: a cookie that already carries the name is sent as it
    is, a bare value gets the name in front, and the header value is left
    unchanged when it is fed back as a cookie. The three fixed headers are
    always there. *)
Theorem cookie_header_normalised (self : t) (overrideCookie : option string) :
  let c := getEffectiveCookie self overrideCookie in
  let hs := getHeaders self overrideCookie in
  (JS.getProp "Cookie" hs = None <-> c = "") /\
  (forall v, JS.getProp "Cookie" hs = Some v ->
     JS.startsWith v "EGG_SESS_ICONFONT=" = true /\
     cookieValue v = v /\
     (JS.startsWith c "EGG_SESS_ICONFONT=" = true -> v = c) /\
     (JS.startsWith c "EGG_SESS_ICONFONT=" = false -> v = "EGG_SESS_ICONFONT=" +:+ c)) /\
  JS.getProp "User-Agent" hs = Some USER_AGENT /\
  JS.getProp "Accept" hs = Some "application/json" /\
  JS.getProp "Referer" hs = Some "https://www.iconfont.cn/".
Proof.
  cbv zeta. rewrite getHeaders_Cookie. cbv zeta.
  set (c := getEffectiveCookie self overrideCookie).
  split; [|split].
  - destruct (JS.truthy c) eqn:Ht.
    + split; [discriminate|]. intros E. rewrite E in Ht. discriminate.
    + split; [|reflexivity]. intros _. apply truthy_false_iff. exact Ht.
  - intros v Hv. destruct (JS.truthy c); [|discriminate]. injection Hv as <-.
    split; [apply cookieValue_prefixed|]. split.
    + unfold cookieValue at 1. rewrite cookieValue_prefixed. reflexivity.
    + unfold cookieValue. split; intros ->; reflexivity.
  - unfold getHeaders. cbv zeta. fold c. repeat split.
Qed.

End ServiceHeaders.

Section ServiceGuards.

Import IconfontService.

(** X2. Without a stored cookie and without a non-empty override,
    [getProjectDetail] and [searchProjectIcons] are rejected with the
    authentication-required error before anything is sent, and so is
    [getProjectIcons], which takes no override at all; the object is
    unchanged. *)
Theorem project_operations_require_cookie
    (rt : Runtime) (self : t) (now : Z) (projectId keyword : string)
    (overrideCookie : option string) (forceRefresh : option bool)
    (page pageSize : option Z) :
  cookie self = "" ->
  overrideCookie = None \/ overrideCookie = Some "" ->
  getProjectDetail rt self now projectId overrideCookie forceRefresh =
    {| outcome := Rejected "Authentication required. Please provide Iconfont cookie.";
       after := self; wire := [] |} /\
  searchProjectIcons rt self now projectId keyword overrideCookie page =
    {| outcome := Rejected "Authentication required. Please provide Iconfont cookie.";
       after := self; wire := [] |} /\
  getProjectIcons rt self projectId page pageSize =
    {| outcome := Rejected "Authentication required. Please provide Iconfont cookie.";
       after := self; wire := [] |}.
Proof.
  intros Hstored Hoverride.
  unfold getProjectDetail, searchProjectIcons, getProjectIcons.
  rewrite getEffectiveCookie_effectiveToken, Hstored.
  destruct Hoverride as [->| ->]; repeat split.
Qed.

Lemma project_operations_require_cookie_witness :
  getProjectIcons Sample.serving Sample.anonymous "42" None None =
    {| outcome := Rejected "Authentication required. Please provide Iconfont cookie.";
       after := Sample.anonymous; wire := [] |}.
Proof.
  apply (project_operations_require_cookie Sample.serving Sample.anonymous 0
           "42" "home" (Some "") None None None).
  - reflexivity.
  - right. reflexivity.
Defined.

(** X3. No remote operation touches the session: the stored cookie, the
    logged-in flag and the maximal cache age are the same afterwards. All
    operations but [getProjectDetail] leave the whole object, cache
    included, as it was; [searchIcons] and [getIconDetail] always send
    exactly one request, logged in or not. *)
Theorem remote_operations_keep_session
    (rt : Runtime) (self : t) (now : Z) (query projectId keyword iconId : string)
    (iconType overrideCookie : option string) (forceRefresh : option bool)
    (page pageSize : option Z) :
  let detail := getProjectDetail rt self now projectId overrideCookie forceRefresh in
  let search := searchIcons rt self now query iconType page pageSize in
  let icon := getIconDetail rt self iconId in
  cookie (after detail) = cookie self /\
  loggedIn (after detail) = loggedIn self /\
  cacheMaxAge (after detail) = cacheMaxAge self /\
  after search = self /\
  after icon = self /\
  after (listProjects rt self now overrideCookie) = self /\
  after (getProjectIcons rt self projectId page pageSize) = self /\
  after (searchProjectIcons rt self now projectId keyword overrideCookie page) = self /\
  length (wire search) = 1%nat /\
  length (wire icon) = 1%nat.
Proof.
  cbv zeta.
  unfold getProjectDetail, searchIcons, getIconDetail, listProjects,
    getProjectIcons, searchProjectIcons.
  repeat split.
  all: repeat match goal with
         | |- context [if negb ?b then _ else _] => destruct b; cbn [negb]
         | |- context [match cachedDetail ?a ?b ?c ?d with _ => _ end] =>
             destruct (cachedDetail a b c d)
         | |- context [match axios ?r ?q with _ => _ end] =>
             destruct (axios r q) as [[[?|]|]|?]
         | |- context [match d_project ?d with _ => _ end] => destruct (d_project d)
         | |- context [if isAuthStatus ?e then _ else _] => destruct (isAuthStatus e)
         | |- context [if isAborted ?e then _ else _] => destruct (isAborted e)
         end; reflexivity.
Qed.

(** X4. [getProjectDetail] for one project never disturbs the cache
    entries of the others, and never removes an entry: afterwards the entry
    of the project itself is the one found before or, after a successful
    remote fetch, the fresh result captured at [now]. *)
Theorem getProjectDetail_frame
    (rt : Runtime) (self : t) (now : Z) (projectId : string)
    (overrideCookie : option string) (forceRefresh : option bool) :
  let r := getProjectDetail rt self now projectId overrideCookie forceRefresh in
  (forall other, other ≠ projectId ->
     projectDetailCache (after r) !! other = projectDetailCache self !! other) /\
  (projectDetailCache (after r) !! projectId = projectDetailCache self !! projectId \/
   exists result,
     outcome r = Fulfilled result /\
     wire r = [detailRequest self now projectId overrideCookie] /\
     projectDetailCache (after r) !! projectId =
       Some {| data := result; timestamp := now; updatedAt := updated_at result |}).
Proof.
  cbv zeta. unfold getProjectDetail.
  destruct (negb _); [split; auto|].
  destruct (cachedDetail _ _ _ _); [split; auto|].
  axios_cases; try destruct (d_project _); cbn [after outcome wire]; try (split; auto).
  - intros other Hne. unfold cacheSet; cbn [projectDetailCache].
    apply lookup_insert_ne. congruence.
  - right. eexists. split; [reflexivity|]. split; [reflexivity|].
    unfold cacheSet; cbn [projectDetailCache]. apply lookup_insert_eq.
Qed.

(** A remote fetch followed by a call inside the freshness window. *)
Lemma getProjectDetail_rehit
    (rt rt' : Runtime) (self : t) (t0 t1 : Z) (projectId : string)
    (o o' : option string) (f : option bool) (result : IconfontProjectDetail) :
  let first := getProjectDetail rt self t0 projectId o f in
  wire first = [detailRequest self t0 projectId o] ->
  outcome first = Fulfilled result ->
  JS.truthy (getEffectiveCookie (after first) o') = true ->
  t1 - t0 < cacheMaxAge self ->
  getProjectDetail rt' (after first) t1 projectId o' None =
    {| outcome := Fulfilled result; after := after first; wire := [] |}.
Proof.
  cbv zeta. intros Hwire Hout Hcookie Hage.
  pose proof (getProjectDetail_cacheMaxAge rt self t0 projectId o f) as Hmax.
  assert (Hfresh : projectDetailCache
                     (after (getProjectDetail rt self t0 projectId o f)) !! projectId
                   = Some {| data := result; timestamp := t0;
                             updatedAt := updated_at result |}).
  { revert Hwire Hout. unfold getProjectDetail.
    destruct (negb _); [discriminate|].
    destruct (cachedDetail _ _ _ _); [discriminate|].
    axios_cases; try destruct (d_project _); cbn [after outcome wire];
      try (intros _ E; try destruct (isAuthStatus _); discriminate).
    intros _ E. injection E as <-.
    unfold cacheSet; cbn [projectDetailCache]. apply lookup_insert_eq. }
  unfold getProjectDetail at 1. rewrite Hcookie. cbn [negb default].
  rewrite cachedDetail_spec, Hfresh, Hmax. cbn [negb andb timestamp data].
  destruct (Z.ltb_spec (t1 - t0) (cacheMaxAge self)); [reflexivity | lia].
Qed.

(** X5. A detail fetched remotely at time [t0] is served from the cache to
    every later call for the same project made less than the maximal age
    after [t0], without forced refresh: the same value comes back, nothing
    is sent and nothing changes, whatever the remote service would answer
    and whichever non-empty cookie the call uses. *)
Theorem detail_served_from_cache_after_fetch
    (rt rt' : Runtime) (self : t) (t0 t1 : Z) (projectId : string)
    (o o' : option string) (f : option bool) (result : IconfontProjectDetail) :
  let first := getProjectDetail rt self t0 projectId o f in
  wire first = [detailRequest self t0 projectId o] ->
  outcome first = Fulfilled result ->
  JS.truthy (getEffectiveCookie (after first) o') = true ->
  t1 - t0 < cacheMaxAge self ->
  getProjectDetail rt' (after first) t1 projectId o' None =
    {| outcome := Fulfilled result; after := after first; wire := [] |}.
Proof.
  exact (getProjectDetail_rehit rt rt' self t0 t1 projectId o o' f result).
Qed.

Lemma detail_served_from_cache_after_fetch_witness :
  getProjectDetail Sample.timingOut Sample.warmed 299999 "42" (Some "other") None =
    {| outcome := Fulfilled Sample.detail42; after := Sample.warmed; wire := [] |}.
Proof.
  apply (detail_served_from_cache_after_fetch Sample.serving Sample.timingOut
           Sample.loggedIn 0 299999 "42" None (Some "other") None Sample.detail42).
  - vm_compute. reflexivity.
  - vm_compute. reflexivity.
  - reflexivity.
  - simpl. lia.
Defined.

(** X6. [clearCache] empties the cache and nothing else: the login status
    and the effective cookie are as before, and the next detail call with a
    cookie goes to the remote service, whatever was cached. *)
Theorem clearCache_forces_refresh
    (rt : Runtime) (self : t) (now : Z) (projectId : string)
    (overrideCookie : option string) (forceRefresh : option bool) :
  JS.truthy (getEffectiveCookie self overrideCookie) = true ->
  wire (getProjectDetail rt (clearCache self) now projectId overrideCookie forceRefresh)
    = [detailRequest self now projectId overrideCookie] /\
  getLoginStatus (clearCache self) = getLoginStatus self /\
  getCookie (clearCache self) = getCookie self /\
  forall key, projectDetailCache (clearCache self) !! key = None.
Proof.
  intros Hc. split; [|repeat split].
  rewrite getProjectDetail_wire.
  change (getEffectiveCookie (clearCache self) overrideCookie)
    with (getEffectiveCookie self overrideCookie).
  rewrite Hc, cachedDetail_spec. reflexivity.
Qed.

Lemma clearCache_forces_refresh_witness :
  wire (getProjectDetail Sample.serving (clearCache Sample.warmed) 1000 "42" None None)
    = [detailRequest Sample.warmed 1000 "42" None].
Proof.
  apply (clearCache_forces_refresh Sample.serving Sample.warmed 1000 "42" None None).
  reflexivity.
Defined.

End ServiceGuards.

Section ServiceResults.

Import IconfontService.

(** X7. A fulfilled page of icons always reports the page and the page size
    that were asked for (defaults 1 and 54; 100 for [getProjectIcons]; always
    54 for [searchProjectIcons]), never what the remote service says. Its
    icons are those of a payload the service answered, in order, or none
    with a total of 0 when the answer carries no data. *)
Theorem search_results_echo_request
    (rt : Runtime) (self : t) (now : Z) (query projectId keyword : string)
    (iconType overrideCookie : option string) (pg pgSize : option Z)
    (res : IconfontSearchResult) :
  let answered (r : IconfontSearchResult) :=
    (total r = 0 /\ icons r = []) \/
    exists req d, axios rt req = Resolves (Some (Some d)) /\
                  total r = JS.orNum (d_total d) /\
                  icons r = map mapIcon (default [] (d_icons d)) in
  (outcome (searchIcons rt self now query iconType pg pgSize) = Fulfilled res ->
   page res = default 1 pg /\
   page_size res = default 54 pgSize /\ answered res) /\
  (outcome (getProjectIcons rt self projectId pg pgSize) = Fulfilled res ->
   page res = default 1 pg /\
   page_size res = default 100 pgSize /\ answered res) /\
  (outcome (searchProjectIcons rt self now projectId keyword overrideCookie pg)
     = Fulfilled res ->
   page res = default 1 pg /\
   page_size res = 54 /\ answered res).
Proof.
  cbv zeta. unfold searchIcons, getProjectIcons, searchProjectIcons.
  split; [|split].
  all: repeat match goal with
         | |- context [if negb ?b then _ else _] => destruct b; cbn [negb]
         end.
  all: try (cbn [outcome]; discriminate).
  all: match goal with
       | |- context [match axios ?r ?q with _ => _ end] =>
           destruct (axios r q) as [[[d|]|]|e] eqn:Hax
       end.
  all: repeat match goal with
         | |- context [if isAuthStatus ?e then _ else _] => destruct (isAuthStatus e)
         | |- context [if isAborted ?e then _ else _] => destruct (isAborted e)
         end.
  all: cbn [outcome]; intros E; try discriminate; injection E as <-.
  all: cbn [page page_size total icons]; repeat split; auto.
  all: right; eexists; exists d; split; [exact Hax|]; split; reflexivity.
Qed.

(** X8. The [svg] of an icon read from the remote JSON falls back to its
    [show_svg]: it is empty only when both are missing or empty, so an icon
    with a preview always has SVG data. The identifier is taken from [id]
    and, failing that, from [icon_id]; missing texts become empty strings
    and missing tags the empty list. *)
Theorem mapIcon_fallbacks (icon : RawIcon) :
  (svg (mapIcon icon) = "" <->
   JS.orStr (r_svg icon) "" = "" /\ JS.orStr (r_show_svg icon) "" = "") /\
  (show_svg (mapIcon icon) ≠ "" -> svg (mapIcon icon) ≠ "") /\
  (forall s, r_svg icon = Some s -> s ≠ "" -> svg (mapIcon icon) = s) /\
  (forall s, r_id icon = Some (IdStr s) -> s ≠ "" -> icon_id (mapIcon icon) = s) /\
  (r_id icon = None ->
   icon_id (mapIcon icon) = JS.orStr (option_map idToString (r_icon_id icon)) "") /\
  (r_tags icon = None -> tags (mapIcon icon) = []).
Proof.
  destruct icon as [rid ricon rname rshow rsvg rfont runi rtags].
  cbn [mapIcon svg show_svg icon_id tags r_svg r_show_svg r_id r_icon_id r_tags].
  split; [|split; [|split; [|split; [|split]]]].
  - destruct rsvg as [[|a s]|]; destruct rshow as [[|b t]|]; cbn;
      split; try tauto; try discriminate; intros [? ?]; discriminate.
  - destruct rsvg as [[|a s]|]; destruct rshow as [[|b t]|]; cbn; congruence.
  - intros s -> Hs. destruct s; [contradiction | reflexivity].
  - intros s -> Hs. destruct s; [contradiction | reflexivity].
  - intros ->. cbn. destruct ricon as [i|]; cbn; [|reflexivity].
    destruct (idToString i); reflexivity.
  - intros ->. reflexivity.
Qed.

Lemma isAuthStatus_iff (e : Thrown) :
  isAuthStatus e = true <->
  exists status code m, e = AxiosError (Some status) code m /\
                        (status = 401 \/ status = 403).
Proof.
  split.
  - destruct e as [[s|] code m| |]; simpl; try discriminate.
    intros H. exists s, code, m. split; [reflexivity|].
    apply orb_prop in H as [H|H]; apply Z.eqb_eq in H; auto.
  - intros (s & code & m & -> & [->| ->]); reflexivity.
Qed.

(** X9. In [listProjects], [getProjectDetail] and [searchProjectIcons], once
    the request is sent the promise is rejected with the authentication-failed
    error exactly when axios throws an [AxiosError] whose response status is
    401 or 403; no other failure, whatever its message, is reported as an
    authentication failure. *)
Theorem authentication_failed_iff_status
    (rt : Runtime) (self : t) (now : Z) (projectId keyword : string)
    (overrideCookie : option string) (forceRefresh : option bool) (pg : option Z) :
  let unauthorized (req : Request) :=
    exists status code m, axios rt req = Throws (AxiosError (Some status) code m) /\
                          (status = 401 \/ status = 403) in
  let list := listProjects rt self now overrideCookie in
  let detail := getProjectDetail rt self now projectId overrideCookie forceRefresh in
  let search := searchProjectIcons rt self now projectId keyword overrideCookie pg in
  (wire list ≠ [] ->
   (outcome list = Rejected AUTHENTICATION_FAILED <->
    unauthorized (projectsRequest self now overrideCookie))) /\
  (wire detail ≠ [] ->
   (outcome detail = Rejected AUTHENTICATION_FAILED <->
    unauthorized (detailRequest self now projectId overrideCookie))) /\
  (wire search ≠ [] ->
   (outcome search = Rejected AUTHENTICATION_FAILED <->
    unauthorized
      (projectSearchRequest rt self now projectId keyword overrideCookie
         (default 1 pg)))).
Proof.
  assert (Hthrown : forall e,
             isAuthStatus e = true <->
             exists status code m,
               Throws e = Throws (AxiosError (Some status) code m) /\
               (status = 401 \/ status = 403)).
  { intros e. rewrite isAuthStatus_iff. split.
    - intros (s & c & m & -> & Hs). eauto 6.
    - intros (s & c & m & E & Hs). injection E as ->. eauto 6. }
  cbv zeta. unfold listProjects, getProjectDetail, searchProjectIcons.
  split; [|split].
  all: destruct (negb _); [intros H; destruct (H eq_refl)|].
  2: destruct (cachedDetail _ _ _ _); [intros H; destruct (H eq_refl)|].
  all: intros _; cbv zeta; axios_cases; try destruct (d_project _); cbn [outcome].
  all: try (split; [intros E; try discriminate; injection E as E; discriminate
                   | intros (s & c & m & E & _); discriminate]).
  all: rewrite <- Hthrown; destruct (isAuthStatus e); cbn [outcome].
  all: split; try reflexivity; try discriminate.
  all: intros E; injection E as E; discriminate.
Qed.

End ServiceResults.

(** * Further properties of the login service *)

Section PollLoopWindow.

Import IconfontLoginService.

Variables (round : Z -> Polled) (latency : Z -> N) (startTime timeout : Z).

(** A value leaves the loop from a round started inside the window, and the
    loop ends when that round does. *)
Lemma pollLoop_Got_window (w : World) (v : string) :
  fst (pollLoop round latency startTime timeout w) = Got v ->
  exists now,
    clock w <= now /\ now - startTime < timeout /\ round now = Found v /\
    clock (snd (pollLoop round latency startTime timeout w))
    = now + Z.of_N (latency now).
Proof.
  funelim (pollLoop round latency startTime timeout w); simpl; intros E;
    try discriminate.
  - injection E as <-. exists (clock w). repeat split; auto; lia.
  - destruct (H _ E) as (now & Hle & Hlt & Hfound & Hclock).
    exists now. simpl in Hle. unfold LOGIN_CHECK_INTERVAL in Hle.
    repeat split; auto; lia.
Qed.

(** Once the timeout has elapsed no round is started. *)
Lemma pollLoop_expired (w : World) :
  timeout <= clock w - startTime ->
  pollLoop round latency startTime timeout w = (TimedOut, w).
Proof.
  intros Hexp. funelim (pollLoop round latency startTime timeout w);
    try reflexivity; lia.
Qed.

(** With time left, a round that finds a value ends the loop at once. *)
Lemma pollLoop_first_round (w : World) (v : string) :
  clock w - startTime < timeout ->
  round (clock w) = Found v ->
  pollLoop round latency startTime timeout w
  = (Got v, elapse (Z.of_N (latency (clock w))) w).
Proof.
  intros Hlt Hfound. funelim (pollLoop round latency startTime timeout w);
    try reflexivity; try lia; congruence.
Qed.

(** With time left, a round that throws ends the loop at once. *)
Lemma pollLoop_first_break (w : World) (m : string) :
  clock w - startTime < timeout ->
  round (clock w) = Broke m ->
  pollLoop round latency startTime timeout w
  = (Failed m, elapse (Z.of_N (latency (clock w))) w).
Proof.
  intros Hlt Hbroke. funelim (pollLoop round latency startTime timeout w);
    try reflexivity; try lia; congruence.
Qed.

End PollLoopWindow.

Section LoginService.

Import IconfontLoginService.

(** X10. [close] calls [browser.close()] only on a browser it holds, once,
    and takes the time of that call; with no browser nothing happens and no
    time passes. When the call resolves both handles are dropped,
    [isRunning] answers false and a further [close] changes nothing. When
    the call rejects, [close] rejects with the same error, both handles stay,
    [isRunning] still answers true and a further [close] calls
    [browser.close()] on the same browser again. *)
Theorem close_releases_once (h : Host) (self : t) (w : World) :
  let r := close h self w in
  (browser self = None ->
     r = {| outcome := Fulfilled tt; after := self; world := w |} /\
     isRunning (after r) = false) /\
  (forall b, browser self = Some b ->
     closed (world r) = (closed w ++ [b])%list /\
     clock (world r) = clock w + Z.of_N (closeLatency h) /\
     match browserClose h (clock w) with
     | Fulfilled _ =>
         outcome r = Fulfilled tt /\ after r = new /\
         isRunning (after r) = false /\
         close h (after r) (world r)
         = {| outcome := Fulfilled tt; after := new; world := world r |}
     | Rejected m =>
         outcome r = Rejected m /\ after r = self /\
         isRunning (after r) = true /\
         closed (world (close h (after r) (world r))) = (closed w ++ [b; b])%list
     end).
Proof.
  cbv zeta. split.
  - intros Hb. unfold close, isRunning. rewrite Hb. cbn [after]. rewrite Hb. auto.
  - intros b Hb.
    destruct (browserClose h (clock w)) as [[]|m] eqn:Hclose.
    + assert (E : close h self w =
                  {| outcome := Fulfilled tt; after := new;
                     world := {| clock := clock w + Z.of_N (closeLatency h);
                                 closed := (closed w ++ [b])%list |} |})
        by (unfold close; rewrite Hb, Hclose; reflexivity).
      rewrite E. repeat split.
    + assert (E : close h self w =
                  {| outcome := Rejected m; after := self;
                     world := {| clock := clock w + Z.of_N (closeLatency h);
                                 closed := (closed w ++ [b])%list |} |})
        by (unfold close; rewrite Hb, Hclose; reflexivity).
      rewrite E. cbn [outcome after world clock closed]. repeat split.
      * unfold isRunning. rewrite Hb. reflexivity.
      * rewrite close_closed, Hb. cbn [closed]. rewrite <- app_assoc. reflexivity.
Qed.

(** X11. [startLogin] on a new service fulfils exactly when the browser
    was launched, its page created and the site loaded, or else the system
    browser could be opened; its only rejection is the failed-to-open error.
    Whatever the outcome, a launched browser stays in [this.browser] and a
    created page in [this.page], even when loading the site failed, and
    nothing is closed. *)
Theorem startLogin_outcomes (h : Host) (w : World) :
  let r := startLogin h new w in
  (outcome r = Fulfilled tt <->
   (launch h ≠ None /\ newPage h ≠ None /\ goto h = true) \/ execOpen h = true) /\
  (forall m, outcome r = Rejected m ->
     m = "Failed to open browser. Please open https://www.iconfont.cn/ manually and log in.") /\
  browser (after r) = launch h /\
  page (after r) = (match launch h with Some _ => newPage h | None => None end) /\
  world r = w.
Proof.
  cbv zeta. unfold startLogin, openBrowserWithSystem.
  destruct (launch h) as [b|]; [destruct (newPage h) as [p|]|];
    try destruct (goto h); destruct (execOpen h); cbn [outcome after world browser page new].
  all: repeat split; try discriminate; try congruence; auto.
  all: try (intros [(? & ? & ?)|?]; congruence).
  all: try (intros m E; injection E as <-; reflexivity).
  all: try (left; repeat split; congruence).
Qed.

(** X12. A cookie returned by [waitForLogin] was seen by a round that
    started before the timeout had elapsed since polling began: in the jar
    with a non-empty value on the scriptable path, in a probe's set-cookie
    header on the fallback path, whose polling begins 5000 ms after entry.
    The promise settles when that round ends, and after the browser is
    closed on the scriptable path; the deadline is not looked at again. *)
Theorem waitForLogin_cookie_from_window
    (h : Host) (timeout : option Z) (self : t) (w : World) (v : string) :
  let r := waitForLogin h timeout self w in
  let T := default 120000 timeout in
  outcome r = Fulfilled (Some v) ->
  match page self with
  | Some _ =>
      exists now,
        clock w <= now /\ now - clock w < T /\ jarRound h now = Found v /\
        v ≠ "" /\
        clock (world r) =
          now + Z.of_N (pageCookiesLatency h now)
          + (if isRunning self then Z.of_N (closeLatency h) else 0) /\
        isRunning (after r) = false
  | None =>
      exists now,
        clock w + 5000 <= now /\ now - (clock w + 5000) < T /\
        probeRound h now = Found v /\
        clock (world r) = now + Z.of_N (probeLatency h now) /\
        after r = self
  end.
Proof.
  cbv zeta. intros Hout. destruct (page self) as [p|] eqn:Hp.
  - pose proof (waitForLogin_scriptable h timeout self w p Hp) as Hr.
    cbv zeta in Hr.
    destruct (fst (pollLoop _ _ _ _ _)) as [v'| |m] eqn:Hloop.
    2,3: destruct Hr as [E _]; rewrite E in Hout; revert Hout;
      try destruct (outcome (close _ _ _)); discriminate.
    destruct Hr as (E & Ha & Hw). rewrite E in Hout.
    revert Hout.
    destruct (outcome (close h self _)) as [[]|m] eqn:Hclose; [|discriminate].
    intros Hout. injection Hout as ->.
    apply pollLoop_Got_window in Hloop as (now & Hle & Hlt & Hfound & Hclock).
    exists now. repeat split; auto.
    + apply jarRound_Found in Hfound. intros ->. discriminate.
    + rewrite Hw. unfold close, isRunning.
      destruct (browser self); [destruct (browserClose h _)|];
        cbn [world clock]; lia.
    + rewrite Ha. apply isRunning_close. exact Hclose.
  - pose proof (waitForLogin_fallback h timeout self w Hp) as (Ha & Hw & Ho).
    rewrite Ho in Hout.
    destruct (fst (pollLoop _ _ _ _ _)) as [v'| |m] eqn:Hloop; try discriminate.
    injection Hout as ->.
    apply pollLoop_Got_window in Hloop as (now & Hle & Hlt & Hfound & Hclock).
    exists now. simpl in Hle. repeat split; auto. rewrite Hw. exact Hclock.
Qed.

Lemma waitForLogin_cookie_from_window_witness :
  exists now,
    0 <= now /\ now - 0 < 120000 /\ jarRound Fixture.lateJar now = Found "abc" /\
    "abc" ≠ "" /\
    clock (world (waitForLogin Fixture.lateJar None Sample.driving Sample.dawn)) =
      now + 40 + 200 /\
    isRunning (after (waitForLogin Fixture.lateJar None Sample.driving Sample.dawn))
    = false.
Proof.
  apply (waitForLogin_cookie_from_window Fixture.lateJar None Sample.driving
           Sample.dawn "abc").
  vm_compute. reflexivity.
Defined.

(** X13. With a timeout that is zero or negative no round is ever started,
    even when the session cookie is already there. On the fallback path
    [waitForLogin] is rejected with the timeout error after the 5000 ms
    grace period. On the scriptable path it calls [close] at once and is
    rejected when [close] has settled: with the timeout error when no
    browser is held or [browser.close()] resolves, with the error of
    [browser.close()] when that call rejects. *)
Theorem waitForLogin_expired (h : Host) (T : Z) (self : t) (w : World) :
  T <= 0 ->
  let r := waitForLogin h (Some T) self w in
  match page self with
  | Some _ =>
      after r = after (close h self w) /\ world r = world (close h self w) /\
      match browser self, browserClose h (clock w) with
      | Some _, Rejected m => outcome r = Rejected m /\ after r = self
      | _, _ => outcome r = Rejected "Login timeout. Please try again."
      end
  | None =>
      outcome r = Rejected "Login timeout. Please try again." /\
      after r = self /\ world r = elapse 5000 w
  end.
Proof.
  intros HT. cbv zeta. destruct (page self) as [p|] eqn:Hp.
  - pose proof (waitForLogin_scriptable h (Some T) self w p Hp) as Hr.
    cbv zeta in Hr. change (default 120000 (Some T)) with T in Hr.
    rewrite (pollLoop_expired (jarRound h) (pageCookiesLatency h) (clock w) T w)
      in Hr by lia.
    cbn [fst snd] in Hr. destruct Hr as (Ho & Ha & Hw).
    split; [exact Ha|]. split; [exact Hw|].
    rewrite Ho, Ha. unfold close.
    destruct (browser self) as [b|]; [destruct (browserClose h (clock w))|];
      cbn [outcome after]; auto.
  - pose proof (waitForLogin_fallback h (Some T) self w Hp) as (Ha & Hw & Ho).
    change (default 120000 (Some T)) with T in Hw, Ho.
    rewrite (pollLoop_expired (probeRound h) (probeLatency h) (clock w + 5000) T
               (elapse 5000 w)) in Hw, Ho by (simpl; lia).
    cbn [fst snd] in Hw, Ho. auto.
Qed.

Lemma waitForLogin_expired_witness :
  let w := {| clock := 9000; closed := [] |} in
  let r := waitForLogin Fixture.lateJar (Some 0) Sample.driving w in
  after r = after (close Fixture.lateJar Sample.driving w) /\
  world r = world (close Fixture.lateJar Sample.driving w) /\
  outcome r = Rejected "Login timeout. Please try again.".
Proof.
  apply (waitForLogin_expired Fixture.lateJar 0 Sample.driving
           {| clock := 9000; closed := [] |}).
  lia.
Defined.

(** X14. [waitForLogin] never gives up early. On the fallback path every
    rejection is the timeout error and comes no sooner than the timeout
    after polling began, that is 5000 ms plus the timeout after entry. On
    the scriptable path a rejection is the timeout error, no sooner than
    the timeout after entry, unless it is the error of a [page.cookies()]
    call or of a [browser.close()] call that rejected. *)
Theorem waitForLogin_never_early
    (h : Host) (timeout : option Z) (self : t) (w : World) (m : string) :
  let r := waitForLogin h timeout self w in
  let T := default 120000 timeout in
  outcome r = Rejected m ->
  match page self with
  | Some _ =>
      (m = "Login timeout. Please try again." /\ T <= clock (world r) - clock w) \/
      (exists now, pageCookies h now = Rejected m) \/
      (exists now, browserClose h now = Rejected m)
  | None =>
      m = "Login timeout. Please try again." /\
      5000 + T <= clock (world r) - clock w
  end.
Proof.
  cbv zeta. intros Hout. destruct (page self) as [p|] eqn:Hp.
  - pose proof (waitForLogin_scriptable h timeout self w p Hp) as Hr.
    cbv zeta in Hr.
    pose proof (pollLoop_TimedOut (jarRound h) (pageCookiesLatency h) (clock w)
                  (default 120000 timeout) w) as Hlate.
    destruct (fst (pollLoop _ _ _ _ _)) as [v'| |m'] eqn:Hloop.
    + destruct Hr as (E & _ & _). rewrite E in Hout. revert Hout.
      destruct (outcome (close h self _)) as [u|m'] eqn:Hclose; [discriminate|].
      intros Hout. injection Hout as <-. apply close_rejected in Hclose as (_ & _ & Hclose).
      right. right. eauto.
    + destruct Hr as (E & _ & Hw). rewrite E in Hout. revert Hout.
      destruct (outcome (close h self _)) as [u|m'] eqn:Hclose; intros Hout.
      * injection Hout as <-. left. split; [reflexivity|].
        specialize (Hlate eq_refl). rewrite Hw.
        pose proof (N2Z.is_nonneg (closeLatency h)).
        unfold close. destruct (browser self); [destruct (browserClose h _)|];
          cbn [world clock]; lia.
      * injection Hout as <-. apply close_rejected in Hclose as (_ & _ & Hclose).
        right. right. eauto.
    + destruct Hr as (E & _ & _). rewrite E in Hout. injection Hout as <-.
      apply pollLoop_Failed in Hloop as [now Hbroke].
      apply jarRound_Broke in Hbroke. right. left. eauto.
  - pose proof (waitForLogin_fallback_rejection h timeout self w m Hp Hout) as ->.
    split; [reflexivity|].
    pose proof (waitForLogin_fallback h timeout self w Hp) as (_ & Hw & Ho).
    pose proof (pollLoop_TimedOut (probeRound h) (probeLatency h) (clock w + 5000)
                  (default 120000 timeout) (elapse 5000 w)) as Hlate.
    rewrite Ho in Hout.
    destruct (fst (pollLoop _ _ _ _ _)) as [v'| |m'] eqn:Hloop.
    + discriminate.
    + specialize (Hlate eq_refl). rewrite Hw. lia.
    + apply pollLoop_Failed in Hloop as [now Hbroke].
      destruct (probeRound_never_breaks _ _ _ Hbroke).
Qed.

Lemma waitForLogin_never_early_witness :
  "Login timeout. Please try again." = "Login timeout. Please try again." /\
  5000 + 120000 <=
    clock (world (waitForLogin Sample.quiet None new Sample.dawn)) - clock Sample.dawn.
Proof.
  apply (waitForLogin_never_early Sample.quiet None new Sample.dawn
           "Login timeout. Please try again.").
  vm_compute. reflexivity.
Defined.

(** X27. The scriptable loop does not catch a rejected [page.cookies()]:
    with time left, a rejection of the first read ends [waitForLogin] when
    that read settles, with the error of the read and not the timeout
    error; [close] is not called and the browser stays in [this.browser]. *)
Theorem jar_read_rejection_not_caught
    (h : Host) (timeout : option Z) (self : t) (w : World) (p : Page) (m : string) :
  page self = Some p ->
  0 < default 120000 timeout ->
  pageCookies h (clock w) = Rejected m ->
  let r := waitForLogin h timeout self w in
  outcome r = Rejected m /\ after r = self /\
  world r = elapse (Z.of_N (pageCookiesLatency h (clock w))) w.
Proof.
  intros Hp HT Hread. cbv zeta.
  pose proof (waitForLogin_scriptable h timeout self w p Hp) as Hr. cbv zeta in Hr.
  rewrite (pollLoop_first_break (jarRound h) (pageCookiesLatency h) (clock w)
             (default 120000 timeout) w m) in Hr.
  - exact Hr.
  - lia.
  - apply jarRound_Broke. exact Hread.
Qed.

(** X27 at a sample: the user has closed the window of the scripted
    browser; the wait ends after the first read, 40 ms after entry, and
    nothing is closed. *)
Lemma jar_read_rejection_not_caught_witness :
  let r := waitForLogin Fixture.closedWindow None Sample.driving Sample.dawn in
  outcome r = Rejected "Target closed" /\ after r = Sample.driving /\
  world r = {| clock := 40; closed := [] |}.
Proof.
  apply (jar_read_rejection_not_caught Fixture.closedWindow None Sample.driving
           Sample.dawn 1%nat "Target closed").
  - reflexivity.
  - simpl. lia.
  - reflexivity.
Defined.

End LoginService.

Section AutoLoginHandler.

Import IconfontLoginService.

(** X15. What the [iconfont_auto_login] handler does with the browser,
    where [browser.close()] never rejects. When no browser could be launched
    nothing is closed and nothing runs. A launched browser is closed exactly
    once, and nothing runs afterwards, whenever its page was created or the
    handler ends in its [catch] clause. When the page could not be created
    and the handler does not end in [catch], the launched browser is never
    closed and still runs. *)
Theorem auto_login_release (h : Host) (service : IconfontService.t) (w : World) :
  (forall now, browserClose h now = Fulfilled tt) ->
  let r := Tools.iconfont_auto_login h service w in
  (launch h = None ->
   closed (Tools.world' r) = closed w /\ isRunning (Tools.loginService' r) = false) /\
  (forall b, launch h = Some b ->
     newPage h ≠ None \/ (exists m, Tools.reply r = Tools.ErrorReply m) ->
     closed (Tools.world' r) = (closed w ++ [b])%list /\
     isRunning (Tools.loginService' r) = false) /\
  (forall b, launch h = Some b -> newPage h = None ->
     (forall m, Tools.reply r ≠ Tools.ErrorReply m) ->
     closed (Tools.world' r) = closed w /\
     browser (Tools.loginService' r) = Some b).
Proof.
  intros Hclose. cbv zeta.
  assert (Hfallback : page (after (startLogin h new w)) = None ->
            let r := Tools.iconfont_auto_login h service w in
            (exists m, Tools.reply r = Tools.ErrorReply m) \/
            (closed (Tools.world' r) = closed w /\
             browser (Tools.loginService' r) = launch h)).
  { intros Hpage. cbv zeta. unfold Tools.iconfont_auto_login.
    pose proof (startLogin_state h w) as (Hw & Hb & _). cbv zeta in Hw, Hb.
    destruct (startLogin h new w) as [o self w0]. cbn [outcome after world] in *.
    subst w0. destruct o as [[]|m0].
    2: { left. rewrite close_resolves by exact Hclose. cbn. eauto. }
    pose proof (waitForLogin_fallback h (Some 120000) self w Hpage) as (Ha & Hwd & Ho).
    pose proof (pollLoop_closed (probeRound h) (probeLatency h) (clock w + 5000)
                  (default 120000 (Some 120000)) (elapse 5000 w)) as Hc.
    rewrite Ho, Ha, Hwd.
    destruct (pollLoop _ _ _ _ _) as [e w']. cbn [fst snd] in *.
    destruct e as [v| |m'].
    - right. destruct (JS.truthy v); cbn; auto.
    - left. rewrite close_resolves by exact Hclose. cbn. eauto.
    - left. rewrite close_resolves by exact Hclose. cbn. eauto. }
  split; [|split].
  - intros Hl.
    pose proof (startLogin_state h w) as (_ & _ & Hp). cbv zeta in Hp.
    assert (Hpage : page (after (startLogin h new w)) = None).
    { destruct (page (after (startLogin h new w))) eqn:E; [|reflexivity].
      destruct Hp as [_ Hp]; [discriminate | contradiction]. }
    destruct (Hfallback Hpage) as [[m Hm]|[Hc Hb]].
    + pose proof (failed_login_releases_browser h service w m Hclose Hm) as [Hr Hc].
      rewrite Hl, app_nil_r in Hc. auto.
    + split; [exact Hc|]. unfold isRunning. rewrite Hb, Hl. reflexivity.
  - intros b Hl [Hp|[m Hm]].
    + destruct (newPage h) as [p|] eqn:Hn; [|contradiction].
      exact (scriptable_login_closes_once h service w b p Hclose Hl Hn).
    + pose proof (failed_login_releases_browser h service w m Hclose Hm) as [Hr Hc].
      rewrite Hl in Hc. auto.
  - intros b Hl Hn Hok.
    pose proof (startLogin_state h w) as (_ & _ & Hp). cbv zeta in Hp.
    assert (Hpage : page (after (startLogin h new w)) = None).
    { destruct (page (after (startLogin h new w))) eqn:E; [|reflexivity].
      destruct Hp as [Hp _]; [discriminate | congruence]. }
    destruct (Hfallback Hpage) as [[m Hm]|[Hc Hb]].
    + destruct (Hok m Hm).
    + rewrite Hb, Hl. auto.
Qed.

(** X15 at a sample: a scripted browser whose jar shows the cookie from
    6000 ms on is closed once by the handler. *)
Lemma auto_login_release_witness :
  let r := Tools.iconfont_auto_login Fixture.lateJar Sample.anonymous Sample.dawn in
  closed (Tools.world' r) = [7%nat] /\ isRunning (Tools.loginService' r) = false.
Proof.
  assert (Hclose : forall now, browserClose Fixture.lateJar now = Fulfilled tt)
    by reflexivity.
  destruct (auto_login_release Fixture.lateJar Sample.anonymous Sample.dawn Hclose)
    as (_ & Hlaunched & _).
  apply (Hlaunched 7%nat); [reflexivity | left; discriminate].
Defined.

(** X16. The [iconfont_auto_login] handler changes the service only when
    it reports a successful login. Then the cookie stored is the non-empty
    string [waitForLogin] returned, the status reported is logged in with a
    cookie, and the detail cache is kept. In every other case the service is
    exactly as before. *)
Theorem auto_login_session (h : Host) (service : IconfontService.t) (w : World) :
  let r := Tools.iconfont_auto_login h service w in
  let started := startLogin h new w in
  let waited := waitForLogin h (Some 120000) (after started) (world started) in
  match Tools.reply r with
  | Tools.LoggedIn status =>
      status = {| IconfontService.st_loggedIn := true;
                  IconfontService.st_hasCookie := true |} /\
      IconfontService.cookie (Tools.service' r) ≠ "" /\
      outcome started = Fulfilled tt /\
      outcome waited = Fulfilled (Some (IconfontService.cookie (Tools.service' r))) /\
      IconfontService.projectDetailCache (Tools.service' r)
      = IconfontService.projectDetailCache service
  | _ => Tools.service' r = service
  end.
Proof.
  cbv zeta. unfold Tools.iconfont_auto_login.
  destruct (outcome (startLogin h new w)) as [[]|m0].
  2: { cbn. destruct (outcome (close h _ _)); reflexivity. }
  destruct (outcome (waitForLogin h (Some 120000) _ _)) as [[c|]|m].
  - destruct c as [|a c]; cbn; [reflexivity|].
    repeat split. discriminate.
  - reflexivity.
  - cbn. destruct (outcome (close h _ _)); reflexivity.
Qed.

(** Where [browser.close()] always rejects, [close] on a held browser
    rejects and keeps the handles. *)
Lemma close_rejects (h : Host) (self : t) (w : World) (b : Browser) (m : string) :
  (forall now, browserClose h now = Rejected m) ->
  browser self = Some b ->
  close h self w =
    {| outcome := Rejected m; after := self;
       world := {| clock := clock w + Z.of_N (closeLatency h);
                   closed := (closed w ++ [b])%list |} |}.
Proof. intros Hclose Hb. unfold close. rewrite Hb, Hclose. reflexivity. Qed.

(** X28. With a scripted browser whose [close()] rejects, the
    [iconfont_auto_login] handler never answers: its promise is rejected
    with the error of [browser.close()], thrown inside its [catch] clause,
    whatever happened before, a login whose cookie was read included. The
    service is left as it was, the browser stays in [this.browser], and
    [browser.close()] was called once or twice. *)
Theorem auto_login_close_rejected
    (h : Host) (service : IconfontService.t) (w : World) (b : Browser) (p : Page)
    (m : string) :
  launch h = Some b -> newPage h = Some p ->
  (forall now, browserClose h now = Rejected m) ->
  let r := Tools.iconfont_auto_login h service w in
  Tools.reply r = Tools.HandlerRejects m /\
  Tools.service' r = service /\
  Tools.loginService' r = {| browser := Some b; page := Some p |} /\
  (closed (Tools.world' r) = (closed w ++ [b])%list \/
   closed (Tools.world' r) = (closed w ++ [b; b])%list).
Proof.
  intros Hb Hp Hclose. cbv zeta. unfold Tools.iconfont_auto_login.
  assert (Hs : exists o, startLogin h new w =
                 {| outcome := o; after := {| browser := Some b; page := Some p |};
                    world := w |}).
  { unfold startLogin, openBrowserWithSystem. rewrite Hb, Hp.
    destruct (goto h); [|destruct (execOpen h)]; eauto. }
  destruct Hs as [o ->]. cbn [outcome after world].
  set (self := {| browser := Some b; page := Some p |}).
  assert (Hcatch : forall w0, close h self w0 =
            {| outcome := Rejected m; after := self;
               world := {| clock := clock w0 + Z.of_N (closeLatency h);
                           closed := (closed w0 ++ [b])%list |} |})
    by (intros w0; exact (close_rejects h self w0 b m Hclose eq_refl)).
  destruct o as [[]|m0]; [|rewrite Hcatch; simpl; auto].
  pose proof (waitForLogin_scriptable h (Some 120000) self w p eq_refl) as Hr.
  cbv zeta in Hr.
  pose proof (pollLoop_closed (jarRound h) (pageCookiesLatency h) (clock w)
                (default 120000 (Some 120000)) w) as Hc.
  destruct (pollLoop _ _ _ _ _) as [e w'] eqn:Hloop. cbn [fst snd] in Hr, Hc.
  rewrite Hcatch in Hr. cbn [outcome after world] in Hr.
  destruct e as [v| |m']; destruct Hr as (Ho & Ha & Hw); rewrite Ho, Ha, Hw, Hcatch;
    cbn [Tools.reply Tools.service' Tools.loginService' Tools.world' outcome after
         world closed]; rewrite Hc.
  - repeat split. right. rewrite <- app_assoc. reflexivity.
  - repeat split. right. rewrite <- app_assoc. reflexivity.
  - repeat split. left. reflexivity.
Qed.

(** X28 at a sample: the jar shows the cookie from 6000 ms on, yet the
    handler is rejected and the cookie is not stored. *)
Lemma auto_login_close_rejected_witness :
  let r := Tools.iconfont_auto_login Fixture.stuckBrowser Sample.anonymous
             Sample.dawn in
  Tools.reply r = Tools.HandlerRejects "Connection closed" /\
  Tools.service' r = Sample.anonymous /\
  Tools.loginService' r = Sample.driving /\
  (closed (Tools.world' r) = ([] ++ [7%nat])%list \/
   closed (Tools.world' r) = ([] ++ [7%nat; 7%nat])%list).
Proof.
  apply (auto_login_close_rejected Fixture.stuckBrowser Sample.anonymous Sample.dawn
           7%nat 1%nat "Connection closed"); reflexivity.
Defined.

(** The same run, computed: [browser.close()] is called twice, once by
    [waitForLogin] and once by the [catch] clause. *)
Example scenario_stuck_browser :
  let r := Tools.iconfont_auto_login Fixture.stuckBrowser Sample.anonymous
             Sample.dawn in
  outcome (waitForLogin Fixture.stuckBrowser (Some 120000) Sample.driving Sample.dawn)
  = Rejected "Connection closed" /\
  Tools.reply r = Tools.HandlerRejects "Connection closed" /\
  closed (Tools.world' r) = [7%nat; 7%nat] /\
  isRunning (Tools.loginService' r) = true.
Proof. repeat split; vm_compute; reflexivity. Qed.

(** A closed window: the handler answers with the error of the read and
    closes the browser itself. *)
Example scenario_closed_window :
  let r := Tools.iconfont_auto_login Fixture.closedWindow Sample.anonymous
             Sample.dawn in
  Tools.reply r = Tools.ErrorReply "Error: Target closed" /\
  closed (Tools.world' r) = [7%nat] /\
  isRunning (Tools.loginService' r) = false.
Proof. repeat split; vm_compute; reflexivity. Qed.

End AutoLoginHandler.

Section TokenShape.

Import IconfontLoginService.

Lemma split_pieces_every (P : ascii -> bool) (sep : ascii) (s : string) :
  every P s = true -> Forall (fun piece => every P piece = true) (JS.split sep s).
Proof.
  induction s as [|c s IH]; simpl; intros H.
  - constructor; [reflexivity | constructor].
  - apply andb_prop in H as [Hc Hs]. specialize (IH Hs).
    destruct (Ascii.eqb c sep).
    + constructor; [reflexivity | exact IH].
    + destruct (JS.split sep s) as [|p ps].
      * constructor; [simpl; rewrite Hc; reflexivity | constructor].
      * inversion IH; subst. constructor; [simpl; rewrite Hc; assumption | assumption].
Qed.

Lemma split_pieces_lack (sep : ascii) (s : string) :
  Forall (fun piece => lacks sep piece = true) (JS.split sep s).
Proof.
  induction s as [|c s IH]; simpl.
  - constructor; [reflexivity | constructor].
  - destruct (Ascii.eqb c sep) eqn:Hc.
    + constructor; [reflexivity | exact IH].
    + destruct (JS.split sep s) as [|p ps].
      * constructor; [unfold lacks; simpl; rewrite Hc; reflexivity | constructor].
      * inversion IH; subst.
        constructor; [unfold lacks; simpl; rewrite Hc; assumption | assumption].
Qed.

Lemma every_drop (P : ascii -> bool) (n : nat) (s : string) :
  every P s = true -> every P (JS.drop n s) = true.
Proof.
  revert s. induction n as [|n IH]; intros s H; [exact H|].
  destruct s as [|c s]; [reflexivity|].
  simpl in H. apply andb_prop in H as [_ Hs]. exact (IH s Hs).
Qed.

Lemma every_replace (P : ascii -> bool) (pat rep s : string) :
  every P rep = true -> every P s = true -> every P (JS.replace pat rep s) = true.
Proof.
  intros Hrep. induction s as [|c s IH]; intros Hs; rewrite replace_unfold.
  - destruct (String.prefix pat ""); [|reflexivity].
    rewrite every_append, Hrep. apply every_drop. reflexivity.
  - destruct (String.prefix pat (String c s)).
    + rewrite every_append, Hrep. apply every_drop. exact Hs.
    + simpl in Hs |- *. apply andb_prop in Hs as [Hc Hs].
      rewrite Hc, (IH Hs). reflexivity.
Qed.

Lemma Forall_hd (P : string -> Prop) (l : list string) :
  P EmptyString -> Forall P l -> P (hd EmptyString l).
Proof. intros H0 Hl. destruct Hl; assumption. Qed.

(** X17. A token read from a set-cookie header never contains a [;] or a
    [,], whatever the header is: a cookie value that contains one of them is
    cut at its first occurrence. *)
Theorem extracted_token_lacks_delimiters (cookies : option SetCookie) (v : string) :
  extractSessionCookie cookies = Some v ->
  lacks ";" v = true /\ lacks "," v = true.
Proof.
  assert (Hin : forall s, sessionCookieIn s = Some v ->
                          lacks ";" v = true /\ lacks "," v = true).
  { intros s. unfold sessionCookieIn.
    destruct (find _ (JS.split "," s)) as [piece|] eqn:Hfind; [|discriminate].
    destruct (JS.truthy piece); [|discriminate].
    intros E. injection E as <-.
    apply find_some in Hfind as [Hmem _].
    pose proof (split_pieces_lack "," s) as Hpieces.
    rewrite Forall_forall in Hpieces. apply list_elem_of_In in Hmem.
    specialize (Hpieces piece Hmem).
    split; apply every_replace; try reflexivity.
    - apply (Forall_hd (fun p => lacks ";" p = true)); [reflexivity|].
      apply split_pieces_lack.
    - apply (Forall_hd (fun p => lacks "," p = true)); [reflexivity|].
      apply split_pieces_every. exact Hpieces. }
  destruct cookies as [[l|s]|]; simpl; try discriminate.
  - apply Hin.
  - destruct s; [discriminate | apply Hin].
Qed.

Lemma extracted_token_lacks_delimiters_witness :
  lacks ";" "a" = true /\ lacks "," "a" = true.
Proof.
  apply (extracted_token_lacks_delimiters
           (Some (HeaderString "EGG_SESS_ICONFONT=a,b; Path=/")) "a").
  vm_compute. reflexivity.
Defined.

End TokenShape.

Section ArrayHeader.

Import IconfontLoginService.

Lemma split_app_sep (sep : ascii) (a b : string) :
  JS.split sep (a +:+ String sep b) = (JS.split sep a ++ JS.split sep b)%list.
Proof.
  induction a as [|c a IH].
  - change (EmptyString +:+ String sep b) with (String sep b).
    cbn [JS.split]. rewrite Ascii.eqb_refl. reflexivity.
  - rewrite cons_append. cbn [JS.split]. rewrite IH.
    destruct (Ascii.eqb c sep); [reflexivity|].
    pose proof (split_nonempty sep a).
    destruct (JS.split sep a); [contradiction | reflexivity].
Qed.

Lemma find_append {A : Type} (p : A -> bool) (l1 l2 : list A) :
  find p (l1 ++ l2)%list =
    match find p l1 with
    | Some x => Some x
    | None => find p l2
    end.
Proof.
  induction l1 as [|x l1 IH]; [reflexivity|]. simpl. destruct (p x); [reflexivity | exact IH].
Qed.

Lemma join_cons (sep x y : string) (l : list string) :
  JS.join sep (x :: y :: l) = x +:+ sep +:+ JS.join sep (y :: l).
Proof. reflexivity. Qed.

(** A piece that passes the test is not empty. *)
Lemma matching_piece_truthy (c : string) :
  JS.startsWith (JS.trim c) "EGG_SESS_ICONFONT=" = true -> JS.truthy c = true.
Proof. destruct c; [discriminate | reflexivity]. Qed.

Lemma sessionCookieIn_None (s : string) :
  sessionCookieIn s = None ->
  find (fun c => JS.startsWith (JS.trim c) "EGG_SESS_ICONFONT=") (JS.split "," s) = None.
Proof.
  unfold sessionCookieIn.
  destruct (find _ (JS.split "," s)) as [piece|] eqn:Hfind; [|reflexivity].
  apply find_some in Hfind as [_ Hmatch].
  rewrite (matching_piece_truthy piece Hmatch). discriminate.
Qed.

Lemma sessionCookieIn_skip (x y : string) :
  sessionCookieIn x = None -> sessionCookieIn (x +:+ "," +:+ y) = sessionCookieIn y.
Proof.
  intros Hx. apply sessionCookieIn_None in Hx. unfold sessionCookieIn.
  change (x +:+ "," +:+ y) with (x +:+ String "," y).
  rewrite split_app_sep, find_append, Hx. reflexivity.
Qed.

Lemma sessionCookieIn_first (x y t : string) :
  sessionCookieIn x = Some t -> sessionCookieIn (x +:+ "," +:+ y) = Some t.
Proof.
  unfold sessionCookieIn.
  change (x +:+ "," +:+ y) with (x +:+ String "," y).
  rewrite split_app_sep, find_append.
  destruct (find _ (JS.split "," x)) as [piece|]; [|discriminate]. auto.
Qed.

Lemma sessionCookieIn_join_skip (pre rest : list string) :
  Forall (fun e => sessionCookieIn e = None) pre ->
  rest ≠ [] ->
  sessionCookieIn (JS.join "," (pre ++ rest)) = sessionCookieIn (JS.join "," rest).
Proof.
  intros Hpre Hrest. induction Hpre as [|e pre He Hpre IH]; [reflexivity|].
  cbn [app]. destruct (pre ++ rest)%list as [|y l] eqn:E.
  - destruct pre; [contradiction | discriminate].
  - rewrite join_cons, (sessionCookieIn_skip e _ He). exact IH.
Qed.

(** X18. When the set-cookie header is an array, as axios gives it on Node,
    its elements are searched in order: elements that yield no token are
    skipped, the first element that yields one decides, and what follows it
    is ignored. An array none of whose elements yields a token, the empty
    array included, yields none. *)
Theorem array_header_first_entry_wins (pre : list string) :
  Forall (fun e => sessionCookieIn e = None) pre ->
  extractSessionCookie (Some (HeaderList pre)) = None /\
  forall entry post t,
    sessionCookieIn entry = Some t ->
    extractSessionCookie (Some (HeaderList (pre ++ entry :: post))) = Some t.
Proof.
  intros Hpre. split.
  - cbn [extractSessionCookie]. induction Hpre as [|e pre He Hpre IH]; [reflexivity|].
    destruct pre as [|y l]; [exact He|].
    rewrite join_cons, (sessionCookieIn_skip e _ He). exact IH.
  - intros entry post t Hentry. cbn [extractSessionCookie].
    rewrite (sessionCookieIn_join_skip pre (entry :: post) Hpre) by discriminate.
    destruct post as [|y l]; [exact Hentry|].
    rewrite join_cons. apply sessionCookieIn_first. exact Hentry.
Qed.

Lemma array_header_first_entry_wins_witness :
  extractSessionCookie
    (Some (HeaderList
             (["locale=zh-cn; Path=/; Expires=Wed, 21 Oct 2026 07:28:00 GMT"]
              ++ "EGG_SESS_ICONFONT=abc; Path=/; HttpOnly"
              :: ["EGG_SESS_ICONFONT=later; Path=/"]))) = Some "abc".
Proof.
  apply (array_header_first_entry_wins
           ["locale=zh-cn; Path=/; Expires=Wed, 21 Oct 2026 07:28:00 GMT"]).
  - repeat constructor.
  - vm_compute. reflexivity.
Defined.

End ArrayHeader.

(** * Properties of the tool handlers *)

(** ** Numbers within the safe integers *)

Section SafeIntegers.

(** An integer below [2^53] in absolute value is a double. *)
Lemma toNumber_safe (z : Z) :
  Z.abs z < 2 ^ 53 -> JS.toNumber z = JS.Finite z.
Proof.
  intros Hz. unfold JS.toNumber. cbv zeta.
  destruct (Z.ltb_spec (Z.abs z) (2 ^ 53)) as [_|Hbig]; [reflexivity | lia].
Qed.

(** Such a number is printed with its decimal digits. *)
Lemma numToString_safe (z : Z) :
  Z.abs z < 2 ^ 53 -> JS.numToString z = JS.digits z.
Proof.
  intros Hz. unfold JS.numToString. rewrite toNumber_safe by exact Hz.
  unfold JS.numberToString.
  destruct (Z.ltb_spec (Z.abs z) (2 ^ 53)) as [_|Hbig]; [reflexivity | lia].
Qed.

(** Sums, products and comparisons that stay within the safe integers are
    exact. *)
Lemma add_safe (x y : Z) :
  Z.abs x < 2 ^ 53 -> Z.abs y < 2 ^ 53 -> Z.abs (x + y) < 2 ^ 53 ->
  JS.add (JS.toNumber x) (JS.toNumber y) = JS.Finite (x + y).
Proof.
  intros Hx Hy Hxy. rewrite (toNumber_safe x Hx), (toNumber_safe y Hy).
  exact (toNumber_safe (x + y) Hxy).
Qed.

Lemma mul_safe (x y : Z) :
  Z.abs x < 2 ^ 53 -> Z.abs y < 2 ^ 53 -> Z.abs (x * y) < 2 ^ 53 ->
  JS.mul (JS.toNumber x) (JS.toNumber y) = JS.Finite (x * y).
Proof.
  intros Hx Hy Hxy. rewrite (toNumber_safe x Hx), (toNumber_safe y Hy).
  exact (toNumber_safe (x * y) Hxy).
Qed.

(** Beyond the safe integers a number is printed as the double it is:
    [2^53 + 1] is [2^53], [10^21] takes the exponent form, and [2^60] ends
    in zeros. *)
Example numToString_beyond_safe_integers :
  JS.numToString (2 ^ 53 + 1) = "9007199254740992" /\
  JS.numToString (10 ^ 21) = "1e+21" /\
  JS.numToString (2 ^ 60) = "1152921504606847000" /\
  JS.numToString (2 ^ 1024) = "Infinity".
Proof. repeat split; vm_compute; reflexivity. Qed.

End SafeIntegers.

Section ToolFormatting.

Import IconfontTools.

Lemma string_length_append (a b : string) :
  String.length (a +:+ b) = (String.length a + String.length b)%nat.
Proof.
  induction a as [|c a IH]; [reflexivity|]. rewrite cons_append. simpl. rewrite IH.
  reflexivity.
Qed.

Lemma take_length (n : nat) (s : string) : (String.length (take n s) <= n)%nat.
Proof.
  revert s. induction n as [|n IH]; intros [|c s]; simpl; try lia.
  specialize (IH s). lia.
Qed.

Lemma take_prefix (n : nat) (s : string) : String.prefix (take n s) s = true.
Proof.
  revert s. induction n as [|n IH]; intros [|c s]; try reflexivity.
  cbn [take]. cbn [String.prefix]. destruct (ascii_dec c c); [apply IH | contradiction].
Qed.

(** The truncated text is a prefix of the text followed by the notice, and
    a text within the limit is left alone. *)
Lemma truncate_spec (s : string) :
  Z.of_nat (String.length (truncate s)) <= CHARACTER_LIMIT + 38 /\
  (Z.of_nat (String.length s) <= CHARACTER_LIMIT -> truncate s = s) /\
  (CHARACTER_LIMIT < Z.of_nat (String.length s) ->
   truncate s =
     take (Z.to_nat CHARACTER_LIMIT) s +:+ LF +:+ LF
       +:+ "... (response truncated due to size)").
Proof.
  unfold truncate.
  destruct (Z.ltb_spec CHARACTER_LIMIT (Z.of_nat (String.length s))) as [Hlong|Hshort].
  - split; [|split; [lia | reflexivity]].
    rewrite !string_length_append.
    pose proof (take_length (Z.to_nat CHARACTER_LIMIT) s) as Htake.
    change (String.length LF) with 1%nat.
    change (String.length "... (response truncated due to size)") with 36%nat.
    assert (0 <= CHARACTER_LIMIT) by (unfold CHARACTER_LIMIT; lia). lia.
  - split; [lia|]. split; [reflexivity | lia].
Qed.

(** X19. The markdown list of a result page has a four-line heading and
    four lines for every icon, each icon's identifier among them. The advice
    to ask for the next page is its last line exactly when
    [total > page * pageSize] holds of the doubles, and it names the double
    [page + 1] as [toString] prints it; otherwise the list ends with an
    empty line. Within the safe integers the test is the one of the
    integers and the advice names [page + 1] in decimal digits. *)
Theorem search_result_lines
    (query : string) (total pg pgSize : Z) (icons : list IconfontIcon) :
  let lines := searchResultLines query total pg pgSize icons in
  let hasMore :=
    JS.gt (JS.toNumber total) (JS.mul (JS.toNumber pg) (JS.toNumber pgSize)) in
  let next := JS.numberToString (JS.add (JS.toNumber pg) (JS.Finite 1)) in
  let advice := "> More results available. Use page=" +:+ next +:+ " to see more." in
  head lines = Some ("# Icon Search Results: " +:+ QUOTE +:+ query +:+ QUOTE) /\
  (forall icon, In icon icons -> In ("- **ID**: " +:+ icon_id icon) lines) /\
  (hasMore = true ->
   length lines = (5 + 4 * length icons)%nat /\ last lines = Some advice) /\
  (hasMore = false ->
   length lines = (4 + 4 * length icons)%nat /\ last lines = Some "") /\
  (Z.abs total < 2 ^ 53 -> Z.abs pg < 2 ^ 53 -> Z.abs pgSize < 2 ^ 53 ->
   Z.abs (pg * pgSize) < 2 ^ 53 ->
   hasMore = (pg * pgSize <? total)) /\
  (Z.abs pg < 2 ^ 53 -> Z.abs (pg + 1) < 2 ^ 53 -> next = JS.digits (pg + 1)).
Proof.
  cbv zeta.
  assert (Hsafe :
    (Z.abs total < 2 ^ 53 -> Z.abs pg < 2 ^ 53 -> Z.abs pgSize < 2 ^ 53 ->
     Z.abs (pg * pgSize) < 2 ^ 53 ->
     JS.gt (JS.toNumber total) (JS.mul (JS.toNumber pg) (JS.toNumber pgSize))
     = (pg * pgSize <? total)) /\
    (Z.abs pg < 2 ^ 53 -> Z.abs (pg + 1) < 2 ^ 53 ->
     JS.numberToString (JS.add (JS.toNumber pg) (JS.Finite 1)) = JS.digits (pg + 1))).
  { split.
    - intros Ht Hp Hs Hps. rewrite mul_safe, (toNumber_safe total) by assumption.
      reflexivity.
    - intros Hp Hp1. change (JS.Finite 1) with (JS.toNumber 1).
      rewrite add_safe by (try assumption; reflexivity).
      rewrite <- (toNumber_safe (pg + 1) Hp1).
      exact (numToString_safe (pg + 1) Hp1). }
  destruct Hsafe as [Hgt Hnext].
  unfold searchResultLines. cbv zeta.
  set (block := fun icon : IconfontIcon =>
         ["## " +:+ icon_name icon; "- **ID**: " +:+ icon_id icon;
          "- **SVG Preview**: " +:+
            (if JS.truthy (show_svg icon) then "Available" else "Not available");
          ""]).
  assert (Hlen : length (flat_map block icons) = (4 * length icons)%nat).
  { induction icons as [|x l IH]; simpl; lia. }
  assert (Hlast : icons ≠ [] -> last (flat_map block icons) = Some "").
  { clear Hlen. induction icons as [|x l IH]; [contradiction|]. intros _.
    cbn [flat_map]. rewrite last_app. destruct l as [|y l]; [reflexivity|].
    rewrite IH by discriminate. reflexivity. }
  assert (Hin : forall icon, In icon icons ->
                             In ("- **ID**: " +:+ icon_id icon) (flat_map block icons)).
  { intros icon Hicon. apply in_flat_map. exists icon. split; [exact Hicon|].
    right. left. reflexivity. }
  revert Hgt.
  destruct (JS.gt (JS.toNumber total) (JS.mul (JS.toNumber pg) (JS.toNumber pgSize)))
    eqn:Hmore; intros Hgt.
  - split; [reflexivity|]. split.
    + intros icon Hicon. apply in_or_app. left. do 4 right. exact (Hin icon Hicon).
    + split; [|split; [discriminate | split; [exact Hgt | exact Hnext]]].
      intros _. split.
      * rewrite length_app. cbn [length app]. rewrite Hlen. simpl. lia.
      * apply last_snoc.
  - split; [reflexivity|]. split.
    + intros icon Hicon. do 4 right. exact (Hin icon Hicon).
    + split; [discriminate|]. split; [|split; [exact Hgt | exact Hnext]].
      intros _. split.
      * cbn [length app]. rewrite Hlen. lia.
      * destruct icons as [|x l]; [reflexivity|].
        change (last (["# Icon Search Results: " +:+ QUOTE +:+ query +:+ QUOTE; "";
                       "Found **" +:+ JS.numToString total +:+ "** icons (showing "
                         +:+ JS.numToString (Z.of_nat (length (x :: l)))
                         +:+ " on page " +:+ JS.numToString pg +:+ ")"; ""]
                      ++ flat_map block (x :: l)) = Some "").
        rewrite last_app, Hlast by discriminate. reflexivity.
Qed.

(** Beyond the safe integers the advice differs from the integers': on
    page [2^53] of a longer result it names page [2^53] again. *)
Example advice_beyond_safe_integers :
  last (searchResultLines "home" (2 ^ 62) (2 ^ 53) 20 [])
  = Some "> More results available. Use page=9007199254740992 to see more.".
Proof. vm_compute. reflexivity. Qed.

End ToolFormatting.

(** The two search operations leave the service as it is. *)
Lemma remote_session_unchanged
    (rt : Runtime) (self : IconfontService.t) (now : Z)
    (query projectId keyword : string) (iconType overrideCookie : option string)
    (pg pgSize pg' : option Z) :
  IconfontService.after
    (IconfontService.searchIcons rt self now query iconType pg pgSize) = self /\
  IconfontService.after
    (IconfontService.searchProjectIcons rt self now projectId keyword
       overrideCookie pg') = self.
Proof.
  unfold IconfontService.searchIcons, IconfontService.searchProjectIcons.
  split.
  all: repeat match goal with
         | |- context [if negb ?b then _ else _] => destruct b; cbn [negb]
         | |- context [match axios ?r ?q with _ => _ end] =>
             destruct (axios r q) as [[[?|]|]|?]
         | |- context [if isAuthStatus ?e then _ else _] => destruct (isAuthStatus e)
         | |- context [if isAborted ?e then _ else _] => destruct (isAborted e)
         end; reflexivity.
Qed.

Section ToolReplies.

Import IconfontTools.

(** X20. The replies of the two search tools. A reply carries structured
    content exactly when the search is fulfilled with at least one icon; a
    fulfilled search without icons gets the no-icons text even when the
    total is positive, and a rejected one the text [Error: ] followed by the
    message. With structured content a markdown text is never longer than
    the character limit plus the 38 characters of the truncation notice,
    while a JSON text is the serialised content, not truncated. The service
    is never changed and no file is written. *)
Theorem search_replies
    (pf : Platform) (rt : Runtime) (service : IconfontService.t) (now : Z)
    (params : SearchInput) (params' : ProjectSearchInput) :
  let shaped (fmt : ResponseFormat) (result : Completion IconfontSearchResult)
             (none_found : string) (r : ToolReply) :=
    match structuredContent r with
    | Some sc =>
        (exists res, result = Fulfilled res /\ icons res ≠ []) /\
        match fmt with
        | MARKDOWN => Z.of_nat (String.length (text r)) <= CHARACTER_LIMIT + 38
        | JSON => text r = stringify pf sc
        end
    | None =>
        (exists m, result = Rejected m /\ text r = "Error: " +:+ m) \/
        (exists res, result = Fulfilled res /\ icons res = [] /\ text r = none_found)
    end in
  let run := iconfont_search_icons pf rt service now params in
  let run' := iconfont_project_search_icons pf rt service now params' in
  shaped (s_response_format params)
    (IconfontService.outcome
       (IconfontService.searchIcons rt service now (query params)
          (Some (iconTypeValue (icon_type params)))
          (Some (s_page params)) (Some (s_page_size params))))
    ("No icons found for " +:+ QUOTE +:+ query params +:+ QUOTE
       +:+ ". Try a different search term.")
    (reply run) /\
  shaped (ps_response_format params')
    (IconfontService.outcome
       (IconfontService.searchProjectIcons rt service now (ps_pid params')
          (keyword params') (ps_cookie params') (Some (ps_page params'))))
    ("No icons found for keyword " +:+ QUOTE +:+ keyword params' +:+ QUOTE
       +:+ " in project " +:+ ps_pid params' +:+ ".")
    (reply run') /\
  service' run = service /\ service' run' = service /\
  written run = [] /\ written run' = [].
Proof.
  cbv zeta.
  pose proof (remote_session_unchanged rt service now (query params)
                (ps_pid params') (keyword params')
                (Some (iconTypeValue (icon_type params))) (ps_cookie params')
                (Some (s_page params)) (Some (s_page_size params))
                (Some (ps_page params'))) as [Hs Hs'].
  unfold iconfont_search_icons, iconfont_project_search_icons.
  rewrite Hs, Hs'.
  destruct (IconfontService.outcome (IconfontService.searchIcons _ _ _ _ _ _ _))
    as [res|m];
    destruct (IconfontService.outcome (IconfontService.searchProjectIcons _ _ _ _ _ _ _))
    as [res'|m'].
  all: try destruct (icons res) as [|i l] eqn:Hi;
       try destruct (icons res') as [|i' l'] eqn:Hi';
       cbn [reply structuredContent text service' written errorReply].
  all: repeat split; eauto 6.
  all: try (eexists; split; [reflexivity | rewrite ?Hi, ?Hi'; discriminate]).
  all: try (destruct (s_response_format params); [apply truncate_spec | reflexivity]).
  all: try (destruct (ps_response_format params'); [apply truncate_spec | reflexivity]).
Qed.

End ToolReplies.

Section ToolDownload.

Import IconfontTools.

(** X21. The download tool writes a file only on request. Without a
    non-empty [output_path] or [filename] nothing is written. Otherwise at
    most one file is written, and only for an icon that was found: its
    content is the icon's [svg], or its [show_svg] when the [svg] is empty;
    its name is [filename], else the icon's name, else the icon id, with
    [.svg] appended; its directory is [output_path], else the working
    directory; and the reply reports that path as [saved_to]. A reply
    without structured content is an error text and comes with no file:
    the icon was not found, the request failed or the write threw. *)
Theorem download_writes_on_request
    (pf : Platform) (rt : Runtime) (service : IconfontService.t)
    (params : DownloadInput) :
  let run := iconfont_download_icon pf rt service params in
  let found := IconfontService.outcome
                 (IconfontService.getIconDetail rt service (d_icon_id params)) in
  (JS.orStr (output_path params) (JS.orStr (filename params) "") = "" ->
   written run = []) /\
  (forall path content, In (path, content) (written run) ->
     written run = [(path, content)] /\
     exists icon,
       found = Fulfilled (Some icon) /\
       content = (if JS.truthy (svg icon) then svg icon else show_svg icon) /\
       path = resolve pf (JS.orStr (output_path params) (cwd pf))
                (JS.orStr (filename params)
                   (if JS.truthy (icon_name icon) then icon_name icon
                    else d_icon_id params) +:+ ".svg") /\
       writeFileSync pf path content = None /\
       structuredContent (reply run) =
         Some (DownloadContent (icon_id icon) (icon_name icon) content (Some path))) /\
  (structuredContent (reply run) = None ->
   written run = [] /\ exists m, text (reply run) = "Error: " +:+ m) /\
  service' run = service /\
  length (sent run) = 1%nat.
Proof.
  cbv zeta. unfold iconfont_download_icon.
  assert (Hafter : IconfontService.after
                     (IconfontService.getIconDetail rt service (d_icon_id params))
                   = service).
  { unfold IconfontService.getIconDetail. axios_cases; reflexivity. }
  assert (Hsent : length (IconfontService.wire
                            (IconfontService.getIconDetail rt service (d_icon_id params)))
                  = 1%nat).
  { unfold IconfontService.getIconDetail. axios_cases; reflexivity. }
  rewrite Hafter.
  destruct (IconfontService.outcome _) as [[icon|]|m];
    cbn [reply structuredContent text written service' sent errorReply].
  2: { split; [reflexivity|]. split; [intros ? ? []|]. split; [|auto].
       intros _. split; [reflexivity|].
       exists ("Icon with ID " +:+ QUOTE +:+ d_icon_id params +:+ QUOTE +:+ " not found.").
       reflexivity. }
  2: { split; [reflexivity|]. split; [intros ? ? []|]. split; [|auto].
       intros _. split; [reflexivity|]. exists m. reflexivity. }
  destruct (JS.truthy (JS.orStr (output_path params) (JS.orStr (filename params) "")))
    eqn:Hasked.
  - match goal with
    | |- context [writeFileSync pf ?p ?c] =>
        destruct (writeFileSync pf p c) as [m|] eqn:Hwrite
    end; cbn [reply structuredContent text written service' sent errorReply].
    + split; [reflexivity|]. split; [intros ? ? []|]. split; [|auto].
      intros _. split; [reflexivity|]. exists m. reflexivity.
    + split; [intros E; rewrite E in Hasked; discriminate|].
      split; [|split; [discriminate | auto]].
      intros path content [E|[]]. injection E as <- <-.
      split; [reflexivity|]. exists icon. repeat split. exact Hwrite.
  - cbn [reply structuredContent text written service' sent].
    split; [reflexivity|]. split; [intros ? ? []|]. split; [discriminate | auto].
Qed.

End ToolDownload.

Section ToolAuthentication.

Import IconfontTools.

(** X22. Without a stored cookie and without a non-empty [cookie]
    argument, the three project tools reply with the text [Error:
    Authentication required. Please provide Iconfont cookie.], carry no
    structured content, send nothing and leave the service as it is. *)
Theorem project_tools_require_cookie
    (pf : Platform) (rt : Runtime) (service : IconfontService.t) (now : Z)
    (lp : ListProjectsInput) (dp : ProjectDetailInput) (sp : ProjectSearchInput) :
  IconfontService.cookie service = "" ->
  l_cookie lp = None \/ l_cookie lp = Some "" ->
  pd_cookie dp = None \/ pd_cookie dp = Some "" ->
  ps_cookie sp = None \/ ps_cookie sp = Some "" ->
  let refused :=
    {| reply :=
         {| text := "Error: Authentication required. Please provide Iconfont cookie.";
            structuredContent := None |};
       service' := service; sent := []; written := [] |} in
  iconfont_list_projects pf rt service now lp = refused /\
  iconfont_get_project_detail pf rt service now dp = refused /\
  iconfont_project_search_icons pf rt service now sp = refused.
Proof.
  intros Hstored Hl Hd Hs. cbv zeta.
  unfold iconfont_list_projects, iconfont_get_project_detail,
    iconfont_project_search_icons, IconfontService.listProjects,
    IconfontService.getProjectDetail, IconfontService.searchProjectIcons.
  rewrite !getEffectiveCookie_effectiveToken, Hstored.
  destruct Hl as [->| ->], Hd as [->| ->], Hs as [->| ->]; repeat split.
Qed.

Lemma project_tools_require_cookie_witness :
  text (reply (iconfont_list_projects Fixture.platform Sample.serving
                 Sample.anonymous 0
                 {| l_cookie := None; l_response_format := MARKDOWN |}))
  = "Error: Authentication required. Please provide Iconfont cookie.".
Proof.
  pose proof (project_tools_require_cookie Fixture.platform Sample.serving
                Sample.anonymous 0
                {| l_cookie := None; l_response_format := MARKDOWN |}
                {| pd_cookie := Some ""; pd_pid := "42"; pd_response_format := JSON |}
                {| ps_cookie := None; ps_pid := "42"; keyword := "home";
                   ps_page := 1; ps_response_format := MARKDOWN |}
                eq_refl (or_introl eq_refl) (or_intror eq_refl) (or_introl eq_refl))
    as [E _].
  cbv zeta in E. rewrite E. reflexivity.
Defined.

(** The run of the project-detail tool in terms of the service's. *)
Lemma project_detail_tool_run
    (pf : Platform) (rt : Runtime) (service : IconfontService.t) (now : Z)
    (params : ProjectDetailInput) :
  let run := IconfontService.getProjectDetail rt service now (pd_pid params)
               (pd_cookie params) None in
  let tool := iconfont_get_project_detail pf rt service now params in
  sent tool = IconfontService.wire run /\
  service' tool = IconfontService.after run /\
  reply tool =
    match IconfontService.outcome run with
    | Fulfilled detail =>
        {| text :=
             match pd_response_format params with
             | JSON => stringify pf (DetailContent detail)
             | MARKDOWN => JS.join LF (detailLines pf detail)
             end;
           structuredContent := Some (DetailContent detail) |}
    | Rejected m => errorReply m
    end.
Proof.
  cbv zeta. unfold iconfont_get_project_detail.
  destruct (IconfontService.outcome _); repeat split.
Qed.

(** X23. The project-detail tool never forces a refresh. Once it has
    fetched a project remotely at time [t0], every later call for that
    project made less than the maximal cache age after [t0] with a
    non-empty effective cookie sends nothing, leaves the service as it is
    and replies with the same structured content, and with the same reply
    altogether when the format is the same, whatever the remote service
    would answer by then. *)
Theorem project_detail_tool_cached
    (pf : Platform) (rt rt' : Runtime) (service : IconfontService.t) (t0 t1 : Z)
    (params params' : ProjectDetailInput) (content : Structured) :
  let first := iconfont_get_project_detail pf rt service t0 params in
  let second := iconfont_get_project_detail pf rt' (service' first) t1 params' in
  sent first ≠ [] ->
  structuredContent (reply first) = Some content ->
  pd_pid params' = pd_pid params ->
  JS.truthy (IconfontService.getEffectiveCookie (service' first) (pd_cookie params'))
  = true ->
  t1 - t0 < IconfontService.cacheMaxAge service ->
  sent second = [] /\
  service' second = service' first /\
  structuredContent (reply second) = Some content /\
  (pd_response_format params' = pd_response_format params ->
   reply second = reply first).
Proof.
  cbv zeta. intros Hsent Hcontent Hpid Hcookie Hage.
  pose proof (project_detail_tool_run pf rt service t0 params) as (Hs & Ha & Hr).
  cbv zeta in Hs, Ha, Hr. rewrite Hs in Hsent. rewrite Hr in Hcontent.
  rewrite Ha in Hcookie |- *.
  pose proof (project_detail_tool_run pf rt'
                (IconfontService.after
                   (IconfontService.getProjectDetail rt service t0 (pd_pid params)
                      (pd_cookie params) None)) t1 params') as (Hs' & Ha' & Hr').
  cbv zeta in Hs', Ha', Hr'. rewrite Hs', Ha', Hr', Hr. clear Hs Ha Hr Hs' Ha' Hr'.
  set (run := IconfontService.getProjectDetail rt service t0 (pd_pid params)
                (pd_cookie params) None) in *.
  assert (Hwire : IconfontService.wire run
                  = [IconfontService.detailRequest service t0 (pd_pid params)
                       (pd_cookie params)]).
  { clear Hcookie Hcontent. revert Hsent. unfold run. rewrite getProjectDetail_wire.
    destruct (JS.truthy (IconfontService.getEffectiveCookie service (pd_cookie params)));
      [|intros H; destruct (H eq_refl)].
    destruct (IconfontService.cachedDetail service t0 (pd_pid params) (default false None));
      [intros H; destruct (H eq_refl) | reflexivity]. }
  destruct (IconfontService.outcome run) as [detail|m] eqn:Hout;
    cbn [structuredContent errorReply] in Hcontent; [|discriminate].
  injection Hcontent as <-.
  rewrite Hpid. subst run.
  rewrite (getProjectDetail_rehit rt rt' service t0 t1 (pd_pid params)
             (pd_cookie params) (pd_cookie params') None detail Hwire Hout Hcookie Hage).
  cbn [IconfontService.outcome IconfontService.after IconfontService.wire
       structuredContent].
  repeat split. intros ->. reflexivity.
Qed.

Lemma project_detail_tool_cached_witness :
  let first :=
    iconfont_get_project_detail Fixture.platform Sample.serving Sample.loggedIn 0
      {| pd_cookie := None; pd_pid := "42"; pd_response_format := MARKDOWN |} in
  sent (iconfont_get_project_detail Fixture.platform Sample.unauthorized
          (service' first) 299999
          {| pd_cookie := None; pd_pid := "42"; pd_response_format := JSON |}) = [].
Proof.
  apply (project_detail_tool_cached Fixture.platform Sample.serving
           Sample.unauthorized Sample.loggedIn 0 299999
           {| pd_cookie := None; pd_pid := "42"; pd_response_format := MARKDOWN |}
           {| pd_cookie := None; pd_pid := "42"; pd_response_format := JSON |}
           (DetailContent Sample.detail42)).
  - vm_compute. discriminate.
  - vm_compute. reflexivity.
  - reflexivity.
  - reflexivity.
  - simpl. lia.
Defined.

End ToolAuthentication.

Section ToolSearchRequest.

Import IconfontTools.

(** X24. The search tool sends exactly one request, a POST of a form to
    [/icon/search.json] with a 30000 ms timeout. The form carries the query
    under [q], the page and the page size as [toString] prints these
    numbers, that is in decimal digits within the safe integers, and the
    flag [<type>=1] exactly when an icon type other than [ALL] is chosen.
    The request carries the stored cookie when there is one; the tool has
    no way to pass another. *)
Theorem search_tool_request
    (pf : Platform) (rt : Runtime) (service : IconfontService.t) (now : Z)
    (params : SearchInput) :
  exists req,
    sent (iconfont_search_icons pf rt service now params) = [req] /\
    method req = POST /\
    url req = "https://www.iconfont.cn/api/icon/search.json" /\
    timeout req = 30000 /\
    JS.getProp "q" (form req) = Some (query params) /\
    JS.getProp "page" (form req) = Some (JS.numToString (s_page params)) /\
    JS.getProp "pageSize" (form req) = Some (JS.numToString (s_page_size params)) /\
    (Z.abs (s_page params) < 2 ^ 53 ->
     JS.getProp "page" (form req) = Some (JS.digits (s_page params))) /\
    (Z.abs (s_page_size params) < 2 ^ 53 ->
     JS.getProp "pageSize" (form req) = Some (JS.digits (s_page_size params))) /\
    JS.getProp "sortType" (form req) = Some "updated_at" /\
    (icon_type params = ALL -> length (form req) = 7%nat) /\
    (icon_type params ≠ ALL ->
     length (form req) = 8%nat /\
     JS.getProp (iconTypeValue (icon_type params)) (form req) = Some "1") /\
    JS.getProp "Content-Type" (headers req) = Some "application/x-www-form-urlencoded" /\
    JS.getProp "Cookie" (headers req) =
      (if JS.truthy (IconfontService.cookie service)
       then Some (IconfontService.cookieValue (IconfontService.cookie service))
       else None).
Proof.
  assert (Hsent : sent (iconfont_search_icons pf rt service now params) =
                  IconfontService.wire
                    (IconfontService.searchIcons rt service now (query params)
                       (Some (iconTypeValue (icon_type params)))
                       (Some (s_page params)) (Some (s_page_size params)))).
  { unfold iconfont_search_icons.
    destruct (IconfontService.outcome _) as [res|m]; [destruct (icons res)|];
      reflexivity. }
  rewrite Hsent. unfold IconfontService.searchIcons.
  cbv zeta. eexists. split.
  - axios_cases; repeat match goal with
      | |- context [if isAuthStatus ?e then _ else _] => destruct (isAuthStatus e)
      | |- context [if isAborted ?e then _ else _] => destruct (isAborted e)
      end; reflexivity.
  - cbn [method url timeout form headers default].
    unfold IconfontService.getHeaders, IconfontService.getEffectiveCookie. cbv zeta.
    cbn [JS.orStr].
    repeat split.
    + intros Hsafe. rewrite <- (numToString_safe _ Hsafe). reflexivity.
    + intros Hsafe. rewrite <- (numToString_safe _ Hsafe). reflexivity.
    + intros ->. reflexivity.
    + destruct (icon_type params); try reflexivity. contradiction.
    + destruct (icon_type params); try reflexivity. contradiction.
    + destruct (JS.truthy (IconfontService.cookie service)); reflexivity.
    + destruct (JS.truthy (IconfontService.cookie service)); reflexivity.
Qed.

End ToolSearchRequest.

Section SessionSeed.

Import IconfontService.

(** X25. The constructor seeds the session: a non-empty argument wins over
    the environment variable, the variable is used when the argument is
    missing or empty, and without either the cookie is empty. The service
    starts logged in exactly when the seeded cookie is not empty, with an
    empty detail cache and a maximal age of 300000 ms. *)
Theorem constructor_seed (c e : option string) :
  let self := constructor c e in
  cookie self = effectiveToken c (effectiveToken e "") /\
  (loggedIn self = true <-> cookie self ≠ "") /\
  getLoginStatus self =
    {| st_loggedIn := JS.truthy (cookie self); st_hasCookie := JS.truthy (cookie self) |} /\
  (forall key, projectDetailCache self !! key = None) /\
  cacheMaxAge self = 300000.
Proof.
  cbv zeta. unfold constructor, getLoginStatus.
  cbn [cookie loggedIn projectDetailCache cacheMaxAge].
  assert (Hor : forall o d, JS.orStr o d = effectiveToken o d).
  { intros [s|] d; [|reflexivity]. destruct s; reflexivity. }
  rewrite !Hor. set (seed := effectiveToken c (effectiveToken e "")).
  split; [reflexivity|]. split; [|split; [|split; [|reflexivity]]].
  - destruct seed; simpl; split; congruence.
  - destruct (JS.truthy seed); reflexivity.
  - intros key. apply lookup_empty.
Qed.

(** A fresh entry is served. *)
Lemma getProjectDetail_hit
    (rt : Runtime) (self : t) (now : Z) (projectId : string) (o : option string)
    (entry : CacheEntry) :
  projectDetailCache self !! projectId = Some entry ->
  now - timestamp entry < cacheMaxAge self ->
  JS.truthy (getEffectiveCookie self o) = true ->
  getProjectDetail rt self now projectId o None =
    {| outcome := Fulfilled (data entry); after := self; wire := [] |}.
Proof.
  intros Hentry Hage Hc. unfold getProjectDetail. rewrite Hc. cbn [negb default].
  rewrite cachedDetail_spec, Hentry. cbn [negb andb].
  destruct (Z.ltb_spec (now - timestamp entry) (cacheMaxAge self)); [reflexivity | lia].
Qed.

(** X26. The detail cache survives a change of login. [setCookie] stores
    the new cookie and keeps every cache entry, so a project fetched under
    one login is served from the cache under the next one for as long as
    the entry is fresh, without asking the remote service whether the new
    login may see it. *)
Theorem login_change_keeps_cache
    (rt rt' : Runtime) (self : t) (t0 t1 : Z) (projectId c : string)
    (o : option string) (f : option bool) (result : IconfontProjectDetail) :
  let first := getProjectDetail rt self t0 projectId o f in
  let relogged := setCookie (after first) c in
  wire first = [detailRequest self t0 projectId o] ->
  outcome first = Fulfilled result ->
  c ≠ "" ->
  t1 - t0 < cacheMaxAge self ->
  getCookie relogged = c /\
  projectDetailCache relogged = projectDetailCache (after first) /\
  getProjectDetail rt' relogged t1 projectId None None =
    {| outcome := Fulfilled result; after := relogged; wire := [] |}.
Proof.
  cbv zeta. intros Hwire Hout Hc Hage.
  split; [reflexivity|]. split; [reflexivity|].
  assert (Hfresh : projectDetailCache
                     (after (getProjectDetail rt self t0 projectId o f)) !! projectId
                   = Some {| data := result; timestamp := t0;
                             updatedAt := updated_at result |}).
  { revert Hwire Hout. unfold getProjectDetail.
    destruct (negb _); [discriminate|].
    destruct (cachedDetail _ _ _ _); [discriminate|].
    axios_cases; try destruct (d_project _); cbn [after outcome wire];
      try (intros _ E; try destruct (isAuthStatus _); discriminate).
    intros _ E. injection E as <-.
    unfold cacheSet; cbn [projectDetailCache]. apply lookup_insert_eq. }
  apply (getProjectDetail_hit rt' _ t1 projectId None
           {| data := result; timestamp := t0; updatedAt := updated_at result |}).
  - exact Hfresh.
  - cbn [timestamp]. rewrite setCookie_cacheMaxAge, getProjectDetail_cacheMaxAge.
    exact Hage.
  - unfold getEffectiveCookie. cbn. destruct c; [contradiction | reflexivity].
Qed.

Lemma login_change_keeps_cache_witness :
  getProjectDetail Sample.unauthorized (setCookie Sample.warmed "someone-else")
    1000 "42" None None =
    {| outcome := Fulfilled Sample.detail42;
       after := setCookie Sample.warmed "someone-else"; wire := [] |}.
Proof.
  apply (login_change_keeps_cache Sample.serving Sample.unauthorized Sample.loggedIn
           0 1000 "42" "someone-else" None None Sample.detail42).
  - vm_compute. reflexivity.
  - vm_compute. reflexivity.
  - discriminate.
  - simpl. lia.
Defined.

End SessionSeed.
